(** * Task lifecycle engine of the task-manage backend

    A shallow embedding of [backend/middleware/auth.middleware.js],
    [backend/models/task.model.js], [backend/models/notification.model.js],
    [backend/routes/task.routes.js], [backend/routes/notification.routes.js]
    and of three routes of [backend/routes/user.routes.js], followed by the
    properties of the authorization rules, the list query, the notification
    side effects, the recurrence helper, and the routes of the notifications
    and of the users.

    Conventions of the embedding.
    - A MongoDB collection is the list of its documents in insertion order.
    - A string is the sequence of its code units, which the model takes
      below 256.
    - An [ObjectId] is the string of its 24 hexadecimal digits, in lower
      case. The ids by which a request names a document (the id of a session,
      of a route, of a batch and of a filter) are taken in this spelling. The
      value that a body gives for a path of type ObjectId is cast as the
      store casts it: a text of 24 hexadecimal digits, of either case, is
      read as the id of its lower case spelling, and any other text fails the
      cast (the strings of 12 characters, which the drivers older than
      version 5 of [bson] also read as ids, fail it).
    - A [Date] is its number of milliseconds since the epoch, and the local
      time zone of the server is UTC.
    - A request body is the association list of its keys and JSON values.
      In the fields [dueDate] and [recurringEndDate] an ISO-8601 date string
      is represented by the [Date] that the [toDate()] sanitizer makes of it,
      and no other string of these fields is an ISO-8601 date (the ISO-8601
      strings that [Date.parse] does not read, of which the sanitizer makes
      [null], are not bodies of the model).
    - Every handler is a function from the store to a response and the new
      store; the store also keeps the sequence of the write operations that
      were issued, oldest first. *)

From Stdlib Require Import String Ascii List ZArith Bool Lia.
Import ListNotations.
Local Open Scope string_scope.

(** ** JavaScript values and strings *)

Module Js.

Inductive Value : Type :=
| VStr (s : string)
| VBool (b : bool)
| VDate (ms : Z)
| VArr (items : list string)
| VNull.

(** [if (v)] *)
Definition truthy (v : Value) : bool :=
  match v with
  | VStr s => negb (s =? "")
  | VBool b => b
  | VDate _ => true
  | VArr _ => true
  | VNull => false
  end.

(** [if (s)] for a query-string parameter that may be missing. *)
Definition given (o : option string) : bool :=
  match o with
  | Some s => negb (s =? "")
  | None => false
  end.

(** The white space and the line terminators of ECMAScript that lie below
    256: tab, line feed, vertical tab, form feed, carriage return, space and
    no-break space. *)
Definition is_space (c : ascii) : bool :=
  existsb (Nat.eqb (nat_of_ascii c)) [9; 10; 11; 12; 13; 32; 160]%nat.

Fixpoint ltrim (s : string) : string :=
  match s with
  | EmptyString => EmptyString
  | String c rest => if is_space c then ltrim rest else s
  end.

Fixpoint rtrim (s : string) : string :=
  match s with
  | EmptyString => EmptyString
  | String c rest =>
      let r := rtrim rest in
      if is_space c && (r =? "") then EmptyString else String c r
  end.

(** [String.prototype.trim], which is also the [trim()] sanitizer. *)
Definition trim (s : string) : string := rtrim (ltrim s).

Definition lower (c : ascii) : ascii :=
  let n := nat_of_ascii c in
  if (65 <=? n)%nat && (n <=? 90)%nat then ascii_of_nat (n + 32) else c.

(** The lower case of the letters A to Z, which is what
    [String.prototype.toLowerCase] makes of a text of hexadecimal digits. *)
Fixpoint lowercase (s : string) : string :=
  match s with
  | EmptyString => EmptyString
  | String c rest => String (lower c) (lowercase rest)
  end.

(** [Array.prototype.join()], which is [toString()] on an array of strings. *)
Definition join (items : list string) : string := String.concat "," items.

(** [Array.prototype.includes] on strings. *)
Definition includes (l : list string) (s : string) : bool :=
  existsb (String.eqb s) l.

(** A JavaScript object used as a record of JSON values. *)
Definition Obj : Type := list (string * Value).

(** [o[key]]; [None] is [undefined]. Keys are unique in an object; were a
    key listed twice the last occurrence would be the one kept. *)
Fixpoint get {A : Type} (o : list (string * A)) (key : string) : option A :=
  match o with
  | [] => None
  | (k, v) :: rest =>
      match get rest key with
      | Some v' => Some v'
      | None => if k =? key then Some v else None
      end
  end.

(** [Object.keys(o)] *)
Definition keys {A : Type} (o : list (string * A)) : list string := map fst o.

End Js.

Import Js.

(** ** Documents *)

Definition ObjectId : Type := string.

(** [models/user.model.js] is used through [_id], [name], [email] and [role]. *)
Record User : Type := mkUser {
  u_id : ObjectId;
  u_name : string;
  u_email : string;
  u_role : string
}.

(** [taskSchema]. [status] and [priority] are [None] when the stored value is
    [null], which a batch update can write; [dueDate], [description],
    [assignedTo] and [recurringEndDate] are [None] when they are not set. A
    path that holds [null] is written as a path that is not set: the routes
    do not tell the two apart. *)
Record Task : Type := mkTask {
  t_id : ObjectId;
  title : string;
  description : option string;
  status : option string;
  priority : option string;
  dueDate : option Z;
  createdBy : ObjectId;
  assignedTo : option ObjectId;
  tags : list string;
  isRecurring : bool;
  recurringType : string;
  recurringEndDate : option Z
}.

(** [notificationSchema] *)
Record Notification : Type := mkNotification {
  n_type : string;
  sender : ObjectId;
  recipient : ObjectId;
  message : string;
  relatedTask : option ObjectId;
  isRead : bool
}.

(** The result of [populate(path, 'name email')]. *)
Record UserRef : Type := mkUserRef {
  r_id : ObjectId;
  r_name : string;
  r_email : string
}.

Record Populated : Type := mkPopulated {
  p_task : Task;
  p_createdBy : option UserRef;
  p_assignedTo : option UserRef
}.

(** ** The store *)

Inductive StoreOp : Type :=
| OpTaskInsert (t : Task)
| OpTaskSave (t : Task)
| OpTaskUpdateMany (ids : list ObjectId) (set : list (string * option string))
| OpTaskDelete (id : ObjectId)
| OpNotificationInsert (n : Notification)
| OpNotificationRejected (n : Notification).

Record World : Type := mkWorld {
  users : list User;
  tasks : list Task;
  notifications : list Notification;
  oplog : list StoreOp;
  nextId : nat
}.

(** What the handlers take from their environment: the clock, the parser of
    [new Date(string)] ([None] for an invalid date), the regular expression
    engine of the store ([$regex] with [$options: 'i']), its ordering of two
    documents on a sort key, the generator of object ids, and whether the
    store accepts a given notification. *)
Record Env : Type := mkEnv {
  env_now : Z;
  env_parseDate : string -> option Z;
  env_regex_i : string -> string -> bool;
  env_leq : string -> Task -> Task -> bool;
  env_newId : nat -> ObjectId;
  env_notificationSaves : World -> Notification -> bool
}.

Definition findUserById (w : World) (id : ObjectId) : option User :=
  find (fun u => u_id u =? id) (users w).

Definition findTaskById (w : World) (id : ObjectId) : option Task :=
  find (fun t => t_id t =? id) (tasks w).

Definition toRef (u : User) : UserRef :=
  {| r_id := u_id u; r_name := u_name u; r_email := u_email u |}.

(** [.populate('createdBy', 'name email').populate('assignedTo', 'name email')]:
    a reference to a user that does not exist becomes [null]. *)
Definition populate (w : World) (t : Task) : Populated :=
  {| p_task := t;
     p_createdBy := option_map toRef (findUserById w (createdBy t));
     p_assignedTo :=
       match assignedTo t with
       | Some a => option_map toRef (findUserById w a)
       | None => None
       end |}.

(** ** Responses *)

Inductive Payload : Type :=
| PError (msg : string)
| PErrors
| PException
| PMessage (msg : string)
| PTask (p : Populated)
| PTaskMessage (msg : string) (t : Task)
| PTasks (ts : list Populated) (total page : Z) (pages : option Z)
| PBatch (msg : string) (modifiedCount : nat).

Record Response : Type := mkResponse {
  code : nat;
  payload : Payload
}.

Definition respond (c : nat) (p : Payload) : Response :=
  {| code := c; payload := p |}.

(** [res.status(500).json({ error: true, message: error.message })] *)
Definition internalError : Response := respond 500 PException.

(** The outcome of a middleware: it calls [next()] or it answers. *)
Inductive Guard (A : Type) : Type :=
| Next (a : A)
| Reply (r : Response).
Arguments Next {A} a.
Arguments Reply {A} r.

(** What [jwt.verify] makes of the cookie or of the authorization header. *)
Inductive Token : Type :=
| NoToken
| BadToken
| Session (id : ObjectId).

(** ** [middleware/auth.middleware.js] *)

Module Auth.

(** [requireSignIn] *)
Definition requireSignIn (w : World) (token : Token) : Guard User :=
  match token with
  | NoToken =>
      Reply (respond 401 (PError "Authentication required. Please sign in."))
  | BadToken =>
      Reply (respond 401 (PError "Invalid or expired token. Please sign in again."))
  | Session id =>
      match findUserById w id with
      | None => Reply (respond 401 (PError "User not found. Please sign in again."))
      | Some user => Next user
      end
  end.

(** [hasRole(...roles)], after [requireSignIn]. *)
Definition hasRole (roles : list string) (user : User) : Guard unit :=
  if negb (includes roles (u_role user))
  then Reply (respond 403
         (PError "Access denied. You do not have permission to perform this action."))
  else Next tt.

(** [isTaskCreatorOrAdmin] *)
Definition isTaskCreatorOrAdmin (w : World) (user : User) (taskId : ObjectId)
  : Guard Task :=
  match findTaskById w taskId with
  | None => Reply (respond 404 (PError "Task not found"))
  | Some task =>
      if (u_role user =? "admin")
         || (createdBy task =? u_id user)
         || ((u_role user =? "manager")
             && match assignedTo task with
                | Some a => a =? u_id user
                | None => false
                end)
      then Next task
      else Reply (respond 403
             (PError "Access denied. You are not authorized to modify this task."))
  end.

End Auth.

(** ** Dates

    The part of the JavaScript [Date] that the routes use, in UTC. A date is
    [Some ms], or [None] for the invalid date. *)

Module Dates.

Local Open Scope Z_scope.

Definition msPerDay : Z := 86400000.

(** Day number and time within the day of a time value. *)
Definition dayOf (t : Z) : Z := t / msPerDay.
Definition timeWithinDay (t : Z) : Z := t mod msPerDay.

(** Year, month (0 to 11) and day of the month (1 to 31) of a day number. *)
Definition civil (z : Z) : Z * Z * Z :=
  let z := z + 719468 in
  let era := z / 146097 in
  let doe := z - era * 146097 in
  let yoe := (doe - doe / 1460 + doe / 36524 - doe / 146096) / 365 in
  let doy := doe - (365 * yoe + yoe / 4 - yoe / 100) in
  let mp := (5 * doy + 2) / 153 in
  let d := doy - (153 * mp + 2) / 5 + 1 in
  let m := if mp <? 10 then mp + 2 else mp - 10 in
  let y := yoe + era * 400 + (if m <=? 1 then 1 else 0) in
  (y, m, d).

(** Day number of the first day of month [m] (0 to 11) of year [y]. *)
Definition firstOfMonth (y m : Z) : Z :=
  let y := if m <=? 1 then y - 1 else y in
  let era := y / 400 in
  let yoe := y - era * 400 in
  let doy := (153 * (if m <=? 1 then m + 10 else m - 2) + 2) / 5 in
  let doe := yoe * 365 + yoe / 4 - yoe / 100 + doy in
  era * 146097 + doe - 719468.

(** [MakeDay(year, month, date)]: the month may lie outside 0 to 11 and the
    date outside the month. *)
Definition makeDay (y m d : Z) : Z :=
  firstOfMonth (y + m / 12) (m mod 12) + d - 1.

Definition getDate (t : Z) : Z := let '(_, _, d) := civil (dayOf t) in d.
Definition getMonth (t : Z) : Z := let '(_, m, _) := civil (dayOf t) in m.

(** [date.setDate(d)] *)
Definition setDate (t d : Z) : Z :=
  let '(y, m, _) := civil (dayOf t) in
  makeDay y m d * msPerDay + timeWithinDay t.

(** [date.setMonth(m)] *)
Definition setMonth (t m : Z) : Z :=
  let '(y, _, d) := civil (dayOf t) in
  makeDay y m d * msPerDay + timeWithinDay t.

(** [date.setHours(h, mi, s, ms)] *)
Definition setHours (t h mi s ms : Z) : Z :=
  dayOf t * msPerDay + ((h * 60 + mi) * 60 + s) * 1000 + ms.

(** The time value of a calendar date at midnight, for writing examples. *)
Definition utc (y m d : Z) : Z := makeDay y (m - 1) d * msPerDay.

End Dates.

(** ** [models/task.model.js] and the request validators *)

Module Model.

Definition statuses : list string := ["todo"; "in-progress"; "review"; "completed"].
Definition priorities : list string := ["low"; "medium"; "high"; "urgent"].
Definition recurringTypes : list string := ["daily"; "weekly"; "monthly"; "none"].

(** The text on which a string validator or a string cast works. A [null]
    has the empty text; a date or an array has none: a validator reads an
    array element by element, and the cast to a string refuses it. *)
Definition asText (v : Value) : option string :=
  match v with
  | VStr s => Some s
  | VBool true => Some "true"
  | VBool false => Some "false"
  | VNull => Some ""
  | VDate _ => None
  | VArr _ => None
  end.

(** A standard validator of [express-validator]: the check is made on the
    text of the value, and on the text of every element when the value is an
    array, which passes when it has no element that fails. *)
Definition each (check : string -> bool) (v : Value) : bool :=
  match v with
  | VArr items => forallb check items
  | _ =>
      match asText v with
      | Some s => check s
      | None => false
      end
  end.

(** [.isIn(values)] *)
Definition isIn (values : list string) (v : Value) : bool :=
  each (includes values) v.

(** [.trim().notEmpty()] *)
Definition notEmptyTrimmed (v : Value) : bool :=
  each (fun s => negb (trim s =? "")) v.

(** [.isISO8601().toDate()]: the strings that pass are the [VDate]s, and an
    array passes when it is empty. *)
Definition isISO8601 (v : Value) : bool :=
  match v with
  | VDate _ => true
  | VArr items => match items with [] => true | _ :: _ => false end
  | _ => false
  end.

(** [.isArray()] *)
Definition isArray (v : Value) : bool :=
  match v with
  | VArr _ => true
  | _ => false
  end.

(** [.isBoolean()] *)
Definition isBoolean (v : Value) : bool :=
  each (includes ["true"; "false"; "1"; "0"]) v.

(** [body(field).optional().check] *)
Definition optional (check : Value -> bool) (body : Obj) (field : string) : bool :=
  match get body field with
  | None => true
  | Some v => check v
  end.

(** The checks that the update and the create routes share. *)
Definition validateCommon (body : Obj) : bool :=
  optional (isIn statuses) body "status"
  && optional (isIn priorities) body "priority"
  && optional isISO8601 body "dueDate"
  && optional isArray body "tags"
  && optional isBoolean body "isRecurring"
  && optional (isIn recurringTypes) body "recurringType"
  && optional isISO8601 body "recurringEndDate".

(** The validator chain of [router.post('/')]: the title is required. *)
Definition validateCreate (body : Obj) : bool :=
  match get body "title" with
  | None => false
  | Some v => notEmptyTrimmed v
  end
  && validateCommon body.

(** The validator chain of [router.put('/:id')]. *)
Definition validateUpdate (body : Obj) : bool :=
  optional notEmptyTrimmed body "title" && validateCommon body.

(** A Mongoose document in memory: the values of its paths, and whether an
    assignment could not be cast to the type of its path, or left a required
    path without a value, which makes [save()] reject. *)
Record Doc : Type := mkDoc {
  d_task : Task;
  d_invalid : bool
}.

Definition invalidate (d : Doc) : Doc :=
  {| d_task := d_task d; d_invalid := true |}.

Definition setTitle (t : Task) (x : string) : Task :=
  mkTask (t_id t) x (description t) (status t) (priority t) (dueDate t)
    (createdBy t) (assignedTo t) (tags t) (isRecurring t) (recurringType t)
    (recurringEndDate t).
Definition setDescription (t : Task) (x : option string) : Task :=
  mkTask (t_id t) (title t) x (status t) (priority t) (dueDate t)
    (createdBy t) (assignedTo t) (tags t) (isRecurring t) (recurringType t)
    (recurringEndDate t).
Definition setStatus (t : Task) (x : option string) : Task :=
  mkTask (t_id t) (title t) (description t) x (priority t) (dueDate t)
    (createdBy t) (assignedTo t) (tags t) (isRecurring t) (recurringType t)
    (recurringEndDate t).
Definition setPriority (t : Task) (x : option string) : Task :=
  mkTask (t_id t) (title t) (description t) (status t) x (dueDate t)
    (createdBy t) (assignedTo t) (tags t) (isRecurring t) (recurringType t)
    (recurringEndDate t).
Definition setDueDate (t : Task) (x : option Z) : Task :=
  mkTask (t_id t) (title t) (description t) (status t) (priority t) x
    (createdBy t) (assignedTo t) (tags t) (isRecurring t) (recurringType t)
    (recurringEndDate t).
Definition setCreatedBy (t : Task) (x : ObjectId) : Task :=
  mkTask (t_id t) (title t) (description t) (status t) (priority t) (dueDate t)
    x (assignedTo t) (tags t) (isRecurring t) (recurringType t)
    (recurringEndDate t).
Definition setAssignedTo (t : Task) (x : option ObjectId) : Task :=
  mkTask (t_id t) (title t) (description t) (status t) (priority t) (dueDate t)
    (createdBy t) x (tags t) (isRecurring t) (recurringType t)
    (recurringEndDate t).
Definition setTags (t : Task) (x : list string) : Task :=
  mkTask (t_id t) (title t) (description t) (status t) (priority t) (dueDate t)
    (createdBy t) (assignedTo t) x (isRecurring t) (recurringType t)
    (recurringEndDate t).
Definition setIsRecurring (t : Task) (x : bool) : Task :=
  mkTask (t_id t) (title t) (description t) (status t) (priority t) (dueDate t)
    (createdBy t) (assignedTo t) (tags t) x (recurringType t)
    (recurringEndDate t).
Definition setRecurringType (t : Task) (x : string) : Task :=
  mkTask (t_id t) (title t) (description t) (status t) (priority t) (dueDate t)
    (createdBy t) (assignedTo t) (tags t) (isRecurring t) x
    (recurringEndDate t).
Definition setRecurringEndDate (t : Task) (x : option Z) : Task :=
  mkTask (t_id t) (title t) (description t) (status t) (priority t) (dueDate t)
    (createdBy t) (assignedTo t) (tags t) (isRecurring t) (recurringType t) x.

(** The cast of a value to a String path: [Some None] is [null]. *)
Definition castString (v : Value) : option (option string) :=
  match v with
  | VNull => Some None
  | _ => option_map (@Some string) (asText v)
  end.

Definition isHexDigit (c : ascii) : bool :=
  let n := nat_of_ascii c in
  ((48 <=? n) && (n <=? 57) || (65 <=? n) && (n <=? 70)
   || (97 <=? n) && (n <=? 102))%nat.

Fixpoint allHex (s : string) : bool :=
  match s with
  | EmptyString => true
  | String c rest => isHexDigit c && allHex rest
  end.

(** [new ObjectId(text)]: the id that a text of 24 hexadecimal digits spells,
    and [None] when the constructor throws. *)
Definition objectId (text : string) : option ObjectId :=
  if (String.length text =? 24)%nat && allHex text
  then Some (lowercase text) else None.

(** [value.toString()], for the values that are neither [null] nor a date. *)
Definition toString (v : Value) : option string :=
  match v with
  | VArr items => Some (join items)
  | VNull => None
  | _ => asText v
  end.

(** The cast of a value to an ObjectId path: [null] is kept, and any other
    value is read through its [toString()]. [Some None] is [null]. *)
Definition castObjectId (v : Value) : option (option ObjectId) :=
  match v with
  | VNull => Some None
  | _ =>
      match toString v with
      | Some text => option_map (@Some ObjectId) (objectId text)
      | None => None
      end
  end.

(** The cast of a value to a Date path. *)
Definition castDate (v : Value) : option (option Z) :=
  match v with
  | VDate ms => Some (Some ms)
  | VNull => Some None
  | _ => None
  end.

(** The cast of a value to a Boolean path. *)
Definition castBoolean (v : Value) : option bool :=
  match asText v with
  | Some "true" | Some "1" => Some true
  | Some "false" | Some "0" => Some false
  | _ => None
  end.

(** The paths that [taskSchema] declares. *)
Definition paths : list string :=
  ["title"; "description"; "status"; "priority"; "dueDate"; "createdBy";
   "assignedTo"; "tags"; "isRecurring"; "recurringType"; "recurringEndDate"].

(** A body whose keys are paths of the schema. The other properties of a
    document ([_id], [id], [__v], the time stamps, the names of its methods)
    are not assigned by the model: what is stated of the id of a document or
    of the success of [save()] is stated of such bodies. *)
Definition plain (body : Obj) : Prop :=
  forall key, In key (keys body) -> In key paths.

(** [task[key] = value], for a key that names a path of the schema; a key
    that names none leaves the paths as they are. String paths declared with
    [trim: true] trim what they are given, so that the [trim()] sanitizer of
    the title needs no step of its own. *)
Definition assign (d : Doc) (key : string) (v : Value) : Doc :=
  let t := d_task d in
  let ok t' := {| d_task := t'; d_invalid := d_invalid d |} in
  if key =? "title" then
    match castString v with
    | Some (Some s) => ok (setTitle t (trim s))
    | _ => invalidate d
    end
  else if key =? "description" then
    match castString v with
    | Some o => ok (setDescription t (option_map trim o))
    | None => invalidate d
    end
  else if key =? "status" then
    match castString v with
    | Some o => ok (setStatus t o)
    | None => invalidate d
    end
  else if key =? "priority" then
    match castString v with
    | Some o => ok (setPriority t o)
    | None => invalidate d
    end
  else if key =? "dueDate" then
    match castDate v with
    | Some o => ok (setDueDate t o)
    | None => invalidate d
    end
  else if key =? "createdBy" then
    match castObjectId v with
    | Some (Some id) => ok (setCreatedBy t id)
    | _ => invalidate d
    end
  else if key =? "assignedTo" then
    match castObjectId v with
    | Some o => ok (setAssignedTo t o)
    | None => invalidate d
    end
  else if key =? "tags" then
    match v with
    | VArr l => ok (setTags t (map trim l))
    | _ => invalidate d
    end
  else if key =? "isRecurring" then
    match castBoolean v with
    | Some b => ok (setIsRecurring t b)
    | None => invalidate d
    end
  else if key =? "recurringType" then
    match castString v with
    | Some (Some s) => ok (setRecurringType t s)
    | _ => invalidate d
    end
  else if key =? "recurringEndDate" then
    match castDate v with
    | Some o => ok (setRecurringEndDate t o)
    | None => invalidate d
    end
  else d.

(** [Object.keys(data).forEach(key => { if (data[key] !== undefined)
    doc[key] = data[key]; })] *)
Definition assignAll (d : Doc) (data : Obj) : Doc :=
  fold_left
    (fun d key =>
       match get data key with
       | Some v => assign d key v
       | None => d
       end)
    (keys data) d.

(** The validators of the schema that [save()] runs on the string paths:
    [required] and [maxlength]. *)
Definition validates (t : Task) : bool :=
  negb (title t =? "")
  && (String.length (title t) <=? 100)%nat
  && match description t with
     | Some s => (String.length s <=? 1000)%nat
     | None => true
     end.

(** The [enum] validators, which a new document runs on its three
    enumerated paths. *)
Definition validatesEnums (t : Task) : bool :=
  match status t with Some s => includes statuses s | None => true end
  && match priority t with Some s => includes priorities s | None => true end
  && includes recurringTypes (recurringType t).

(** An object without one of its keys. *)
Definition without (key : string) (o : Obj) : Obj :=
  filter (fun kv => negb (fst kv =? key)) o.

(** The path [createdBy] given as an ObjectId, which needs no cast. *)
Definition withCreator (d : Doc) (id : ObjectId) : Doc :=
  {| d_task := setCreatedBy (d_task d) id; d_invalid := d_invalid d |}.

(** [new Task({})]: the defaults of the schema. *)
Definition blank (id : ObjectId) : Task :=
  {| t_id := id; title := ""; description := None;
     status := Some "todo"; priority := Some "medium"; dueDate := None;
     createdBy := ""; assignedTo := None; tags := [];
     isRecurring := false; recurringType := "none";
     recurringEndDate := None |}.

End Model.

(** ** [routes/task.routes.js] *)

Module Routes.

Import Auth Model.

Definition dquote : string := String (ascii_of_nat 34) EmptyString.

Definition logged (w : World) (op : StoreOp) : list StoreOp :=
  (oplog w ++ [op])%list.

(** [createNotification]: a failure of [notification.save()] is caught and
    answered by [null]. *)
Definition createNotification (env : Env) (w : World)
    (type : string) (sender recipient : ObjectId) (message : string)
    (taskId : option ObjectId) : option Notification * World :=
  let notification :=
    {| n_type := type; sender := sender; recipient := recipient;
       message := message; relatedTask := taskId; isRead := false |} in
  if env_notificationSaves env w notification
  then (Some notification,
        {| users := users w; tasks := tasks w;
           notifications := (notifications w ++ [notification])%list;
           oplog := logged w (OpNotificationInsert notification);
           nextId := nextId w |})
  else (None,
        {| users := users w; tasks := tasks w;
           notifications := notifications w;
           oplog := logged w (OpNotificationRejected notification);
           nextId := nextId w |}).

(** [new Task(...)] takes the next object id. *)
Definition takeId (w : World) : World :=
  {| users := users w; tasks := tasks w; notifications := notifications w;
     oplog := oplog w; nextId := S (nextId w) |}.

(** [task.save()] of a new document. *)
Definition insertTask (w : World) (t : Task) : World :=
  {| users := users w; tasks := (tasks w ++ [t])%list;
     notifications := notifications w;
     oplog := logged w (OpTaskInsert t); nextId := nextId w |}.

Fixpoint replaceById (l : list Task) (t : Task) : list Task :=
  match l with
  | [] => []
  | x :: rest => if t_id x =? t_id t then t :: rest else x :: replaceById rest t
  end.

(** [task.save()] of a document that was read from the store. *)
Definition saveTask (w : World) (t : Task) : World :=
  {| users := users w; tasks := replaceById (tasks w) t;
     notifications := notifications w;
     oplog := logged w (OpTaskSave t); nextId := nextId w |}.

Fixpoint removeById (l : list Task) (id : ObjectId) : list Task :=
  match l with
  | [] => []
  | x :: rest => if t_id x =? id then rest else x :: removeById rest id
  end.

(** [Task.findByIdAndDelete(id)] *)
Definition deleteTaskById (w : World) (id : ObjectId) : World :=
  {| users := users w; tasks := removeById (tasks w) id;
     notifications := notifications w;
     oplog := logged w (OpTaskDelete id); nextId := nextId w |}.

(** The [switch] of [createRecurringTask]: [None] is the default case, and
    [Some None] an invalid date, which [new Date(task.dueDate)] is when the
    task has no due date. (Of a due date that holds [null] it is the epoch:
    the helper is modelled on the tasks whose due date is a date or is not
    set.) *)
Definition nextDueDate (originalDueDate : option Z) (recurringType : string)
  : option (option Z) :=
  if recurringType =? "daily" then
    Some (option_map (fun d => Dates.setDate d (Dates.getDate d + 1)) originalDueDate)
  else if recurringType =? "weekly" then
    Some (option_map (fun d => Dates.setDate d (Dates.getDate d + 7)) originalDueDate)
  else if recurringType =? "monthly" then
    Some (option_map (fun d => Dates.setMonth d (Dates.getMonth d + 1)) originalDueDate)
  else None.

(** [newDueDate > new Date(task.recurringEndDate)], false on an invalid date. *)
Definition isAfter (newDueDate : option Z) (endDate : Z) : bool :=
  match newDueDate with
  | Some d => (endDate <? d)%Z
  | None => false
  end.

(** [createRecurringTask(task, recurringType)] *)
Definition createRecurringTask (env : Env) (w : World) (task : Task)
    (recurrence : string) : option Task * World :=
  match nextDueDate (dueDate task) recurrence with
  | None => (None, w)
  | Some newDueDate =>
      if match recurringEndDate task with
         | Some e => isAfter newDueDate e
         | None => false
         end
      then (None, w)
      else
        let w' := takeId w in
        match newDueDate with
        | None => (None, w')
        | Some d =>
            let newTask :=
              {| t_id := env_newId env (nextId w);
                 title := title task;
                 description := description task;
                 status := Some "todo";
                 priority := priority task;
                 dueDate := Some d;
                 createdBy := createdBy task;
                 assignedTo := assignedTo task;
                 tags := tags task;
                 isRecurring := isRecurring task;
                 recurringType := recurringType task;
                 recurringEndDate := recurringEndDate task |} in
            if validates newTask && validatesEnums newTask
            then (Some newTask, insertTask w' newTask)
            else (None, w')
        end
  end.

(** [router.post('/')]. In [{ ...req.body, createdBy: req.user._id }] the
    key [createdBy] has the id of the principal, whatever the body gives for
    it, and the other keys have the values of the body. *)
Definition createTask (env : Env) (w : World) (token : Token) (body : Obj)
  : Response * World :=
  match requireSignIn w token with
  | Reply r => (r, w)
  | Next user =>
      if negb (validateCreate body) then (respond 400 PErrors, w)
      else
        let doc :=
          withCreator
            (assignAll {| d_task := blank (env_newId env (nextId w));
                          d_invalid := false |} (without "createdBy" body))
            (u_id user) in
        let w0 := takeId w in
        let task := d_task doc in
        if d_invalid doc || negb (validates task && validatesEnums task)
        then (internalError, w0)
        else
          let w1 := insertTask w0 task in
          let w2 :=
            match assignedTo task with
            | Some a =>
                if negb (a =? u_id user)
                then snd (createNotification env w1 "task-assigned"
                            (u_id user) a
                            (u_name user ++ " assigned you a new task: "
                             ++ title task)
                            (Some (t_id task)))
                else w1
            | None => w1
            end in
          (respond 201 (PTaskMessage "Task created successfully" task), w2)
  end.

(** [router.get('/:id')] *)
Definition getTask (w : World) (token : Token) (id : ObjectId) : Response :=
  match requireSignIn w token with
  | Reply r => r
  | Next user =>
      match findTaskById w id with
      | None => respond 404 (PError "Task not found")
      | Some found =>
          let task := populate w found in
          if negb (u_role user =? "admin") then
            match p_createdBy task with
            | None => internalError
            | Some creator =>
                if negb (r_id creator =? u_id user)
                   && negb match p_assignedTo task with
                           | Some assignee => r_id assignee =? u_id user
                           | None => false
                           end
                then respond 403
                       (PError "You do not have permission to view this task")
                else respond 200 (PTask task)
            end
          else respond 200 (PTask task)
      end
  end.

(** [req.body.status === 'completed'] *)
Definition isCompletedValue (o : option Value) : bool :=
  match o with
  | Some (VStr s) => s =? "completed"
  | _ => false
  end.

(** [task.status !== 'completed'] *)
Definition statusIsNot (t : Task) (s : string) : bool :=
  match status t with
  | Some s' => negb (s' =? s)
  | None => true
  end.

(** [id.toString() === value.toString()]: the text of the value is the
    spelling of the id in the store. *)
Definition spells (v : Value) (id : ObjectId) : bool :=
  match toString v with
  | Some text => text =? id
  | None => false
  end.

(** The first notification of [router.put('/:id')]: the task was assigned to
    a new user. The two comparisons are made on the text that the body
    gives, and the recipient of the notification is the id that the model of
    the notifications casts this value to; past [task.save()] the cast
    succeeds. *)
Definition notifyAssigned (env : Env) (w : World) (user : User) (body : Obj)
    (oldAssignedTo : option ObjectId) (task : Task) : World :=
  match get body "assignedTo" with
  | Some v =>
      if truthy v
         && negb match oldAssignedTo with
                 | Some old => spells v old
                 | None => false
                 end
         && negb (spells v (u_id user))
      then
        match castObjectId v with
        | Some (Some a) =>
            snd (createNotification env w "task-assigned" (u_id user) a
                   (u_name user ++ " assigned you a task: " ++ title task)
                   (Some (t_id task)))
        | _ => w
        end
      else w
  | None => w
  end.

(** The second notification of [router.put('/:id')]: the status was given. *)
Definition notifyUpdated (env : Env) (w : World) (user : User) (body : Obj)
    (oldAssignedTo : option ObjectId) (task : Task) : World :=
  match get body "status", oldAssignedTo with
  | Some v, Some old =>
      if truthy v && negb (old =? u_id user)
      then snd (createNotification env w "task-updated" (u_id user) old
                  (u_name user ++ " updated the status of task " ++ dquote
                   ++ title task ++ dquote ++ " to "
                   ++ match asText v with Some s => s | None => "" end)
                  (Some (t_id task)))
      else w
  | _, _ => w
  end.

(** The end of [router.put('/:id')]: the next occurrence of a recurring task. *)
Definition spawnNext (env : Env) (w : World) (user : User) (task : Task) : World :=
  match createRecurringTask env w task (recurringType task) with
  | (Some newTask, w') =>
      match assignedTo newTask with
      | Some a =>
          snd (createNotification env w' "task-assigned" (u_id user) a
                 ("A recurring task has been created: " ++ title newTask)
                 (Some (t_id newTask)))
      | None => w'
      end
  | (None, w') => w'
  end.

(** [router.put('/:id')] *)
Definition updateTask (env : Env) (w : World) (token : Token) (id : ObjectId)
    (body : Obj) : Response * World :=
  match requireSignIn w token with
  | Reply r => (r, w)
  | Next user =>
      match isTaskCreatorOrAdmin w user id with
      | Reply r => (r, w)
      | Next found =>
          if negb (validateUpdate body) then (respond 400 PErrors, w)
          else
            let oldAssignedTo := assignedTo found in
            let doc := assignAll {| d_task := found; d_invalid := false |} body in
            let task := d_task doc in
            let wasCompleted :=
              isCompletedValue (get body "status")
              && statusIsNot task "completed"
              && isRecurring task
              && negb (recurringType task =? "none") in
            if d_invalid doc || negb (validates task) then (internalError, w)
            else
              let w1 := saveTask w task in
              let w2 := notifyAssigned env w1 user body oldAssignedTo task in
              let w3 := notifyUpdated env w2 user body oldAssignedTo task in
              let w4 := if wasCompleted then spawnNext env w3 user task else w3 in
              (respond 200 (PTaskMessage "Task updated successfully" task), w4)
      end
  end.

(** [router.delete('/:id')] *)
Definition deleteTask (env : Env) (w : World) (token : Token) (id : ObjectId)
  : Response * World :=
  match requireSignIn w token with
  | Reply r => (r, w)
  | Next user =>
      match isTaskCreatorOrAdmin w user id with
      | Reply r => (r, w)
      | Next task =>
          let w1 :=
            match assignedTo task with
            | Some a =>
                if negb (a =? u_id user)
                then snd (createNotification env w "task-deleted" (u_id user) a
                            (u_name user
                             ++ " deleted a task that was assigned to you: "
                             ++ title task)
                            None)
                else w
            | None => w
            end in
          (respond 200 (PMessage "Task deleted successfully"),
           deleteTaskById w1 id)
      end
  end.

(** The body of a batch update. [taskIds] is [None] when it is missing or is
    not an array, [updates] when it is missing or [null]; the values of
    [updates] are JSON strings or [null]. *)
Record BatchBody : Type := mkBatchBody {
  taskIds : option (list ObjectId);
  updates : option (list (string * option string))
}.

(** One path of [{ $set: updates }]. *)
Definition setPath (t : Task) (kv : string * option string) : Task :=
  let (key, v) := kv in
  if key =? "status" then setStatus t v
  else if key =? "priority" then setPriority t v
  else if key =? "assignedTo" then setAssignedTo t v
  else t.

Definition applySet (set : list (string * option string)) (t : Task) : Task :=
  fold_left setPath set t.

(** [{ _id: { $in: ids } }] *)
Definition idIn (ids : list ObjectId) (t : Task) : bool := includes ids (t_id t).

(** The cast that [Task.updateMany] makes of one path of [{ $set: updates }]:
    a text given for [assignedTo] must spell an id. The validators of the
    schema are not run. *)
Definition castUpdate (kv : string * option string)
  : option (string * option string) :=
  let (key, v) := kv in
  if key =? "assignedTo" then
    match v with
    | Some text => option_map (fun id => (key, Some id)) (objectId text)
    | None => Some kv
    end
  else Some kv.

Fixpoint castUpdates (set : list (string * option string))
  : option (list (string * option string)) :=
  match set with
  | [] => Some []
  | kv :: rest =>
      match castUpdate kv, castUpdates rest with
      | Some kv', Some rest' => Some (kv' :: rest')
      | _, _ => None
      end
  end.

(** [Task.updateMany({ _id: { $in: ids } }, { $set: set })], for updates
    that were cast. *)
Definition updateMany (w : World) (ids : list ObjectId)
    (set : list (string * option string)) : World :=
  {| users := users w;
     tasks := map (fun t => if idIn ids t then applySet set t else t) (tasks w);
     notifications := notifications w;
     oplog := logged w (OpTaskUpdateMany ids set);
     nextId := nextId w |}.

(** The loop that notifies the new assignee of each task of the batch. *)
Fixpoint notifyEach (env : Env) (w : World) (user : User) (a : ObjectId)
    (found : list Task) : World :=
  match found with
  | [] => w
  | task :: rest =>
      let w' := snd (createNotification env w "task-assigned" (u_id user) a
                       (u_name user ++ " assigned you a task: " ++ title task)
                       (Some (t_id task))) in
      notifyEach env w' user a rest
  end.

Definition allowedUpdates : list string := ["status"; "priority"; "assignedTo"].

(** [router.post('/batch-update')]. The [modifiedCount] is the number of
    documents that match, each of them having its time stamp renewed. A
    failure of the cast of the updates is thrown by [Task.updateMany] before
    anything is written. The recipient of a notification is the id that the
    model of the notifications casts [updates.assignedTo] to. *)
Definition batchUpdate (env : Env) (w : World) (token : Token) (body : BatchBody)
  : Response * World :=
  match requireSignIn w token with
  | Reply r => (r, w)
  | Next user =>
      match hasRole ["admin"; "manager"] user with
      | Reply r => (r, w)
      | Next _ =>
          match taskIds body with
          | None | Some [] =>
              (respond 400 (PError "Task IDs array is required"), w)
          | Some ids =>
              match updates body with
              | None | Some [] =>
                  (respond 400 (PError "Updates object is required"), w)
              | Some set =>
                  let updateKeys := keys set in
                  let isValidOperation := forallb (includes allowedUpdates) updateKeys in
                  if negb isValidOperation
                  then (respond 400 (PError
                          "Invalid updates. Only status, priority, and assignedTo can be batch updated."), w)
                  else
                    match castUpdates set with
                    | None => (internalError, w)
                    | Some cast =>
                        let modifiedCount :=
                          List.length (filter (idIn ids) (tasks w)) in
                        let w1 := updateMany w ids cast in
                        let w2 :=
                          match get set "assignedTo" with
                          | Some (Some a) =>
                              if negb (a =? "")
                              then
                                match objectId a with
                                | Some assignee =>
                                    notifyEach env w1 user assignee
                                      (filter (idIn ids) (tasks w1))
                                | None => w1
                                end
                              else w1
                          | _ => w1
                          end in
                        (respond 200
                           (PBatch "Tasks updated successfully" modifiedCount),
                         w2)
                    end
              end
          end
      end
  end.

(** The query string of [router.get('/')]. [page] and [limit] are what
    [parseInt] reads in them when they are given. *)
Record Filters : Type := mkFilters {
  f_status : option string;
  f_priority : option string;
  f_dueDate : option string;
  f_search : option string;
  f_assignedTo : option string;
  f_createdBy : option string;
  f_overdue : option string;
  f_page : option Z;
  f_limit : option Z;
  f_sortBy : option string;
  f_sortOrder : option string
}.

(** The conditions that the route writes in its [query] object, key by key. *)
Inductive StatusCond : Type :=
| StatusIs (s : string)
| StatusNe (s : string).

Inductive DueCond : Type :=
| DueBetween (gte lte : option Z)
| DueLt (d : Z).

Inductive Clause : Type :=
| TitleRegex (pattern : string)
| DescriptionRegex (pattern : string)
| CreatedByIs (id : ObjectId)
| AssignedToIs (id : ObjectId).

Record Query : Type := mkQuery {
  q_status : option StatusCond;
  q_priority : option string;
  q_or : option (list Clause);
  q_assignedTo : option ObjectId;
  q_createdBy : option ObjectId;
  q_dueDate : option DueCond
}.

(** [filter === 'me'] selects the principal, any other value that is given
    is the id to look for. *)
Definition userFilter (user : User) (o : option string) : option ObjectId :=
  match o with
  | Some s =>
      if s =? "me" then Some (u_id user)
      else if given (Some s) then Some s
      else None
  | None => None
  end.

(** The construction of [query], in the order of the assignments of the
    route: a later assignment to a key replaces an earlier one. *)
Definition buildQuery (env : Env) (user : User) (f : Filters) : Query :=
  let status1 := if given (f_status f) then option_map StatusIs (f_status f) else None in
  let priority1 := if given (f_priority f) then f_priority f else None in
  let or1 :=
    match f_search f with
    | Some search =>
        if given (Some search)
        then Some [TitleRegex search; DescriptionRegex search]
        else None
    | None => None
    end in
  let assignedTo1 := userFilter user (f_assignedTo f) in
  let createdBy1 := userFilter user (f_createdBy f) in
  let dueDate1 :=
    match f_dueDate f with
    | Some dueDate =>
        if given (Some dueDate) then
          let date := env_parseDate env dueDate in
          let startOfDay := option_map (fun d => Dates.setHours d 0 0 0 0) date in
          let endOfDay :=
            option_map (fun d => Dates.setHours d 23 59 59 999) startOfDay in
          Some (DueBetween startOfDay endOfDay)
        else None
    | None => None
    end in
  let overdue := match f_overdue f with Some s => s =? "true" | None => false end in
  let dueDate2 := if overdue then Some (DueLt (env_now env)) else dueDate1 in
  let status2 := if overdue then Some (StatusNe "completed") else status1 in
  let or2 :=
    if negb (u_role user =? "admin")
    then Some [CreatedByIs (u_id user); AssignedToIs (u_id user)]
    else or1 in
  {| q_status := status2; q_priority := priority1; q_or := or2;
     q_assignedTo := assignedTo1; q_createdBy := createdBy1;
     q_dueDate := dueDate2 |}.

Definition holds (env : Env) (c : Clause) (t : Task) : bool :=
  match c with
  | TitleRegex p => env_regex_i env p (title t)
  | DescriptionRegex p =>
      match description t with
      | Some d => env_regex_i env p d
      | None => false
      end
  | CreatedByIs id => createdBy t =? id
  | AssignedToIs id =>
      match assignedTo t with
      | Some a => a =? id
      | None => false
      end
  end.

(** Whether a document matches a query: every key that is present must hold. *)
Definition matches (env : Env) (q : Query) (t : Task) : bool :=
  match q_status q with
  | Some (StatusIs s) =>
      match status t with Some s' => s' =? s | None => false end
  | Some (StatusNe s) =>
      match status t with Some s' => negb (s' =? s) | None => true end
  | None => true
  end
  && match q_priority q with
     | Some p => match priority t with Some p' => p' =? p | None => false end
     | None => true
     end
  && match q_or q with
     | Some clauses => existsb (fun c => holds env c t) clauses
     | None => true
     end
  && match q_assignedTo q with
     | Some id => match assignedTo t with Some a => a =? id | None => false end
     | None => true
     end
  && match q_createdBy q with
     | Some id => createdBy t =? id
     | None => true
     end
  && match q_dueDate q with
     | Some (DueBetween (Some lo) (Some hi)) =>
         match dueDate t with
         | Some d => (lo <=? d)%Z && (d <=? hi)%Z
         | None => false
         end
     | Some (DueBetween _ _) => false
     | Some (DueLt x) =>
         match dueDate t with
         | Some d => (d <? x)%Z
         | None => false
         end
     | None => true
     end.

(** A query that holds an invalid date is refused by the cast of the store. *)
Definition castable (q : Query) : bool :=
  match q_dueDate q with
  | Some (DueBetween (Some _) (Some _)) => true
  | Some (DueBetween _ _) => false
  | _ => true
  end.

Fixpoint insertSorted (leq : Task -> Task -> bool) (t : Task) (l : list Task)
  : list Task :=
  match l with
  | [] => [t]
  | x :: rest => if leq t x then t :: l else x :: insertSorted leq t rest
  end.

(** [.sort({ [sortBy]: direction })] *)
Definition sortTasks (env : Env) (sortBy : string) (ascending : bool)
    (l : list Task) : list Task :=
  let leq a b := if ascending then env_leq env sortBy a b
                 else env_leq env sortBy b a in
  fold_right (insertSorted leq) [] l.

(** [.limit(n)]: zero is no limit, and a negative limit is its absolute value. *)
Definition limitTo (n : Z) (l : list Task) : list Task :=
  if (n =? 0)%Z then l else firstn (Z.to_nat (Z.abs n)) l.

(** [Math.ceil(total / limit)]; [None] when the quotient is not a number. *)
Definition pageCount (total limit : Z) : option Z :=
  if (limit =? 0)%Z then None else Some (- ((- total) / limit))%Z.

(** [router.get('/')] *)
Definition listTasks (env : Env) (w : World) (token : Token) (f : Filters)
  : Response :=
  match requireSignIn w token with
  | Reply r => r
  | Next user =>
      let query := buildQuery env user f in
      let page := match f_page f with Some p => p | None => 1%Z end in
      let limit := match f_limit f with Some l => l | None => 10%Z end in
      let sortBy := match f_sortBy f with Some s => s | None => "createdAt" end in
      let ascending :=
        match f_sortOrder f with Some s => s =? "asc" | None => false end in
      let skip := ((page - 1) * limit)%Z in
      if negb (castable query) || (skip <? 0)%Z then internalError
      else
        let found := filter (matches env query) (tasks w) in
        let selected :=
          limitTo limit (skipn (Z.to_nat skip) (sortTasks env sortBy ascending found)) in
        let totalTasks := Z.of_nat (List.length found) in
        respond 200
          (PTasks (map (populate w) selected) totalTasks page
             (pageCount totalTasks limit))
  end.

End Routes.

(** ** A small deployment, for the examples *)

Module Sample.

Import Routes.

Definition ada : User :=
  mkUser "64b7f0a1c2d3e4f5a6b7c801" "Ada" "ada@example.org" "user".
Definition bob : User :=
  mkUser "64b7f0a1c2d3e4f5a6b7c802" "Bob" "bob@example.org" "user".
Definition mia : User :=
  mkUser "64b7f0a1c2d3e4f5a6b7c803" "Mia" "mia@example.org" "manager".
Definition rex : User :=
  mkUser "64b7f0a1c2d3e4f5a6b7c804" "Rex" "rex@example.org" "admin".

(** Created by Ada and assigned to Bob; it recurs every day. *)
Definition report : Task :=
  {| t_id := "64b7f0a1c2d3e4f5a6b7d901";
     title := "Daily report";
     description := Some "Numbers of the day";
     status := Some "todo";
     priority := Some "medium";
     dueDate := Some (Dates.utc 2024 1 10);
     createdBy := u_id ada;
     assignedTo := Some (u_id bob);
     tags := [];
     isRecurring := true;
     recurringType := "daily";
     recurringEndDate := None |}.

(** Created by Bob, assigned to nobody. *)
Definition errand : Task :=
  {| t_id := "64b7f0a1c2d3e4f5a6b7d902";
     title := "Buy stamps";
     description := None;
     status := Some "in-progress";
     priority := Some "low";
     dueDate := None;
     createdBy := u_id bob;
     assignedTo := None;
     tags := ["office"];
     isRecurring := false;
     recurringType := "none";
     recurringEndDate := None |}.

(** Created by Ada and assigned to Mia. *)
Definition audit : Task :=
  {| t_id := "64b7f0a1c2d3e4f5a6b7d903";
     title := "Audit";
     description := Some "Quarterly audit";
     status := Some "review";
     priority := Some "high";
     dueDate := Some (Dates.utc 2024 2 1);
     createdBy := u_id ada;
     assignedTo := Some (u_id mia);
     tags := [];
     isRecurring := false;
     recurringType := "none";
     recurringEndDate := None |}.

Definition world : World :=
  {| users := [ada; bob; mia; rex];
     tasks := [report; errand; audit];
     notifications := [];
     oplog := [];
     nextId := 0 |}.

Fixpoint contains (needle hay : string) : bool :=
  String.prefix needle hay
  || match hay with
     | EmptyString => false
     | String _ rest => contains needle rest
     end.

(** An environment whose regular expressions are plain words, whose documents
    are ordered by title whatever the sort key, and whose store accepts every
    notification. *)
Definition env : Env :=
  {| env_now := Dates.utc 2024 1 20;
     env_parseDate :=
       fun s => if s =? "2024-01-10" then Some (Dates.utc 2024 1 10) else None;
     env_regex_i := fun p s => contains (lowercase p) (lowercase s);
     env_leq := fun _ a b => String.leb (title a) (title b);
     env_newId :=
       fun n => nth n ["64b7f0a1c2d3e4f5a6b7e001"; "64b7f0a1c2d3e4f5a6b7e002"]
                  "64b7f0a1c2d3e4f5a6b7e0ff";
     env_notificationSaves := fun _ _ => true |}.

(** The same environment with a store that refuses every notification. *)
Definition envDown : Env :=
  {| env_now := env_now env;
     env_parseDate := env_parseDate env;
     env_regex_i := env_regex_i env;
     env_leq := env_leq env;
     env_newId := env_newId env;
     env_notificationSaves := fun _ _ => false |}.

End Sample.

(** ** [routes/notification.routes.js] *)

Module Inbox.

Import Auth.

(** A document of the collection of the notifications: its id, the time at
    which it was created, and its paths. *)
Record Stored : Type := mkStored {
  s_id : ObjectId;
  s_createdAt : Z;
  s_doc : Notification
}.

(** The result of [populate('relatedTask', 'title status')]. *)
Record TaskRef : Type := mkTaskRef {
  tr_id : ObjectId;
  tr_title : string;
  tr_status : option string
}.

(** A notification of a listing, its sender and its task populated. *)
Record Shown : Type := mkShown {
  sh_stored : Stored;
  sh_sender : option UserRef;
  sh_relatedTask : option TaskRef
}.

Inductive NPayload : Type :=
| NError (msg : string)
| NException
| NMessage (msg : string)
| NMarked (msg : string) (notification : Stored)
| NList (items : list Shown) (unreadCount : nat) (total page : Z)
    (pages : option Z)
| NCount (count : nat).

Record NResponse : Type := mkNResponse {
  n_code : nat;
  n_payload : NPayload
}.

Definition answer (c : nat) (p : NPayload) : NResponse :=
  {| n_code := c; n_payload := p |}.

(** The answer of a route whose [requireSignIn] or whose [catch] answered. *)
Definition relay (r : Response) : NResponse :=
  answer (code r)
    match payload r with
    | PError msg => NError msg
    | _ => NException
    end.

(** The query string of [router.get('/')]. *)
Record Params : Type := mkParams {
  p_read : option string;
  p_page : option Z;
  p_limit : option Z
}.

Definition show (w : World) (s : Stored) : Shown :=
  {| sh_stored := s;
     sh_sender := option_map toRef (findUserById w (sender (s_doc s)));
     sh_relatedTask :=
       match relatedTask (s_doc s) with
       | Some id =>
           option_map
             (fun t => {| tr_id := t_id t; tr_title := title t;
                          tr_status := status t |})
             (findTaskById w id)
       | None => None
       end |}.

(** [{ recipient: req.user._id }] with the condition on [isRead] that the
    [read] parameter adds. *)
Definition selects (user : User) (read : option string) (s : Stored) : bool :=
  (recipient (s_doc s) =? u_id user)
  && match read with
     | Some r =>
         if r =? "true" then isRead (s_doc s)
         else if r =? "false" then negb (isRead (s_doc s))
         else true
     | None => true
     end.

(** [{ recipient: req.user._id, isRead: false }] *)
Definition unreadOf (user : User) (s : Stored) : bool :=
  (recipient (s_doc s) =? u_id user) && negb (isRead (s_doc s)).

Fixpoint insertNewest (s : Stored) (l : list Stored) : list Stored :=
  match l with
  | [] => [s]
  | x :: rest =>
      if (s_createdAt x <=? s_createdAt s)%Z then s :: l
      else x :: insertNewest s rest
  end.

(** [.sort({ createdAt: -1 })] *)
Definition newestFirst (l : list Stored) : list Stored :=
  fold_right insertNewest [] l.

(** [.limit(n)]: zero is no limit, and a negative limit is its absolute value. *)
Definition atMost (n : Z) (l : list Stored) : list Stored :=
  if (n =? 0)%Z then l else firstn (Z.to_nat (Z.abs n)) l.

(** [router.get('/')] *)
Definition listNotifications (w : World) (c : list Stored) (token : Token)
    (p : Params) : NResponse :=
  match requireSignIn w token with
  | Reply r => relay r
  | Next user =>
      let page := match p_page p with Some x => x | None => 1%Z end in
      let limit := match p_limit p with Some x => x | None => 10%Z end in
      let skip := ((page - 1) * limit)%Z in
      if (skip <? 0)%Z then answer 500 NException
      else
        let found := filter (selects user (p_read p)) c in
        let notifications :=
          atMost limit (skipn (Z.to_nat skip) (newestFirst found)) in
        let totalNotifications := Z.of_nat (List.length found) in
        let unreadCount := List.length (filter (unreadOf user) c) in
        answer 200
          (NList (map (show w) notifications) unreadCount totalNotifications
             page (Routes.pageCount totalNotifications limit))
  end.

(** [Notification.findOne({ _id: id, recipient: req.user._id })] *)
Definition findOwn (c : list Stored) (user : User) (id : ObjectId)
  : option Stored :=
  find (fun s => (s_id s =? id) && (recipient (s_doc s) =? u_id user)) c.

Definition markedRead (s : Stored) : Stored :=
  {| s_id := s_id s; s_createdAt := s_createdAt s;
     s_doc := {| n_type := n_type (s_doc s); sender := sender (s_doc s);
                 recipient := recipient (s_doc s); message := message (s_doc s);
                 relatedTask := relatedTask (s_doc s); isRead := true |} |}.

(** [notification.save()]: the document of the same id is replaced. *)
Fixpoint save (c : list Stored) (s : Stored) : list Stored :=
  match c with
  | [] => []
  | x :: rest => if s_id x =? s_id s then s :: rest else x :: save rest s
  end.

(** [router.put('/:id/read')] *)
Definition markRead (w : World) (c : list Stored) (token : Token)
    (id : ObjectId) : NResponse * list Stored :=
  match requireSignIn w token with
  | Reply r => (relay r, c)
  | Next user =>
      match findOwn c user id with
      | None => (answer 404 (NError "Notification not found"), c)
      | Some notification =>
          let notification := markedRead notification in
          (answer 200 (NMarked "Notification marked as read" notification),
           save c notification)
      end
  end.

(** [router.put('/mark-all-read')] *)
Definition markAllRead (w : World) (c : list Stored) (token : Token)
  : NResponse * list Stored :=
  match requireSignIn w token with
  | Reply r => (relay r, c)
  | Next user =>
      (answer 200 (NMessage "All notifications marked as read"),
       map (fun s => if unreadOf user s then markedRead s else s) c)
  end.

(** [Notification.deleteOne({ _id: id })] *)
Fixpoint deleteOne (c : list Stored) (id : ObjectId) : list Stored :=
  match c with
  | [] => []
  | x :: rest => if s_id x =? id then rest else x :: deleteOne rest id
  end.

(** [router.delete('/:id')] *)
Definition deleteNotification (w : World) (c : list Stored) (token : Token)
    (id : ObjectId) : NResponse * list Stored :=
  match requireSignIn w token with
  | Reply r => (relay r, c)
  | Next user =>
      match findOwn c user id with
      | None => (answer 404 (NError "Notification not found"), c)
      | Some _ => (answer 200 (NMessage "Notification deleted"), deleteOne c id)
      end
  end.

(** [router.get('/unread-count')] *)
Definition unreadCount (w : World) (c : list Stored) (token : Token) : NResponse :=
  match requireSignIn w token with
  | Reply r => relay r
  | Next user => answer 200 (NCount (List.length (filter (unreadOf user) c)))
  end.

End Inbox.

(** ** [routes/user.routes.js]

    The routes that read the users and that change a role. The model of the
    users is not among the sources: a user is what the routes read of it,
    the view [toPublicJSON()] of a user is the user, and saving a user whose
    role is one of the three roles succeeds. *)

Module Accounts.

Import Auth Model.

Inductive UPayload : Type :=
| UError (msg : string)
| UErrors
| UException
| UUser (user : User)
| UUserMessage (msg : string) (user : User)
| UUsers (users : list User) (total page : Z) (pages : option Z).

Record UResponse : Type := mkUResponse {
  u_code : nat;
  u_payload : UPayload
}.

Definition answer (c : nat) (p : UPayload) : UResponse :=
  {| u_code := c; u_payload := p |}.

(** The answer of a route whose middleware answered. *)
Definition relay (r : Response) : UResponse :=
  answer (code r)
    match payload r with
    | PError msg => UError msg
    | _ => UException
    end.

(** The query string of [router.get('/')]. *)
Record Params : Type := mkParams {
  p_search : option string;
  p_role : option string;
  p_page : option Z;
  p_limit : option Z
}.

(** The [query] object of [router.get('/')]: the patterns of [$or] and the
    role, the role of a manager's query being [user]. *)
Definition searchOf (p : Params) : option string :=
  if given (p_search p) then p_search p else None.

Definition roleOf (user : User) (p : Params) : option string :=
  if u_role user =? "manager" then Some "user"
  else if given (p_role p) then p_role p else None.

Definition selects (env : Env) (user : User) (p : Params) (u : User) : bool :=
  match searchOf p with
  | Some search =>
      env_regex_i env search (u_name u) || env_regex_i env search (u_email u)
  | None => true
  end
  && match roleOf user p with
     | Some role => u_role u =? role
     | None => true
     end.

Fixpoint insertBy (leq : User -> User -> bool) (u : User) (l : list User)
  : list User :=
  match l with
  | [] => [u]
  | x :: rest => if leq u x then u :: l else x :: insertBy leq u rest
  end.

(** [.limit(n)]: zero is no limit, and a negative limit is its absolute value. *)
Definition atMost (n : Z) (l : list User) : list User :=
  if (n =? 0)%Z then l else firstn (Z.to_nat (Z.abs n)) l.

(** [router.get('/')]. [newer a b] tells that the store puts [a] before [b]
    when it sorts on [createdAt], the newest first. *)
Definition listUsers (env : Env) (newer : User -> User -> bool) (w : World)
    (token : Token) (p : Params) : UResponse :=
  match requireSignIn w token with
  | Reply r => relay r
  | Next user =>
      let page := match p_page p with Some x => x | None => 1%Z end in
      let limit := match p_limit p with Some x => x | None => 10%Z end in
      let skip := ((page - 1) * limit)%Z in
      if (skip <? 0)%Z then answer 500 UException
      else
        let found := filter (selects env user p) (users w) in
        let listed :=
          atMost limit
            (skipn (Z.to_nat skip) (fold_right (insertBy newer) [] found)) in
        let totalUsers := Z.of_nat (List.length found) in
        answer 200
          (UUsers listed totalUsers page (Routes.pageCount totalUsers limit))
  end.

(** [router.get('/:id')] *)
Definition getUser (w : World) (token : Token) (id : ObjectId) : UResponse :=
  match requireSignIn w token with
  | Reply r => relay r
  | Next principal =>
      match hasRole ["admin"; "manager"] principal with
      | Reply r => relay r
      | Next _ =>
          match findUserById w id with
          | None => answer 404 (UError "User not found")
          | Some user =>
              if (u_role principal =? "manager") && negb (u_role user =? "user")
              then answer 403 (UError "Access denied")
              else answer 200 (UUser user)
          end
      end
  end.

Definition roles : list string := ["admin"; "manager"; "user"].

Definition withRole (u : User) (role : string) : User :=
  {| u_id := u_id u; u_name := u_name u; u_email := u_email u; u_role := role |}.

(** [user.save()]: the document of the same id is replaced. *)
Fixpoint saveUser (l : list User) (u : User) : list User :=
  match l with
  | [] => []
  | x :: rest => if u_id x =? u_id u then u :: rest else x :: saveUser rest u
  end.

Definition withUsers (w : World) (l : list User) : World :=
  {| users := l; tasks := tasks w; notifications := notifications w;
     oplog := oplog w; nextId := nextId w |}.

(** [router.put('/:id/role')] *)
Definition setRole (w : World) (token : Token) (id : ObjectId) (body : Obj)
  : UResponse * World :=
  match requireSignIn w token with
  | Reply r => (relay r, w)
  | Next principal =>
      match hasRole ["admin"] principal with
      | Reply r => (relay r, w)
      | Next _ =>
          match get body "role" with
          | Some (VStr role) =>
              if negb (includes roles role) then (answer 400 UErrors, w)
              else
                match findUserById w id with
                | None => (answer 404 (UError "User not found"), w)
                | Some user =>
                    if u_id user =? u_id principal
                    then (answer 400 (UError "You cannot change your own role"), w)
                    else
                      let user := withRole user role in
                      (answer 200
                         (UUserMessage
                            ("User role updated to " ++ role ++ " successfully")
                            user),
                       withUsers w (saveUser (users w) user))
                end
          | _ => (answer 400 UErrors, w)
          end
      end
  end.

End Accounts.

(** ** Notifications of the small deployment *)

Module SampleInbox.

Import Inbox.

Definition toBob1 : Stored :=
  {| s_id := "64b7f0a1c2d3e4f5a6b7f001"; s_createdAt := Dates.utc 2024 1 5;
     s_doc := {| n_type := "task-assigned"; sender := u_id Sample.ada;
                 recipient := u_id Sample.bob;
                 message := "Ada assigned you a new task: Daily report";
                 relatedTask := Some (t_id Sample.report); isRead := true |} |}.

Definition toMia : Stored :=
  {| s_id := "64b7f0a1c2d3e4f5a6b7f002"; s_createdAt := Dates.utc 2024 1 6;
     s_doc := {| n_type := "task-assigned"; sender := u_id Sample.ada;
                 recipient := u_id Sample.mia;
                 message := "Ada assigned you a new task: Audit";
                 relatedTask := Some (t_id Sample.audit); isRead := false |} |}.

Definition toBob2 : Stored :=
  {| s_id := "64b7f0a1c2d3e4f5a6b7f003"; s_createdAt := Dates.utc 2024 1 7;
     s_doc := {| n_type := "task-deleted"; sender := u_id Sample.ada;
                 recipient := u_id Sample.bob;
                 message := "Ada deleted a task that was assigned to you: Notes";
                 relatedTask := None; isRead := false |} |}.

Definition inbox : list Stored := [toBob1; toMia; toBob2].

End SampleInbox.

(** * Properties *)

Import Auth Model Routes.

(** ** Authorization *)

Section Authorization.

Variable w : World.
Variable P : User.

(** The principal is the user that the session resolves to. *)
Hypothesis signedIn : findUserById w (u_id P) = Some P.

Lemma findUserById_id : forall id u, findUserById w id = Some u -> u_id u = id.
Proof.
  unfold findUserById. intros id u H.
  apply find_some in H. destruct H as [_ H].
  now apply String.eqb_eq in H.
Qed.

Lemma requireSignIn_session : requireSignIn w (Session (u_id P)) = Next P.
Proof. unfold requireSignIn. now rewrite signedIn. Qed.

(** Reading an existing task whose creator is a known user: the answer is
    the task or the refusal 403, by the rule of the read action. *)
Lemma getTask_existing (T : Task) :
  findTaskById w (t_id T) = Some T ->
  findUserById w (createdBy T) <> None ->
  getTask w (Session (u_id P)) (t_id T) =
    if (u_role P =? "admin") || (createdBy T =? u_id P)
       || match assignedTo T with Some a => a =? u_id P | None => false end
    then respond 200 (PTask (populate w T))
    else respond 403 (PError "You do not have permission to view this task").
Proof.
  intros HT Hc. unfold getTask. rewrite requireSignIn_session, HT.
  destruct (u_role P =? "admin"); simpl; [reflexivity|].
  destruct (findUserById w (createdBy T)) as [c|] eqn:Ec; [|congruence].
  simpl. rewrite (findUserById_id _ _ Ec).
  destruct (createdBy T =? u_id P); simpl; [reflexivity|].
  destruct (assignedTo T) as [a|]; simpl; [|reflexivity].
  destruct (findUserById w a) as [u|] eqn:Ea; simpl.
  - rewrite (findUserById_id _ _ Ea). now destruct (a =? u_id P).
  - destruct (String.eqb_spec a (u_id P)); [|reflexivity].
    subst. congruence.
Qed.

Lemma guard_existing (T : Task) :
  findTaskById w (t_id T) = Some T ->
  isTaskCreatorOrAdmin w P (t_id T) =
    if (u_role P =? "admin") || (createdBy T =? u_id P)
       || ((u_role P =? "manager")
           && match assignedTo T with Some a => a =? u_id P | None => false end)
    then Next T
    else Reply (respond 403
           (PError "Access denied. You are not authorized to modify this task.")).
Proof. intros HT. unfold isTaskCreatorOrAdmin. now rewrite HT. Qed.

End Authorization.

Lemma assignee_eqb (T : Task) (id : ObjectId) :
  match assignedTo T with Some a => a =? id | None => false end = true
  <-> assignedTo T = Some id.
Proof.
  destruct (assignedTo T) as [a|]; [|split; discriminate].
  rewrite String.eqb_eq. split; congruence.
Qed.

(** The access rules on the stores whose tasks have known creators. For a
    principal [P] and a task [T] of the store: reading [T], when its creator
    is a user of the store, is granted exactly when [P] is an admin, the
    creator or the assignee of [T]; updating or deleting [T] passes the guard
    exactly when [P] is an admin, the creator of [T], or a manager who is its
    assignee; every other request on [T] is answered 403 by the read route,
    the guard, the update route and the delete route, which change nothing;
    and a request on an id that no task has is answered 404. *)
Lemma canAccess_contract :
  forall (env : Env) (w : World) (P : User),
    findUserById w (u_id P) = Some P ->
    (forall T : Task,
        findTaskById w (t_id T) = Some T ->
        let readable :=
          u_role P = "admin" \/ createdBy T = u_id P
          \/ assignedTo T = Some (u_id P) in
        let modifiable :=
          u_role P = "admin" \/ createdBy T = u_id P
          \/ (u_role P = "manager" /\ assignedTo T = Some (u_id P)) in
        (findUserById w (createdBy T) <> None ->
         (getTask w (Session (u_id P)) (t_id T)
            = respond 200 (PTask (populate w T)) <-> readable)
         /\ (~ readable -> code (getTask w (Session (u_id P)) (t_id T)) = 403))
        /\ (isTaskCreatorOrAdmin w P (t_id T) = Next T <-> modifiable)
        /\ (~ modifiable ->
            (exists r, isTaskCreatorOrAdmin w P (t_id T) = Reply r /\ code r = 403)
            /\ (forall body,
                   code (fst (updateTask env w (Session (u_id P)) (t_id T) body)) = 403
                   /\ snd (updateTask env w (Session (u_id P)) (t_id T) body) = w)
            /\ code (fst (deleteTask env w (Session (u_id P)) (t_id T))) = 403
            /\ snd (deleteTask env w (Session (u_id P)) (t_id T)) = w))
    /\ (forall id : ObjectId,
           findTaskById w id = None ->
           code (getTask w (Session (u_id P)) id) = 404
           /\ (exists r, isTaskCreatorOrAdmin w P id = Reply r /\ code r = 404)
           /\ (forall body,
                  code (fst (updateTask env w (Session (u_id P)) id body)) = 404)
           /\ code (fst (deleteTask env w (Session (u_id P)) id)) = 404).
Proof.
  intros env w P HP. split.
  - intros T HT readable modifiable.
    assert (Hr : ((u_role P =? "admin") || (createdBy T =? u_id P)
                  || match assignedTo T with
                     | Some a => a =? u_id P | None => false end) = true
                 <-> readable).
    { unfold readable.
      rewrite !orb_true_iff, !String.eqb_eq, assignee_eqb. tauto. }
    assert (Hm : ((u_role P =? "admin") || (createdBy T =? u_id P)
                  || ((u_role P =? "manager")
                      && match assignedTo T with
                         | Some a => a =? u_id P | None => false end)) = true
                 <-> modifiable).
    { unfold modifiable.
      rewrite !orb_true_iff, andb_true_iff, !String.eqb_eq, assignee_eqb. tauto. }
    split; [|split].
    + intros Hc. rewrite (getTask_existing w P HP T HT Hc).
      destruct ((u_role P =? "admin") || (createdBy T =? u_id P)
                || match assignedTo T with
                   | Some a => a =? u_id P | None => false end).
      * split; [tauto|]. intros Hn. exfalso. apply Hn. now apply Hr.
      * split; [|reflexivity].
        split; [discriminate|]. intros H. apply Hr in H. discriminate.
    + rewrite (guard_existing w P T HT).
      destruct ((u_role P =? "admin") || (createdBy T =? u_id P)
                || ((u_role P =? "manager")
                    && match assignedTo T with
                       | Some a => a =? u_id P | None => false end)).
      * tauto.
      * split; [discriminate|]. intros H. apply Hm in H. discriminate.
    + intros Hn.
      assert (Hg : isTaskCreatorOrAdmin w P (t_id T) =
                   Reply (respond 403 (PError
                     "Access denied. You are not authorized to modify this task."))).
      { rewrite (guard_existing w P T HT).
        destruct ((u_role P =? "admin") || (createdBy T =? u_id P)
                  || ((u_role P =? "manager")
                      && match assignedTo T with
                         | Some a => a =? u_id P | None => false end));
          [exfalso; apply Hn; now apply Hm | reflexivity]. }
      split; [eexists; split; [exact Hg | reflexivity]|].
      unfold updateTask, deleteTask.
      rewrite (requireSignIn_session w P HP), Hg. simpl. auto.
  - intros id Hid.
    unfold getTask, updateTask, deleteTask, isTaskCreatorOrAdmin.
    rewrite (requireSignIn_session w P HP), Hid. simpl.
    repeat split; eauto.
Qed.

(** Bob reads the report that is assigned to him, may not update it, and is
    told 404 for an id that no task has. *)
Lemma canAccess_contract_witness :
  getTask Sample.world (Session (u_id Sample.bob)) (t_id Sample.report)
    = respond 200 (PTask (populate Sample.world Sample.report))
  /\ code (fst (updateTask Sample.env Sample.world (Session (u_id Sample.bob))
                  (t_id Sample.report) [("title", VStr "Mine")])) = 403
  /\ code (getTask Sample.world (Session (u_id Sample.bob))
             "64b7f0a1c2d3e4f5a6b7d9ff") = 404.
Proof.
  destruct (canAccess_contract Sample.env Sample.world Sample.bob eq_refl)
    as [Hexisting Habsent].
  destruct (Hexisting Sample.report eq_refl) as [Hread [_ Hdenied]].
  split; [|split].
  - apply Hread; [discriminate|]. right. right. reflexivity.
  - apply Hdenied.
    intros [H|[H|[H _]]]; discriminate.
  - apply (Habsent "64b7f0a1c2d3e4f5a6b7d9ff" eq_refl).
Defined.

(** C1. The read rule fails on a task whose creator is not a user of the
    store. The route reads the id of the populated creator, which is then
    [null], before it looks at the assignee, and the exception is answered
    500: every principal who is not an admin gets this answer, the assignee
    of the task, whom the rule grants the read, as well as the principals
    whom it refuses with 403. The guard of the update and of the delete
    routes, which reads the reference and not the populated document, has no
    such failure. *)
Theorem read_fails_when_the_creator_is_unknown :
  forall (w : World) (P : User) (T : Task),
    findUserById w (u_id P) = Some P ->
    findTaskById w (t_id T) = Some T ->
    u_role P <> "admin" ->
    findUserById w (createdBy T) = None ->
    getTask w (Session (u_id P)) (t_id T) = internalError
    /\ isTaskCreatorOrAdmin w P (t_id T) <> Reply internalError.
Proof.
  intros w P T HP HT Hrole Hc. split.
  - unfold getTask. rewrite (requireSignIn_session w P HP), HT.
    destruct (String.eqb_spec (u_role P) "admin"); [contradiction|].
    unfold populate. cbn [negb p_createdBy]. now rewrite Hc.
  - rewrite (guard_existing w P T HT). destruct (_ || _); discriminate.
Qed.

(** Ada, who created the report that is assigned to Bob, updates it with a
    [createdBy] that is the id of no user: the update is accepted, and Bob,
    who read the report before, is answered 500 when he reads it. *)
Lemma read_fails_when_the_creator_is_unknown_witness :
  let updated :=
    updateTask Sample.env Sample.world (Session (u_id Sample.ada))
      (t_id Sample.report) [("createdBy", VStr "64b7f0a1c2d3e4f5a6b7c8ff")] in
  let T := setCreatedBy Sample.report "64b7f0a1c2d3e4f5a6b7c8ff" in
  code (getTask Sample.world (Session (u_id Sample.bob)) (t_id Sample.report)) = 200
  /\ code (fst updated) = 200
  /\ findTaskById (snd updated) (t_id Sample.report) = Some T
  /\ assignedTo T = Some (u_id Sample.bob)
  /\ getTask (snd updated) (Session (u_id Sample.bob)) (t_id Sample.report)
     = internalError.
Proof.
  intros updated T.
  split; [reflexivity|]. split; [reflexivity|]. split; [reflexivity|].
  split; [reflexivity|].
  apply (read_fails_when_the_creator_is_unknown (snd updated) Sample.bob T).
  - reflexivity.
  - reflexivity.
  - discriminate.
  - reflexivity.
Defined.

(** ** The list query *)

(** The tasks that a response lists. *)
Definition listed (r : Response) : list Populated :=
  match payload r with
  | PTasks ts _ _ _ => ts
  | _ => []
  end.

Lemma In_insertSorted (leq : Task -> Task -> bool) (t x : Task) (l : list Task) :
  In x (insertSorted leq t l) <-> x = t \/ In x l.
Proof.
  induction l as [|y l IH]; simpl.
  - intuition congruence.
  - destruct (leq t y); simpl; [intuition congruence|].
    rewrite IH. intuition congruence.
Qed.

Lemma In_sortTasks (env : Env) (sortBy : string) (asc : bool) (x : Task)
    (l : list Task) :
  In x (sortTasks env sortBy asc l) <-> In x l.
Proof.
  unfold sortTasks. induction l as [|y l IH]; simpl; [tauto|].
  rewrite In_insertSorted, IH. intuition congruence.
Qed.

Lemma In_skipn_In {A : Type} (n : nat) (x : A) (l : list A) :
  In x (skipn n l) -> In x l.
Proof.
  revert l. induction n as [|n IH]; intros [|y l]; simpl; auto.
Qed.

Lemma In_firstn_In {A : Type} (n : nat) (x : A) (l : list A) :
  In x (firstn n l) -> In x l.
Proof.
  revert l. induction n as [|n IH]; intros [|y l]; simpl; intuition.
Qed.

Lemma In_limitTo (n : Z) (x : Task) (l : list Task) :
  In x (limitTo n l) -> In x l.
Proof.
  unfold limitTo. destruct (n =? 0)%Z; [auto | apply In_firstn_In].
Qed.

(** Every listed task is a document of the store that matches the query. *)
Lemma listed_matches (env : Env) (w : World) (P : User) (f : Filters) (p : Populated) :
  findUserById w (u_id P) = Some P ->
  In p (listed (listTasks env w (Session (u_id P)) f)) ->
  p = populate w (p_task p)
  /\ In (p_task p) (tasks w)
  /\ matches env (buildQuery env P f) (p_task p) = true.
Proof.
  intros HP. unfold listTasks. rewrite (requireSignIn_session w P HP).
  destruct (negb (castable (buildQuery env P f)) || (_ <? 0)%Z);
    unfold listed; simpl; [tauto|].
  rewrite in_map_iff. intros [t [<- Ht]]. simpl.
  apply In_limitTo, In_skipn_In, In_sortTasks, filter_In in Ht.
  tauto.
Qed.

(** The query of a principal who is not an admin carries the visibility
    clause, whatever the filters. *)
Lemma buildQuery_or_non_admin (env : Env) (P : User) (f : Filters) :
  u_role P <> "admin" ->
  q_or (buildQuery env P f) = Some [CreatedByIs (u_id P); AssignedToIs (u_id P)].
Proof.
  intros HP. unfold buildQuery. simpl.
  destruct (String.eqb_spec (u_role P) "admin"); [contradiction | reflexivity].
Qed.

Lemma matches_or (env : Env) (q : Query) (t : Task) (clauses : list Clause) :
  matches env q t = true ->
  q_or q = Some clauses ->
  existsb (fun c => holds env c t) clauses = true.
Proof.
  unfold matches. intros H Hq. rewrite Hq in H.
  repeat (apply andb_true_iff in H; destruct H as [H ?]).
  repeat match goal with
         | H : _ && _ = true |- _ => apply andb_true_iff in H; destruct H
         end.
  assumption.
Qed.

(** C2. Whatever the filters, every task that the list query returns to a
    principal who is not an admin has this principal as its creator or as its
    assignee. *)
Theorem list_visibility :
  forall (env : Env) (w : World) (P : User) (f : Filters) (p : Populated),
    findUserById w (u_id P) = Some P ->
    u_role P <> "admin" ->
    In p (listed (listTasks env w (Session (u_id P)) f)) ->
    createdBy (p_task p) = u_id P \/ assignedTo (p_task p) = Some (u_id P).
Proof.
  intros env w P f p HP Hrole Hin.
  destruct (listed_matches env w P f p HP Hin) as [_ [_ Hm]].
  pose proof (matches_or env _ _ _ Hm
                (buildQuery_or_non_admin env P f Hrole)) as Hor.
  simpl in Hor. rewrite orb_false_r in Hor.
  apply orb_true_iff in Hor. destruct Hor as [H|H].
  - left. now apply String.eqb_eq.
  - right. now apply assignee_eqb.
Qed.

(** Bob filters on the tasks that Ada created: the audit, which Ada created
    for Mia, is not listed, and the report that is listed is assigned to Bob. *)
Lemma list_visibility_witness :
  listed (listTasks Sample.env Sample.world (Session (u_id Sample.bob))
            (mkFilters None None None None None (Some (u_id Sample.ada)) None
               None None None None))
    = [populate Sample.world Sample.report]
  /\ (createdBy Sample.report = u_id Sample.bob
      \/ assignedTo Sample.report = Some (u_id Sample.bob)).
Proof.
  split; [reflexivity|].
  apply (list_visibility Sample.env Sample.world Sample.bob
           (mkFilters None None None None None (Some (u_id Sample.ada)) None
              None None None None)
           (populate Sample.world Sample.report)).
  - reflexivity.
  - discriminate.
  - vm_compute. left. reflexivity.
Defined.

(** The filters without the search text. *)
Definition withoutSearch (f : Filters) : Filters :=
  {| f_status := f_status f; f_priority := f_priority f;
     f_dueDate := f_dueDate f; f_search := None;
     f_assignedTo := f_assignedTo f; f_createdBy := f_createdBy f;
     f_overdue := f_overdue f; f_page := f_page f; f_limit := f_limit f;
     f_sortBy := f_sortBy f; f_sortOrder := f_sortOrder f |}.

(** For an admin the search is a disjunction of two patterns that the query
    keeps next to the other conditions. *)
Lemma buildQuery_or_admin (env : Env) (P : User) (f : Filters) (s : string) :
  u_role P = "admin" ->
  f_search f = Some s ->
  s <> "" ->
  q_or (buildQuery env P f) = Some [TitleRegex s; DescriptionRegex s].
Proof.
  intros HP Hs Hne. unfold buildQuery. simpl. rewrite Hs, HP. simpl.
  destruct (String.eqb_spec s ""); [contradiction | reflexivity].
Qed.

(** C6. The search text has no effect on what the list query answers to a
    principal who is not an admin: the visibility clause takes the place of
    the search clause in the query instead of being joined to it. *)
Theorem search_replaced_by_visibility :
  forall (env : Env) (w : World) (P : User) (f : Filters),
    findUserById w (u_id P) = Some P ->
    u_role P <> "admin" ->
    buildQuery env P f = buildQuery env P (withoutSearch f)
    /\ listTasks env w (Session (u_id P)) f
       = listTasks env w (Session (u_id P)) (withoutSearch f).
Proof.
  intros env w P f HP Hrole.
  assert (Hq : buildQuery env P f = buildQuery env P (withoutSearch f)).
  { unfold buildQuery. simpl.
    destruct (String.eqb_spec (u_role P) "admin"); [contradiction | reflexivity]. }
  split; [exact Hq|].
  unfold listTasks. rewrite (requireSignIn_session w P HP), Hq. reflexivity.
Qed.

(** Bob searches for a word that occurs in no task: the two tasks that he may
    see are listed all the same. *)
Lemma search_replaced_by_visibility_witness :
  let f := mkFilters None None None (Some "zebra") None None None
             None None None None in
  listTasks Sample.env Sample.world (Session (u_id Sample.bob)) f
    = listTasks Sample.env Sample.world (Session (u_id Sample.bob))
        (withoutSearch f)
  /\ listed (listTasks Sample.env Sample.world (Session (u_id Sample.bob)) f)
     = [populate Sample.world Sample.report; populate Sample.world Sample.errand]
  /\ forallb (fun t => negb (env_regex_i Sample.env "zebra" (title t))
                       && negb match description t with
                               | Some d => env_regex_i Sample.env "zebra" d
                               | None => false
                               end)
       [Sample.report; Sample.errand] = true.
Proof.
  intros f. split; [|split].
  - apply (search_replaced_by_visibility Sample.env Sample.world Sample.bob f).
    + reflexivity.
    + discriminate.
  - reflexivity.
  - reflexivity.
Defined.

(** For an admin the search is joined to the other conditions of the query:
    every task listed has the pattern in its title or in its description. *)
Lemma admin_search_is_joined (env : Env) (w : World) (P : User) (f : Filters)
    (s : string) (p : Populated) :
  findUserById w (u_id P) = Some P ->
  u_role P = "admin" ->
  f_search f = Some s ->
  s <> "" ->
  In p (listed (listTasks env w (Session (u_id P)) f)) ->
  env_regex_i env s (title (p_task p)) = true
  \/ exists d, description (p_task p) = Some d /\ env_regex_i env s d = true.
Proof.
  intros HP Hrole Hs Hne Hin.
  destruct (listed_matches env w P f p HP Hin) as [_ [_ Hm]].
  pose proof (matches_or env _ _ _ Hm
                (buildQuery_or_admin env P f s Hrole Hs Hne)) as Hor.
  simpl in Hor. rewrite orb_false_r in Hor.
  apply orb_true_iff in Hor. destruct Hor as [H|H]; [left; exact H|].
  right. destruct (description (p_task p)) as [d|]; [|discriminate].
  exists d. split; [reflexivity | exact H].
Qed.

(** ** Assignment of the request body to a document *)

Ltac assign_cases :=
  unfold assign;
  repeat match goal with
         | |- context [if String.eqb ?a ?b then _ else _] =>
             destruct (String.eqb_spec a b); try congruence
         end;
  repeat match goal with
         | |- context [match ?x with _ => _ end] => destruct x
         end;
  simpl; try congruence; auto.

Lemma assign_t_id (d : Doc) (key : string) (v : Value) :
  t_id (d_task (assign d key v)) = t_id (d_task d).
Proof. assign_cases. Qed.

Lemma assign_status_other (d : Doc) (key : string) (v : Value) :
  key <> "status" -> status (d_task (assign d key v)) = status (d_task d).
Proof. intros H. assign_cases. Qed.


Lemma assign_assignedTo_other (d : Doc) (key : string) (v : Value) :
  key <> "assignedTo" -> assignedTo (d_task (assign d key v)) = assignedTo (d_task d).
Proof. intros H. assign_cases. Qed.

(** What an assignment to [status], [createdBy] or [assignedTo] leaves in
    the path. *)
Definition statusSet (v : Value) (old : option string) : option string :=
  match castString v with Some o => o | None => old end.


Definition assignedToSet (v : Value) (old : option ObjectId) : option ObjectId :=
  match castObjectId v with Some o => o | None => old end.

Lemma assign_status (d : Doc) (v : Value) :
  status (d_task (assign d "status" v)) = statusSet v (status (d_task d)).
Proof. unfold assign, statusSet. simpl. now destruct (castString v). Qed.


Lemma assign_assignedTo (d : Doc) (v : Value) :
  assignedTo (d_task (assign d "assignedTo" v))
    = assignedToSet v (assignedTo (d_task d)).
Proof. unfold assign, assignedToSet. simpl. now destruct (castObjectId v). Qed.

Lemma get_keys {A : Type} (o : list (string * A)) (key : string) :
  get o key = None <-> existsb (String.eqb key) (keys o) = false.
Proof.
  induction o as [|[k v] o IH]; simpl; [tauto|].
  rewrite orb_false_iff, <- IH, (String.eqb_sym key k).
  destruct (get o key); destruct (k =? key); intuition congruence.
Qed.

Section AssignAll.

Variable A : Type.
Variable proj : Task -> A.
Variable field : string.
Variable set : Value -> A -> A.

Hypothesis others : forall d key v,
    key <> field -> proj (d_task (assign d key v)) = proj (d_task d).
Hypothesis this : forall d v,
    proj (d_task (assign d field v)) = set v (proj (d_task d)).
Hypothesis again : forall v x, set v (set v x) = set v x.

Let step (data : Obj) (d : Doc) (key : string) : Doc :=
  match get data key with
  | Some v => assign d key v
  | None => d
  end.

Lemma fold_assign (data : Obj) (ks : list string) (d : Doc) :
  proj (d_task (fold_left (step data) ks d)) =
    match get data field with
    | Some v =>
        if existsb (String.eqb field) ks
        then set v (proj (d_task d)) else proj (d_task d)
    | None => proj (d_task d)
    end.
Proof.
  revert d. induction ks as [|k ks IH]; intros d; simpl.
  - now destruct (get data field).
  - rewrite IH. unfold step.
    destruct (String.eqb_spec field k) as [<-|Hne]; simpl.
    + destruct (get data field) as [v|]; [|reflexivity].
      rewrite this. destruct (existsb _ ks); [apply again | reflexivity].
    + destruct (get data k) as [vk|]; [|reflexivity].
      rewrite others by congruence. reflexivity.
Qed.

(** After the loop a path holds what its key of the body sets, and what it
    held when the body has no such key. *)
Lemma assignAll_path (data : Obj) (d : Doc) :
  proj (d_task (assignAll d data)) =
    match get data field with
    | Some v => set v (proj (d_task d))
    | None => proj (d_task d)
    end.
Proof.
  unfold assignAll.
  change (fun d0 key => match get data key with
                        | Some v => assign d0 key v
                        | None => d0
                        end) with (step data).
  rewrite fold_assign.
  destruct (get data field) as [v|] eqn:E; [|reflexivity].
  destruct (existsb (String.eqb field) (keys data)) eqn:Ex; [reflexivity|].
  apply get_keys in Ex. congruence.
Qed.

End AssignAll.

Lemma assignAll_t_id (data : Obj) (d : Doc) :
  t_id (d_task (assignAll d data)) = t_id (d_task d).
Proof.
  unfold assignAll. generalize (keys data) as ks. intros ks. revert d.
  induction ks as [|k ks IH]; intros d; simpl; [reflexivity|].
  rewrite IH. destruct (get data k); [apply assign_t_id | reflexivity].
Qed.

Lemma assignAll_status (data : Obj) (d : Doc) :
  status (d_task (assignAll d data)) =
    match get data "status" with
    | Some v => statusSet v (status (d_task d))
    | None => status (d_task d)
    end.
Proof.
  apply assignAll_path.
  - apply assign_status_other.
  - apply assign_status.
  - intros v x. unfold statusSet. now destruct (castString v).
Qed.


Lemma assignAll_assignedTo (data : Obj) (d : Doc) :
  assignedTo (d_task (assignAll d data)) =
    match get data "assignedTo" with
    | Some v => assignedToSet v (assignedTo (d_task d))
    | None => assignedTo (d_task d)
    end.
Proof.
  apply assignAll_path.
  - apply assign_assignedTo_other.
  - apply assign_assignedTo.
  - intros v x. unfold assignedToSet. now destruct (castObjectId v).
Qed.

(** The recurrence condition of the update route is read on the document
    after the body was assigned to it: a body whose status is [completed]
    leaves a document whose status is [completed], and the condition is
    false on every request. *)
Lemma wasCompleted_false (body : Obj) (d : Doc) :
  isCompletedValue (get body "status")
  && statusIsNot (d_task (assignAll d body)) "completed" = false.
Proof.
  unfold statusIsNot. rewrite assignAll_status.
  destruct (get body "status") as [[s| | | |]|]; simpl; try reflexivity.
  destruct (String.eqb_spec s "completed"); [subst; reflexivity | reflexivity].
Qed.

(** ** What the routes do to the store *)

(** The part of the store that holds the users and the tasks. *)
Definition taskState (w : World) : list User * list Task * nat :=
  (users w, tasks w, nextId w).

Lemma createNotification_taskState env w ty s r m tid :
  taskState (snd (createNotification env w ty s r m tid)) = taskState w.
Proof.
  unfold createNotification.
  now destruct (env_notificationSaves env w _).
Qed.

(** The first notification of an update is one call of
    [createNotification], or none. *)
Lemma notifyAssigned_cases env w user body old task :
  notifyAssigned env w user body old task = w
  \/ exists a,
       notifyAssigned env w user body old task
       = snd (createNotification env w "task-assigned" (u_id user) a
                (u_name user ++ " assigned you a task: " ++ title task)
                (Some (t_id task))).
Proof.
  unfold notifyAssigned.
  destruct (get body "assignedTo") as [v|]; [|now left].
  destruct (_ && _); [|now left].
  destruct (castObjectId v) as [[a|]|]; try now left.
  right. now exists a.
Qed.

Lemma notifyAssigned_taskState env w user body old task :
  taskState (notifyAssigned env w user body old task) = taskState w.
Proof.
  destruct (notifyAssigned_cases env w user body old task) as [->|[a ->]];
    [reflexivity | apply createNotification_taskState].
Qed.

Lemma notifyUpdated_taskState env w user body old task :
  taskState (notifyUpdated env w user body old task) = taskState w.
Proof.
  unfold notifyUpdated.
  destruct (get body "status") as [v|]; destruct old as [o|]; try reflexivity.
  destruct (_ && _); [apply createNotification_taskState | reflexivity].
Qed.

Lemma notifyEach_taskState env user a found :
  forall w, taskState (notifyEach env w user a found) = taskState w.
Proof.
  induction found as [|t found IH]; intros w; simpl; [reflexivity|].
  rewrite IH. apply createNotification_taskState.
Qed.

Lemma taskState_tasks w w' : taskState w = taskState w' -> tasks w = tasks w'.
Proof. unfold taskState. congruence. Qed.

(** The update route either answers an error and leaves the store as it is,
    or saves the document, sends its two notifications and answers 200: the
    branch of the recurrence is never taken. *)
Lemma updateTask_run env w token id body :
  (snd (updateTask env w token id body) = w
   /\ code (fst (updateTask env w token id body)) <> 200)
  \/ exists user found,
       requireSignIn w token = Next user
       /\ isTaskCreatorOrAdmin w user id = Next found
       /\ validateUpdate body = true
       /\ updateTask env w token id body =
            let task := d_task (assignAll {| d_task := found; d_invalid := false |} body) in
            (respond 200 (PTaskMessage "Task updated successfully" task),
             notifyUpdated env
               (notifyAssigned env (saveTask w task) user body (assignedTo found) task)
               user body (assignedTo found) task).
Proof.
  unfold updateTask.
  destruct (requireSignIn w token) as [user|r] eqn:Eu.
  2:{ left. split; [reflexivity|].
      unfold requireSignIn in Eu. destruct token; try (inversion Eu; discriminate).
      destruct (findUserById w id0); inversion Eu. discriminate. }
  destruct (isTaskCreatorOrAdmin w user id) as [found|r] eqn:Eg.
  2:{ left. split; [reflexivity|].
      unfold isTaskCreatorOrAdmin in Eg. destruct (findTaskById w id).
      - destruct (_ || _); inversion Eg. discriminate.
      - inversion Eg. discriminate. }
  destruct (validateUpdate body); simpl; [|left; split; [reflexivity|discriminate]].
  destruct (d_invalid _ || negb (validates _)); simpl;
    [left; split; [reflexivity|discriminate]|].
  right. exists user, found. repeat split; try assumption.
  rewrite wasCompleted_false. reflexivity.
Qed.

Lemma replaceById_ids (l : list Task) (t : Task) :
  map t_id (replaceById l t) = map t_id l.
Proof.
  induction l as [|x l IH]; simpl; [reflexivity|].
  destruct (String.eqb_spec (t_id x) (t_id t)); simpl; congruence.
Qed.


Lemma guard_found w user id found :
  isTaskCreatorOrAdmin w user id = Next found ->
  findTaskById w id = Some found /\ t_id found = id.
Proof.
  unfold isTaskCreatorOrAdmin.
  destruct (findTaskById w id) as [t|] eqn:E; [|discriminate].
  destruct (_ || _); [|discriminate].
  intros H. inversion H. subst. split; [reflexivity|].
  unfold findTaskById in E. apply find_some in E.
  now apply String.eqb_eq.
Qed.

(** The tasks of the store after an update that was accepted. *)
Lemma updateTask_tasks env w token id body :
  tasks (snd (updateTask env w token id body)) = tasks w
  \/ exists user found,
       requireSignIn w token = Next user
       /\ isTaskCreatorOrAdmin w user id = Next found
       /\ code (fst (updateTask env w token id body)) = 200
       /\ tasks (snd (updateTask env w token id body)) =
            replaceById (tasks w)
              (d_task (assignAll {| d_task := found; d_invalid := false |} body)).
Proof.
  destruct (updateTask_run env w token id body)
    as [[H _]|[user [found [Hu [Hg [_ H]]]]]].
  - left. now rewrite H.
  - right. exists user, found. rewrite H. simpl. repeat split; try assumption.
    apply (taskState_tasks _ (saveTask w _)).
    now rewrite notifyUpdated_taskState, notifyAssigned_taskState.
Qed.

Lemma createNotification_oplog env w ty s r m tid :
  exists op,
    oplog (snd (createNotification env w ty s r m tid)) = (oplog w ++ [op])%list
    /\ forall t, op <> OpTaskInsert t.
Proof.
  unfold createNotification.
  destruct (env_notificationSaves env w _); simpl; eexists; split;
    try reflexivity; discriminate.
Qed.

(** No task was inserted between two states of the store. *)
Definition noInsert (w w' : World) : Prop :=
  forall t, In (OpTaskInsert t) (oplog w') -> In (OpTaskInsert t) (oplog w).

Lemma noInsert_refl w : noInsert w w.
Proof. intros t H. exact H. Qed.

Lemma noInsert_trans w1 w2 w3 : noInsert w1 w2 -> noInsert w2 w3 -> noInsert w1 w3.
Proof. unfold noInsert. auto. Qed.

Lemma noInsert_step (w w' : World) (op : StoreOp) :
  oplog w' = (oplog w ++ [op])%list ->
  (forall t, op <> OpTaskInsert t) ->
  noInsert w w'.
Proof.
  intros H Hop t Hin. rewrite H in Hin.
  apply in_app_or in Hin. destruct Hin as [Hin|[Hin|[]]]; [assumption|].
  now apply Hop in Hin.
Qed.

Lemma createNotification_noInsert env w ty s r m tid :
  noInsert w (snd (createNotification env w ty s r m tid)).
Proof.
  destruct (createNotification_oplog env w ty s r m tid) as [op [H Hop]].
  exact (noInsert_step _ _ op H Hop).
Qed.

Lemma notifyAssigned_noInsert env w user body old task :
  noInsert w (notifyAssigned env w user body old task).
Proof.
  destruct (notifyAssigned_cases env w user body old task) as [->|[a ->]];
    [apply noInsert_refl | apply createNotification_noInsert].
Qed.

Lemma notifyUpdated_noInsert env w user body old task :
  noInsert w (notifyUpdated env w user body old task).
Proof.
  unfold notifyUpdated.
  destruct (get body "status") as [v|]; destruct old as [o|];
    try apply noInsert_refl.
  destruct (_ && _); [apply createNotification_noInsert | apply noInsert_refl].
Qed.

(** ** Recurrence *)

(** C3. No request to the update route adds a task to the store: after the
    request the collection holds the documents of the same ids, in the same
    places, no object id was taken for a new document, and no insertion was
    issued. Completing a recurring task therefore spawns no next occurrence. *)
Theorem update_never_spawns :
  forall (env : Env) (w : World) (token : Token) (id : ObjectId) (body : Obj),
    let w' := snd (updateTask env w token id body) in
    map t_id (tasks w') = map t_id (tasks w)
    /\ nextId w' = nextId w
    /\ (forall t, In (OpTaskInsert t) (oplog w') -> In (OpTaskInsert t) (oplog w)).
Proof.
  intros env w token id body w'. subst w'.
  destruct (updateTask_run env w token id body)
    as [[H _]|[user [found [_ [_ [_ H]]]]]]; rewrite H; simpl.
  - repeat split; auto.
  - set (task := d_task (assignAll _ body)).
    set (w1 := saveTask w task).
    set (w2 := notifyAssigned env w1 user body (assignedTo found) task).
    set (w3 := notifyUpdated env w2 user body (assignedTo found) task).
    assert (Hs : taskState w3 = taskState w1).
    { unfold w3, w2.
      now rewrite notifyUpdated_taskState, notifyAssigned_taskState. }
    unfold taskState in Hs. injection Hs as _ Ht Hn.
    rewrite Ht, Hn. simpl. split; [apply replaceById_ids|]. split; [reflexivity|].
    apply (noInsert_trans w w1 w3).
    + apply (noInsert_step w w1 (OpTaskSave task)); [reflexivity | discriminate].
    + apply (noInsert_trans w1 w2 w3);
        [apply notifyAssigned_noInsert | apply notifyUpdated_noInsert].
Qed.

(** Ada completes the daily report that is due on 2024-01-10: the update is
    accepted, the store holds the three tasks it held, and no task is due on
    2024-01-11, although [createRecurringTask] makes such a task of the
    report when it is called. *)
Example completing_the_daily_report :
  let r := updateTask Sample.env Sample.world (Session (u_id Sample.ada))
             (t_id Sample.report) [("status", VStr "completed")] in
  code (fst r) = 200
  /\ tasks (snd r)
     = [setStatus Sample.report (Some "completed"); Sample.errand; Sample.audit]
  /\ option_map (fun t => (status t, dueDate t))
       (fst (createRecurringTask Sample.env Sample.world Sample.report "daily"))
     = Some (Some "todo", Some (Dates.utc 2024 1 11)).
Proof. vm_compute. repeat split. Qed.

(** ** The creator of a task *)











(** ** Notifications *)

(** The notifications that the store holds in [w'] and did not hold in [w]. *)
Definition added (w w' : World) : list Notification :=
  skipn (List.length (notifications w)) (notifications w').

Lemma skipn_length_app {A : Type} (l l' : list A) :
  skipn (List.length l) (l ++ l')%list = l'.
Proof. induction l as [|x l IH]; simpl; [reflexivity | exact IH]. Qed.

Lemma added_app (w w' : World) (l : list Notification) :
  notifications w' = (notifications w ++ l)%list -> added w w' = l.
Proof. intros H. unfold added. rewrite H. apply skipn_length_app. Qed.

(** [w'] holds the notifications of [w] followed by notifications that all
    satisfy [Q]. *)
Definition grownBy (Q : Notification -> Prop) (w w' : World) : Prop :=
  exists l, notifications w' = (notifications w ++ l)%list /\ Forall Q l.

Lemma grownBy_added Q w w' : grownBy Q w w' -> Forall Q (added w w').
Proof. intros [l [H HQ]]. now rewrite (added_app w w' l H). Qed.

Lemma grownBy_refl Q w w' :
  notifications w' = notifications w -> grownBy Q w w'.
Proof. intros H. exists []. rewrite H, app_nil_r. split; constructor. Qed.

Lemma grownBy_trans Q w1 w2 w3 :
  grownBy Q w1 w2 -> grownBy Q w2 w3 -> grownBy Q w1 w3.
Proof.
  intros [l1 [H1 Q1]] [l2 [H2 Q2]]. exists (l1 ++ l2)%list. split.
  - rewrite H2, H1. now rewrite app_assoc.
  - apply Forall_app. now split.
Qed.

Lemma createNotification_notifications env w ty s r m tid :
  notifications (snd (createNotification env w ty s r m tid)) =
    (notifications w ++
     let n := mkNotification ty s r m tid false in
     if env_notificationSaves env w n then [n] else [])%list.
Proof.
  unfold createNotification. simpl.
  destruct (env_notificationSaves env w _); simpl;
    [reflexivity | now rewrite app_nil_r].
Qed.

Lemma createNotification_grownBy (Q : Notification -> Prop) env w ty s r m tid :
  Q (mkNotification ty s r m tid false) ->
  grownBy Q w (snd (createNotification env w ty s r m tid)).
Proof.
  intros HQ. eexists. split; [apply createNotification_notifications|].
  simpl. destruct (env_notificationSaves env w _); repeat constructor.
  exact HQ.
Qed.

(** What is known of a notification that the first step of the update
    route makes. *)
Definition assignmentBy (user : User) (n : Notification) : Prop :=
  n_type n = "task-assigned" /\ sender n = u_id user /\ relatedTask n <> None.

Lemma notifyAssigned_grownBy env w user body old task :
  grownBy (assignmentBy user) w (notifyAssigned env w user body old task).
Proof.
  destruct (notifyAssigned_cases env w user body old task) as [->|[a ->]].
  - apply grownBy_refl; reflexivity.
  - apply createNotification_grownBy. repeat split; discriminate.
Qed.

(** The notification of a change of status, and the condition under which
    the update route sends it. *)
Definition statusNotification (user : User) (body : Obj) (old : ObjectId)
    (task : Task) : Notification :=
  {| n_type := "task-updated"; sender := u_id user; recipient := old;
     message :=
       u_name user ++ " updated the status of task " ++ dquote ++ title task
       ++ dquote ++ " to "
       ++ match get body "status" with
          | Some v => match asText v with Some s => s | None => "" end
          | None => ""
          end;
     relatedTask := Some (t_id task); isRead := false |}.

Lemma notifyUpdated_notifications env w user body old task :
  notifications (notifyUpdated env w user body old task) =
    (notifications w ++
     match get body "status", old with
     | Some v, Some a =>
         if truthy v && negb (a =? u_id user)
            && env_notificationSaves env w (statusNotification user body a task)
         then [statusNotification user body a task] else []
     | _, _ => []
     end)%list.
Proof.
  unfold notifyUpdated, statusNotification.
  destruct (get body "status") as [v|]; [|now rewrite app_nil_r].
  destruct old as [a|]; [|now rewrite app_nil_r].
  destruct (truthy v && negb (a =? u_id user)); simpl;
    [|now rewrite app_nil_r].
  rewrite createNotification_notifications. reflexivity.
Qed.

(** *** The notification of an update of the status *)

(** A notification of type [task-updated] that is addressed to the assignee
    that the task had before the update is among those that the update adds. *)
Definition updateNotified (env : Env) (w : World) (P : User) (id : ObjectId)
    (body : Obj) : Prop :=
  exists (T : Task) (n : Notification),
    findTaskById w id = Some T
    /\ In n (added w (snd (updateTask env w (Session (u_id P)) id body)))
    /\ n_type n = "task-updated"
    /\ assignedTo T = Some (recipient n).

(** The status of the task after the update is not the one it had before. *)
Definition statusChanged (env : Env) (w : World) (P : User) (id : ObjectId)
    (body : Obj) : Prop :=
  exists T T' : Task,
    findTaskById w id = Some T
    /\ findTaskById (snd (updateTask env w (Session (u_id P)) id body)) id = Some T'
    /\ status T' <> status T.

(** The task had an assignee before the update, who is not the principal. *)
Definition assignedToAnother (w : World) (P : User) (id : ObjectId) : Prop :=
  exists (T : Task) (a : ObjectId),
    findTaskById w id = Some T /\ assignedTo T = Some a /\ a <> u_id P.

(** The body of the request has a [status] field. *)
Definition statusGiven (body : Obj) : Prop := get body "status" <> None.

(** C7, as stated, fails: Ada sends the status that her report already has;
    Bob, its assignee, is notified of an update of the status, and the status
    did not change. *)
Lemma update_notified_without_change :
  ~ (updateNotified Sample.env Sample.world Sample.ada (t_id Sample.report)
       [("status", VStr "todo")]
     <-> statusChanged Sample.env Sample.world Sample.ada (t_id Sample.report)
           [("status", VStr "todo")]
         /\ assignedToAnother Sample.world Sample.ada (t_id Sample.report)).
Proof.
  intros [H _].
  assert (Hn : updateNotified Sample.env Sample.world Sample.ada
                 (t_id Sample.report) [("status", VStr "todo")]).
  { exists Sample.report.
    exists (statusNotification Sample.ada [("status", VStr "todo")]
              (u_id Sample.bob) Sample.report).
    repeat split. left. reflexivity. }
  destruct (H Hn) as [[T [T' [HT [HT' Hne]]]] _].
  vm_compute in HT, HT'.
  injection HT as <-. injection HT' as <-.
  apply Hne. reflexivity.
Qed.

Lemma isIn_statuses_truthy (v : Value) : isIn statuses v = true -> truthy v = true.
Proof.
  destruct v as [s|[|]| |items|]; simpl; try discriminate; try reflexivity.
  destruct s; [discriminate | reflexivity].
Qed.

Lemma validateUpdate_status (body : Obj) (v : Value) :
  validateUpdate body = true ->
  get body "status" = Some v ->
  isIn statuses v = true.
Proof.
  unfold validateUpdate, validateCommon. intros H Hv.
  repeat (apply andb_true_iff in H; destruct H as [H ?]).
  repeat match goal with
         | H : _ && _ = true |- _ => apply andb_true_iff in H; destruct H
         end.
  match goal with
  | H : optional (isIn statuses) body "status" = true |- _ =>
      unfold optional in H; rewrite Hv in H; exact H
  end.
Qed.

(** C7, amended. When an update is accepted and the store takes the
    notifications, a notification of type [task-updated] addressed to the
    previous assignee is added exactly when the body of the request has a
    status, the task had an assignee, and this assignee is not the principal. *)
Theorem update_notification_condition :
  forall (env : Env) (w : World) (P : User) (id : ObjectId) (body : Obj),
    findUserById w (u_id P) = Some P ->
    (forall w0 n, env_notificationSaves env w0 n = true) ->
    code (fst (updateTask env w (Session (u_id P)) id body)) = 200 ->
    (updateNotified env w P id body
     <-> statusGiven body /\ assignedToAnother w P id).
Proof.
  intros env w P id body HP Hsaves Hcode.
  unfold updateNotified, statusGiven, assignedToAnother.
  destruct (updateTask_run env w (Session (u_id P)) id body)
    as [[_ H]|[user [found [Hu [Hg [Hv H]]]]]]; [contradiction|].
  rewrite (requireSignIn_session w P HP) in Hu. injection Hu as <-.
  destruct (guard_found w P id found Hg) as [Hf _].
  rewrite H. simpl.
  set (task := d_task (assignAll _ body)).
  destruct (notifyAssigned_grownBy env (saveTask w task) P body (assignedTo found) task)
    as [lA [HA QA]].
  set (w2 := notifyAssigned env (saveTask w task) P body (assignedTo found) task) in *.
  pose proof (notifyUpdated_notifications env w2 P body (assignedTo found) task) as HU.
  rewrite HA in HU. simpl in HU. rewrite <- app_assoc in HU.
  rewrite (added_app w _ _ HU).
  split.
  - intros [T [n [HT [Hin [Hty Hto]]]]].
    rewrite Hf in HT. injection HT as <-.
    apply in_app_or in Hin. destruct Hin as [Hin|Hin].
    + rewrite Forall_forall in QA. destruct (QA n Hin) as [Hty' _]. congruence.
    + destruct (get body "status") as [v|]; [|contradiction].
      split; [discriminate|].
      destruct (assignedTo found) as [a|] eqn:Ea; [|contradiction].
      destruct (truthy v && negb (a =? u_id P) && _) eqn:Ec; [|contradiction].
      exists found, a. repeat split; try assumption.
      apply andb_true_iff in Ec. destruct Ec as [Ec _].
      apply andb_true_iff in Ec. destruct Ec as [_ Ec].
      intros ->. rewrite String.eqb_refl in Ec. discriminate.
  - intros [Hs [T [a [HT [Ha Hne]]]]].
    rewrite Hf in HT. injection HT as <-.
    destruct (get body "status") as [v|] eqn:Ev; [|congruence].
    exists found, (statusNotification P body a task). rewrite Ha.
    split; [exact Hf|]. split; [|split; reflexivity].
    apply in_or_app. right.
    rewrite (isIn_statuses_truthy v (validateUpdate_status body v Hv Ev)).
    rewrite Hsaves.
    destruct (String.eqb_spec a (u_id P)); [contradiction|].
    left. reflexivity.
Qed.

(** Ada moves her report to review: Bob is notified. *)
Lemma update_notification_condition_witness :
  updateNotified Sample.env Sample.world Sample.ada (t_id Sample.report)
    [("status", VStr "review")]
  <-> statusGiven [("status", VStr "review")]
      /\ assignedToAnother Sample.world Sample.ada (t_id Sample.report).
Proof.
  apply update_notification_condition.
  - reflexivity.
  - intros w0 n. reflexivity.
  - reflexivity.
Defined.

(** *** The recipients of the notifications *)

(** A notification that the principal sends to somebody else, and that names
    no task when it tells of a deletion. *)
Definition wellAddressed (user : User) (n : Notification) : Prop :=
  sender n = u_id user
  /\ recipient n <> u_id user
  /\ (n_type n = "task-deleted" <-> relatedTask n = None).

Lemma grownBy_weaken (Q Q' : Notification -> Prop) w w' :
  (forall n, Q n -> Q' n) -> grownBy Q w w' -> grownBy Q' w w'.
Proof.
  intros HQ [l [H Hl]]. exists l. split; [exact H|].
  eapply Forall_impl; eauto.
Qed.

Lemma grownBy_same Q w1 w2 w3 :
  notifications w2 = notifications w1 -> grownBy Q w2 w3 -> grownBy Q w1 w3.
Proof. intros H [l [H' Hl]]. exists l. now rewrite <- H. Qed.

Lemma notifyUpdated_grownBy env w user body old task :
  grownBy (wellAddressed user) w (notifyUpdated env w user body old task).
Proof.
  unfold notifyUpdated.
  destruct (get body "status") as [v|]; destruct old as [a|];
    try (apply grownBy_refl; reflexivity).
  destruct (String.eqb_spec a (u_id user)) as [->|Hne].
  - rewrite andb_false_r. apply grownBy_refl; reflexivity.
  - destruct (_ && _); [|apply grownBy_refl; reflexivity].
    apply createNotification_grownBy. repeat split; try assumption; discriminate.
Qed.

(** The body of an update spells its assignee as the store does: the text
    that it gives for [assignedTo] is the id that this text is cast to. *)
Definition spelledAsStored (body : Obj) : Prop :=
  forall v a,
    get body "assignedTo" = Some v ->
    castObjectId v = Some (Some a) ->
    spells v a = true.

Lemma notifyAssigned_wellAddressed env w user body old task :
  spelledAsStored body ->
  grownBy (wellAddressed user) w (notifyAssigned env w user body old task).
Proof.
  intros Hb. unfold notifyAssigned.
  destruct (get body "assignedTo") as [v|] eqn:Ev;
    [|apply grownBy_refl; reflexivity].
  destruct (truthy v && _ && negb (spells v (u_id user))) eqn:Ec;
    [|apply grownBy_refl; reflexivity].
  destruct (castObjectId v) as [[a|]|] eqn:Ea;
    try (apply grownBy_refl; reflexivity).
  apply createNotification_grownBy.
  apply andb_true_iff in Ec. destruct Ec as [_ Ec].
  apply negb_true_iff in Ec.
  repeat split; try discriminate. simpl. intros ->.
  rewrite (Hb v (u_id user) Ev Ea) in Ec. discriminate.
Qed.

Lemma createTask_grownBy env w token body user :
  requireSignIn w token = Next user ->
  grownBy (fun n => wellAddressed user n /\ n_type n = "task-assigned")
    w (snd (createTask env w token body)).
Proof.
  intros Hu. unfold createTask. rewrite Hu.
  destruct (negb (validateCreate body)); [apply grownBy_refl; reflexivity|].
  destruct (d_invalid _ || negb _); [apply grownBy_refl; reflexivity|].
  cbn [snd]. set (task := d_task (withCreator _ _)).
  destruct (assignedTo task) as [a|]; [|apply grownBy_refl; reflexivity].
  destruct (String.eqb_spec a (u_id user)) as [->|Hne]; cbn [negb];
    [apply grownBy_refl; reflexivity|].
  apply (grownBy_same _ w (insertTask (takeId w) task)); [reflexivity|].
  apply createNotification_grownBy. repeat split; try assumption; discriminate.
Qed.

Lemma updateTask_wellAddressed env w token id body user :
  requireSignIn w token = Next user ->
  spelledAsStored body ->
  grownBy (wellAddressed user) w (snd (updateTask env w token id body)).
Proof.
  intros Hu Hb.
  destruct (updateTask_run env w token id body)
    as [[H _]|[user' [found [Hu' [_ [_ H]]]]]]; rewrite H.
  - apply grownBy_refl; reflexivity.
  - rewrite Hu in Hu'. injection Hu' as <-. simpl.
    set (task := d_task (assignAll _ body)).
    apply (grownBy_same _ w (saveTask w task)); [reflexivity|].
    eapply grownBy_trans;
      [apply notifyAssigned_wellAddressed; exact Hb | apply notifyUpdated_grownBy].
Qed.

Lemma deleteTask_grownBy env w token id user :
  requireSignIn w token = Next user ->
  grownBy (fun n => wellAddressed user n /\ n_type n = "task-deleted")
    w (snd (deleteTask env w token id)).
Proof.
  intros Hu. unfold deleteTask. rewrite Hu.
  destruct (isTaskCreatorOrAdmin w user id) as [task|r];
    [|apply grownBy_refl; reflexivity].
  simpl. destruct (assignedTo task) as [a|]; [|apply grownBy_refl; reflexivity].
  destruct (String.eqb_spec a (u_id user)) as [->|Hne]; simpl;
    [apply grownBy_refl; reflexivity|].
  match goal with
  | |- grownBy _ _ (deleteTaskById ?w1 _) =>
      apply (grownBy_trans _ w w1); [|apply grownBy_refl; reflexivity]
  end.
  apply createNotification_grownBy. repeat split; try assumption; discriminate.
Qed.

(** The routes that create and delete one task never notify the principal
    of what the principal did: they compare the ids. The route that updates
    a task compares the text of the body with the text of the id, and
    notifies nobody of their own deed when the body spells its assignee as
    the store does. *)
Lemma no_self_notification_on_one_task env w token user :
  requireSignIn w token = Next user ->
  (forall body,
      Forall (fun n => recipient n <> u_id user)
        (added w (snd (createTask env w token body))))
  /\ (forall id body,
         spelledAsStored body ->
         Forall (fun n => recipient n <> u_id user)
           (added w (snd (updateTask env w token id body))))
  /\ (forall id,
         Forall (fun n => recipient n <> u_id user)
           (added w (snd (deleteTask env w token id)))).
Proof.
  intros Hu. repeat split; intros; apply grownBy_added.
  - eapply grownBy_weaken; [|apply createTask_grownBy; eassumption].
    intros n H. apply H.
  - apply (grownBy_weaken (wellAddressed user));
      [intros n Hn; apply Hn | apply updateTask_wellAddressed; assumption].
  - eapply grownBy_weaken; [|apply deleteTask_grownBy; eassumption].
    intros n H. apply H.
Qed.

(** Ada, who created the report, assigns it to herself and writes her id in
    upper case: the text differs from the text of her id, and the route
    sends her a notification of her own deed. *)
Example update_notifies_the_actor_in_upper_case :
  let r := updateTask Sample.env Sample.world (Session (u_id Sample.ada))
             (t_id Sample.report)
             [("assignedTo", VStr "64B7F0A1C2D3E4F5A6B7C801")] in
  code (fst r) = 200
  /\ findTaskById (snd r) (t_id Sample.report)
     = Some (setAssignedTo Sample.report (Some (u_id Sample.ada)))
  /\ map (fun n => (sender n, recipient n)) (added Sample.world (snd r))
     = [(u_id Sample.ada, u_id Sample.ada)].
Proof. vm_compute. repeat split. Qed.

Lemma includes_In (l : list string) (s : string) :
  includes l s = true <-> In s l.
Proof.
  unfold includes. rewrite existsb_exists. split.
  - intros [x [Hin Hx]]. apply String.eqb_eq in Hx. now subst.
  - intros H. exists s. split; [exact H | apply String.eqb_refl].
Qed.

Lemma setPath_t_id (t : Task) (kv : string * option string) :
  t_id (setPath t kv) = t_id t.
Proof.
  destruct kv as [key v]. unfold setPath.
  destruct (key =? "status"); [reflexivity|].
  destruct (key =? "priority"); [reflexivity|].
  destruct (key =? "assignedTo"); reflexivity.
Qed.

Lemma applySet_t_id (set : list (string * option string)) (t : Task) :
  t_id (applySet set t) = t_id t.
Proof.
  unfold applySet. revert t.
  induction set as [|kv set IH]; intros t; simpl; [reflexivity|].
  now rewrite IH, setPath_t_id.
Qed.

(** The notification that the batch route sends for one task. *)
Definition batchNotification (user : User) (a : ObjectId) (task : Task)
  : Notification :=
  {| n_type := "task-assigned"; sender := u_id user; recipient := a;
     message := u_name user ++ " assigned you a task: " ++ title task;
     relatedTask := Some (t_id task); isRead := false |}.

Lemma notifyEach_notifications env user a found :
  (forall w0 n, env_notificationSaves env w0 n = true) ->
  forall w,
    notifications (notifyEach env w user a found) =
      (notifications w ++ map (batchNotification user a) found)%list.
Proof.
  intros Hsaves. induction found as [|t found IH]; intros w; simpl.
  - now rewrite app_nil_r.
  - rewrite IH, createNotification_notifications. simpl.
    rewrite Hsaves, <- app_assoc. reflexivity.
Qed.

Lemma notifyEach_grownBy (Q : Notification -> Prop) env user a found :
  (forall task, Q (batchNotification user a task)) ->
  forall w, grownBy Q w (notifyEach env w user a found).
Proof.
  intros HQ. induction found as [|t found IH]; intros w; simpl.
  - apply grownBy_refl; reflexivity.
  - eapply grownBy_trans; [|apply IH].
    apply createNotification_grownBy. apply HQ.
Qed.

(** Every notification that the batch route adds is one of its loop. *)
Lemma batchUpdate_grownBy (Q : Notification -> Prop) env w token body :
  (forall user a task,
      requireSignIn w token = Next user -> Q (batchNotification user a task)) ->
  grownBy Q w (snd (batchUpdate env w token body)).
Proof.
  intros HQ. unfold batchUpdate.
  destruct (requireSignIn w token) as [user|];
    [|apply grownBy_refl; reflexivity].
  destruct (hasRole _ user) as [[]|]; [|apply grownBy_refl; reflexivity].
  destruct (taskIds body) as [[|i ids]|];
    try (apply grownBy_refl; reflexivity).
  destruct (updates body) as [[|kv set]|];
    try (apply grownBy_refl; reflexivity).
  destruct (negb _); [apply grownBy_refl; reflexivity|].
  destruct (castUpdates _) as [cast|]; [|apply grownBy_refl; reflexivity].
  cbn [snd].
  destruct (get (kv :: set) "assignedTo") as [[a|]|];
    try (apply grownBy_refl; reflexivity).
  destruct (negb (a =? "")); [|apply grownBy_refl; reflexivity].
  destruct (objectId a) as [assignee|]; [|apply grownBy_refl; reflexivity].
  apply (grownBy_same _ w (updateMany w (i :: ids) cast)); [reflexivity|].
  apply notifyEach_grownBy. intros task. now apply HQ.
Qed.

Lemma objectId_not_empty (text : string) (id : ObjectId) :
  objectId text = Some id -> text <> "".
Proof. intros H ->. discriminate. Qed.

(** C5. The batch route notifies the principal of the principal's own
    action: when an admin or a manager assigns tasks to themselves in a
    batch (the body gives a text that the store reads as the id of the
    principal), and the store takes the notifications, one notification
    whose recipient is its sender is added for each task of the batch, where
    the routes that create and delete one task add none. *)
Theorem batch_update_notifies_the_actor :
  forall (env : Env) (w : World) (P : User) (ids : list ObjectId) (T : Task)
         (a : string),
    findUserById w (u_id P) = Some P ->
    u_role P = "admin" \/ u_role P = "manager" ->
    objectId a = Some (u_id P) ->
    In T (tasks w) ->
    In (t_id T) ids ->
    (forall w0 n, env_notificationSaves env w0 n = true) ->
    let request :=
      {| taskIds := Some ids; updates := Some [("assignedTo", Some a)] |} in
    exists n,
      In n (added w (snd (batchUpdate env w (Session (u_id P)) request)))
      /\ recipient n = u_id P
      /\ sender n = u_id P
      /\ relatedTask n = Some (t_id T).
Proof.
  intros env w P ids T a HP Hrole Hid HT Hids Hsaves request.
  unfold batchUpdate. rewrite (requireSignIn_session w P HP).
  assert (Hr : hasRole ["admin"; "manager"] P = Next tt).
  { unfold hasRole.
    replace (includes ["admin"; "manager"] (u_role P)) with true; [reflexivity|].
    symmetry. apply includes_In. simpl. destruct Hrole as [->| ->]; auto. }
  rewrite Hr. cbn [request taskIds updates].
  destruct ids as [|i ids]; [contradiction|].
  cbn [keys map fst forallb includes existsb allowedUpdates negb andb orb
       String.eqb Ascii.eqb Bool.eqb castUpdates castUpdate].
  rewrite Hid. cbn [option_map get String.eqb Ascii.eqb Bool.eqb snd].
  destruct (String.eqb_spec a "") as [E|_];
    [exfalso; exact (objectId_not_empty a _ Hid E)|]. cbn [negb].
  set (set := [("assignedTo", Some (u_id P))]).
  set (w1 := updateMany w (i :: ids) set).
  exists (batchNotification P (u_id P) (applySet set T)).
  split; [|repeat split; simpl; now rewrite ?applySet_t_id].
  rewrite (added_app w _ (map (batchNotification P (u_id P))
                            (filter (idIn (i :: ids)) (tasks w1)))).
  - apply in_map, filter_In. split.
    + unfold w1, updateMany. cbn [tasks]. apply in_map_iff. exists T.
      split; [|exact HT].
      assert (Hin : idIn (i :: ids) T = true) by (apply includes_In; exact Hids).
      rewrite Hin. reflexivity.
    + unfold idIn. rewrite applySet_t_id. apply includes_In. exact Hids.
  - rewrite Hid, (notifyEach_notifications env P (u_id P) _ Hsaves). reflexivity.
Qed.

(** Mia, a manager, takes the errand in a batch of one: she is notified by
    herself. *)
Lemma batch_update_notifies_the_actor_witness :
  exists n,
    In n (added Sample.world
            (snd (batchUpdate Sample.env Sample.world
                    (Session (u_id Sample.mia))
                    {| taskIds := Some [t_id Sample.errand];
                       updates := Some [("assignedTo", Some (u_id Sample.mia))] |})))
    /\ recipient n = u_id Sample.mia
    /\ sender n = u_id Sample.mia
    /\ relatedTask n = Some (t_id Sample.errand).
Proof.
  apply (batch_update_notifies_the_actor Sample.env Sample.world Sample.mia
           [t_id Sample.errand] Sample.errand (u_id Sample.mia)).
  - reflexivity.
  - right. reflexivity.
  - reflexivity.
  - right. left. reflexivity.
  - left. reflexivity.
  - intros w0 n. reflexivity.
Defined.

(** ** Batch update *)

(** The keys, the ids and the assignments of a batch request; a part that is
    missing counts for none. *)
Definition batchKeys (body : BatchBody) : list string :=
  match updates body with Some set => keys set | None => [] end.

Definition batchIds (body : BatchBody) : list ObjectId :=
  match taskIds body with Some ids => ids | None => [] end.

Definition batchSet (body : BatchBody) : list (string * option string) :=
  match updates body with Some set => set | None => [] end.

(** A task after [status], [priority] and [assignedTo] took the values that
    [set] gives them, the other paths being those of [t]. *)
Definition updated (set : list (string * option string)) (t : Task) : Task :=
  {| t_id := t_id t;
     title := title t;
     description := description t;
     status := match get set "status" with Some v => v | None => status t end;
     priority := match get set "priority" with Some v => v | None => priority t end;
     dueDate := dueDate t;
     createdBy := createdBy t;
     assignedTo :=
       match get set "assignedTo" with Some v => v | None => assignedTo t end;
     tags := tags t;
     isRecurring := isRecurring t;
     recurringType := recurringType t;
     recurringEndDate := recurringEndDate t |}.

Lemma updated_nil (t : Task) : updated [] t = t.
Proof. now destruct t. Qed.

Lemma updated_cons (kv : string * option string)
    (set : list (string * option string)) (t : Task) :
  updated set (setPath t kv) = updated (kv :: set) t.
Proof.
  destruct kv as [k v]. destruct t. unfold updated, setPath. simpl.
  destruct (String.eqb_spec k "status") as [->|H1]; simpl.
  - destruct (get set "status"), (get set "priority"), (get set "assignedTo");
      reflexivity.
  - destruct (String.eqb_spec k "priority") as [->|H2]; simpl.
    + destruct (get set "status"), (get set "priority"), (get set "assignedTo");
        reflexivity.
    + destruct (String.eqb_spec k "assignedTo") as [->|H3]; simpl;
        destruct (get set "status"), (get set "priority"), (get set "assignedTo");
        reflexivity.
Qed.

Lemma applySet_updated (set : list (string * option string)) (t : Task) :
  applySet set t = updated set t.
Proof.
  unfold applySet. revert t.
  induction set as [|kv set IH]; intros t; simpl.
  - symmetry. apply updated_nil.
  - rewrite IH. apply updated_cons.
Qed.

Lemma map_unchanged {A : Type} (f : A -> A) (l : list A) :
  (forall x, f x = x) -> map f l = l.
Proof.
  intros H. induction l as [|x l IH]; simpl; [reflexivity|].
  now rewrite H, IH.
Qed.

Lemma forallb_allowed (ks : list string) :
  forallb (includes allowedUpdates) ks = true
  <-> forall key, In key ks -> In key allowedUpdates.
Proof.
  rewrite forallb_forall. split; intros H key Hin.
  - apply includes_In, H, Hin.
  - apply includes_In, H, Hin.
Qed.

Lemma hasRole_allowed (roles : list string) (P : User) :
  In (u_role P) roles -> hasRole roles P = Next tt.
Proof.
  intros H. unfold hasRole. apply includes_In in H. now rewrite H.
Qed.

(** The batch route, for an admin or a manager whose request names ids and
    updates of allowed keys: the cast of the updates, then the store after
    the updates, then the notifications. *)
Lemma batchUpdate_run env w P ids set :
  findUserById w (u_id P) = Some P ->
  u_role P = "admin" \/ u_role P = "manager" ->
  ids <> [] -> set <> [] ->
  (forall key, In key (keys set) -> In key allowedUpdates) ->
  batchUpdate env w (Session (u_id P)) {| taskIds := Some ids; updates := Some set |}
  = match castUpdates set with
    | None => (internalError, w)
    | Some cast =>
        (respond 200 (PBatch "Tasks updated successfully"
                        (List.length (filter (idIn ids) (tasks w)))),
         match get set "assignedTo" with
         | Some (Some a) =>
             if negb (a =? "")
             then
               match objectId a with
               | Some assignee =>
                   notifyEach env (updateMany w ids cast) P assignee
                     (filter (idIn ids) (tasks (updateMany w ids cast)))
               | None => updateMany w ids cast
               end
             else updateMany w ids cast
         | _ => updateMany w ids cast
         end)
    end.
Proof.
  intros HP Hrole Hids Hset Hall. unfold batchUpdate.
  rewrite (requireSignIn_session w P HP), hasRole_allowed.
  2:{ simpl. destruct Hrole as [->| ->]; auto. }
  cbn [taskIds updates].
  destruct ids as [|i ids]; [contradiction|].
  destruct set as [|kv set]; [contradiction|].
  apply forallb_allowed in Hall. rewrite Hall. reflexivity.
Qed.

(** The tasks of the store after a batch that was cast. *)
Lemma batchUpdate_tasks env w P ids set cast :
  findUserById w (u_id P) = Some P ->
  u_role P = "admin" \/ u_role P = "manager" ->
  ids <> [] -> set <> [] ->
  (forall key, In key (keys set) -> In key allowedUpdates) ->
  castUpdates set = Some cast ->
  taskState (snd (batchUpdate env w (Session (u_id P))
                    {| taskIds := Some ids; updates := Some set |}))
  = taskState (updateMany w ids cast).
Proof.
  intros HP Hrole Hids Hset Hall Hcast.
  rewrite (batchUpdate_run env w P ids set HP Hrole Hids Hset Hall), Hcast.
  cbn [snd].
  destruct (get set "assignedTo") as [[a|]|]; try reflexivity.
  destruct (negb (a =? "")); [|reflexivity].
  destruct (objectId a); [apply notifyEach_taskState | reflexivity].
Qed.

(** The value that the cast leaves for a key of the updates. *)
Definition castValue (key : string) (v : option string)
  : option (option string) :=
  option_map snd (castUpdate (key, v)).

Lemma castUpdate_key (kv kv' : string * option string) :
  castUpdate kv = Some kv' -> fst kv' = fst kv.
Proof.
  destruct kv as [k v]. unfold castUpdate.
  destruct (k =? "assignedTo"); [destruct v as [text|]|].
  - destruct (objectId text); [|discriminate]. now intros [= <-].
  - now intros [= <-].
  - now intros [= <-].
Qed.

Lemma castUpdates_defined (set cast : list (string * option string))
    (key : string) (v : option string) :
  castUpdates set = Some cast ->
  get set key = Some v ->
  castValue key v <> None.
Proof.
  revert cast. induction set as [|[k v0] set IH]; intros cast H Hg;
    [discriminate|].
  cbn [castUpdates] in H.
  destruct (castUpdate (k, v0)) as [kv'|] eqn:Ekv; [|discriminate].
  destruct (castUpdates set) as [rest|] eqn:Er; [|discriminate].
  cbn [get] in Hg. destruct (get set key) as [v1|] eqn:Eg.
  - injection Hg as ->. now apply (IH rest).
  - destruct (String.eqb_spec k key) as [->|]; [|discriminate].
    injection Hg as ->. unfold castValue. now rewrite Ekv.
Qed.

(** What the cast leaves in the updates: for each key, the cast of the value
    that the updates give for it. *)
Lemma castUpdates_get (set cast : list (string * option string)) (key : string) :
  castUpdates set = Some cast ->
  get cast key =
    match get set key with
    | Some v => castValue key v
    | None => None
    end.
Proof.
  revert cast. induction set as [|[k v0] set IH]; intros cast H.
  - injection H as <-. reflexivity.
  - pose proof (fun v => castUpdates_defined _ _ key v H) as Hdef.
    cbn [castUpdates] in H.
    destruct (castUpdate (k, v0)) as [[k' v']|] eqn:Ekv; [|discriminate].
    destruct (castUpdates set) as [rest|] eqn:Er; [|discriminate].
    injection H as <-. pose proof (castUpdate_key _ _ Ekv) as Hk.
    cbn [fst] in Hk. subst k'. cbn [get] in *. rewrite (IH rest eq_refl).
    destruct (get set key) as [v1|] eqn:Eg.
    + specialize (Hdef v1 eq_refl).
      destruct (castValue key v1); [reflexivity | contradiction].
    + destruct (String.eqb_spec k key) as [->|]; [|reflexivity].
      unfold castValue. now rewrite Ekv.
Qed.

Lemma castValue_other (key : string) (v : option string) :
  key <> "assignedTo" -> castValue key v = Some v.
Proof.
  intros H. unfold castValue, castUpdate.
  destruct (String.eqb_spec key "assignedTo"); [contradiction | reflexivity].
Qed.

(** C8, as it is written: a key outside of the three makes the route answer
    400 and change nothing, and when every key is one of the three each task
    whose id is in the request receives the values that the updates give. *)
Definition allowListContract (env : Env) (w : World) (P : User)
    (body : BatchBody) : Prop :=
  let r := batchUpdate env w (Session (u_id P)) body in
  ((exists key, In key (batchKeys body) /\ ~ In key allowedUpdates) ->
   code (fst r) = 400 /\ snd r = w)
  /\ ((forall key, In key (batchKeys body) -> In key allowedUpdates) ->
      tasks (snd r) =
        map (fun t => if idIn (batchIds body) t
                      then updated (batchSet body) t else t) (tasks w)).

(** Mia wants the errand to be assigned to nobody and sends the empty text
    for its assignee: the key is allowed, the store cannot cast the text to
    an ObjectId, and the route answers 500 without any change, where the
    claim has the errand updated. *)
Lemma batch_update_fails_on_a_cast :
  ~ allowListContract Sample.env Sample.world Sample.mia
      {| taskIds := Some [t_id Sample.errand];
         updates := Some [("assignedTo", Some "")] |}.
Proof.
  intros [_ H].
  assert (Hk : forall key,
             In key (batchKeys {| taskIds := Some [t_id Sample.errand];
                                  updates := Some [("assignedTo", Some "")] |}) ->
             In key allowedUpdates).
  { intros key [<-|[]]. simpl. auto. }
  specialize (H Hk). vm_compute in H. discriminate.
Qed.

(** C8. A batch request of an admin or of a manager whose updates have a key
    outside of [status], [priority] and [assignedTo] is answered 400 and
    leaves the store as it is. When every key is one of the three and the
    store can cast the values (a text given for [assignedTo] must spell an
    ObjectId), each task whose id is in the request receives the same values
    of these keys, as they were cast, and the other tasks are left as they
    are; the answer is then 200 as soon as the request names an id and an
    update. When a value cannot be cast the store is left as it is, and the
    answer is 500 as soon as the request names an id. *)
Theorem batch_update_allow_list :
  forall (env : Env) (w : World) (P : User) (body : BatchBody),
    findUserById w (u_id P) = Some P ->
    u_role P = "admin" \/ u_role P = "manager" ->
    let r := batchUpdate env w (Session (u_id P)) body in
    ((exists key, In key (batchKeys body) /\ ~ In key allowedUpdates) ->
     code (fst r) = 400 /\ snd r = w)
    /\ ((forall key, In key (batchKeys body) -> In key allowedUpdates) ->
        (forall cast,
            castUpdates (batchSet body) = Some cast ->
            tasks (snd r) =
              map (fun t => if idIn (batchIds body) t
                            then updated cast t else t) (tasks w)
            /\ get cast "status" = get (batchSet body) "status"
            /\ get cast "priority" = get (batchSet body) "priority"
            /\ (batchIds body <> [] -> batchSet body <> [] -> code (fst r) = 200))
        /\ (castUpdates (batchSet body) = None ->
            snd r = w /\ (batchIds body <> [] -> code (fst r) = 500))).
Proof.
  intros env w P [ids set] HP Hrole r. subst r.
  unfold batchKeys, batchIds, batchSet. cbn [taskIds updates].
  split.
  - unfold batchUpdate. rewrite (requireSignIn_session w P HP).
    rewrite hasRole_allowed by (simpl; destruct Hrole as [->| ->]; auto).
    cbn [taskIds updates].
    intros [key [Hin Hout]].
    destruct ids as [[|i ids]|]; [split; reflexivity| |split; reflexivity].
    destruct set as [[|kv set]|]; [contradiction| |contradiction].
    destruct (forallb (includes allowedUpdates) (keys (kv :: set))) eqn:E.
    + exfalso. apply Hout. rewrite forallb_allowed in E. now apply E.
    + split; reflexivity.
  - intros Hall.
    assert (Hempty : forall ids',
               ids' = None \/ ids' = Some [] \/ set = None \/ set = Some [] ->
               snd (batchUpdate env w (Session (u_id P))
                      {| taskIds := ids'; updates := set |}) = w).
    { intros ids' H. unfold batchUpdate.
      rewrite (requireSignIn_session w P HP).
      rewrite hasRole_allowed by (simpl; destruct Hrole as [->| ->]; auto).
      cbn [taskIds updates].
      destruct ids' as [[|i ids']|]; try reflexivity.
      destruct set as [[|kv set]|]; try reflexivity.
      destruct H as [H|[H|[H|H]]]; discriminate. }
    destruct set as [set|].
    2:{ split; [|discriminate]. intros cast [= <-].
        rewrite Hempty by auto. repeat split; try congruence.
        symmetry. apply map_unchanged.
        intros t. rewrite updated_nil. now destruct (idIn _ t). }
    split.
    + intros cast Hcast.
      split; [|split; [|split]].
      * destruct ids as [[|i ids]|].
        -- rewrite Hempty by auto. symmetry. now apply map_unchanged.
        -- destruct set as [|kv set].
           ++ rewrite Hempty by auto. injection Hcast as <-.
              symmetry. apply map_unchanged.
              intros t. rewrite updated_nil. now destruct (idIn (i :: ids) t).
           ++ rewrite (taskState_tasks _ _
                         (batchUpdate_tasks env w P (i :: ids) (kv :: set) cast
                            HP Hrole ltac:(discriminate) ltac:(discriminate)
                            Hall Hcast)).
              cbn [updateMany tasks].
              apply map_ext. intros t. now rewrite applySet_updated.
        -- rewrite Hempty by auto. symmetry. now apply map_unchanged.
      * rewrite (castUpdates_get _ _ "status" Hcast).
        destruct (get set "status"); [|reflexivity].
        now apply castValue_other.
      * rewrite (castUpdates_get _ _ "priority" Hcast).
        destruct (get set "priority"); [|reflexivity].
        now apply castValue_other.
      * intros Hi Hset.
        destruct ids as [ids|]; [|contradiction].
        rewrite (batchUpdate_run env w P ids set); try assumption.
        now rewrite Hcast.
    + intros Hcast.
      assert (Hset : set <> []) by (intros ->; discriminate).
      destruct ids as [[|i ids]|].
      * split; [apply Hempty; auto | congruence].
      * rewrite (batchUpdate_run env w P (i :: ids) set);
          try assumption; try discriminate.
        rewrite Hcast. split; reflexivity.
      * split; [apply Hempty; auto | congruence].
Qed.

(** Mia closes two tasks in a batch, is refused when she also sends a
    title, and assigns the audit to Bob, whose id she writes in upper
    case. *)
Lemma batch_update_allow_list_witness :
  (let r := batchUpdate Sample.env Sample.world (Session (u_id Sample.mia))
              {| taskIds := Some [t_id Sample.errand; t_id Sample.audit];
                 updates := Some [("status", Some "completed");
                                  ("title", Some "Done")] |} in
   code (fst r) = 400 /\ snd r = Sample.world)
  /\ tasks (snd (batchUpdate Sample.env Sample.world (Session (u_id Sample.mia))
                   {| taskIds := Some [t_id Sample.errand; t_id Sample.audit];
                      updates := Some [("status", Some "completed");
                                       ("priority", Some "low")] |}))
     = [Sample.report;
        setPriority (setStatus Sample.errand (Some "completed")) (Some "low");
        setPriority (setStatus Sample.audit (Some "completed")) (Some "low")]
  /\ tasks (snd (batchUpdate Sample.env Sample.world (Session (u_id Sample.mia))
                   {| taskIds := Some [t_id Sample.audit];
                      updates := Some [("assignedTo",
                                        Some "64B7F0A1C2D3E4F5A6B7C802")] |}))
     = [Sample.report; Sample.errand;
        setAssignedTo Sample.audit (Some (u_id Sample.bob))].
Proof.
  split; [|split].
  - apply (batch_update_allow_list Sample.env Sample.world Sample.mia
             {| taskIds := Some [t_id Sample.errand; t_id Sample.audit];
                updates := Some [("status", Some "completed");
                                 ("title", Some "Done")] |}).
    + reflexivity.
    + right. reflexivity.
    + exists "title". split.
      * right. left. reflexivity.
      * intros [H|[H|[H|[]]]]; discriminate.
  - destruct (batch_update_allow_list Sample.env Sample.world Sample.mia
                {| taskIds := Some [t_id Sample.errand; t_id Sample.audit];
                   updates := Some [("status", Some "completed");
                                    ("priority", Some "low")] |}
                eq_refl (or_intror eq_refl)) as [_ H].
    destruct H as [H _].
    + intros key [<-|[<-|[]]]; simpl; auto.
    + destruct (H _ eq_refl) as [-> _]. reflexivity.
  - destruct (batch_update_allow_list Sample.env Sample.world Sample.mia
                {| taskIds := Some [t_id Sample.audit];
                   updates := Some [("assignedTo",
                                     Some "64B7F0A1C2D3E4F5A6B7C802")] |}
                eq_refl (or_intror eq_refl)) as [_ H].
    destruct H as [H _].
    + intros key [<-|[]]; simpl; auto.
    + destruct (H [("assignedTo", Some (u_id Sample.bob))] eq_refl) as [-> _].
      reflexivity.
Defined.

(** ** Failures of the notification store *)

(** The environment in which the store of the notifications answers as
    [saves] tells. *)
Definition withNotificationStore (env : Env)
    (saves : World -> Notification -> bool) : Env :=
  {| env_now := env_now env;
     env_parseDate := env_parseDate env;
     env_regex_i := env_regex_i env;
     env_leq := env_leq env;
     env_newId := env_newId env;
     env_notificationSaves := saves |}.

Lemma deleteTaskById_taskState w w' id :
  taskState w = taskState w' ->
  taskState (deleteTaskById w id) = taskState (deleteTaskById w' id).
Proof. unfold taskState. simpl. congruence. Qed.

(** C9. Whether the store takes or refuses the notifications of a request,
    the routes that create, update, delete and batch-update tasks give the
    same answer and leave the same users and tasks: the answer and the tasks
    are those of the run in which every notification is saved. *)
Theorem notification_failures_are_recovered :
  forall (env : Env) (saves : World -> Notification -> bool) (w : World)
         (token : Token),
    let env' := withNotificationStore env saves in
    (forall body,
        fst (createTask env' w token body) = fst (createTask env w token body)
        /\ taskState (snd (createTask env' w token body))
           = taskState (snd (createTask env w token body)))
    /\ (forall id body,
           fst (updateTask env' w token id body) = fst (updateTask env w token id body)
           /\ taskState (snd (updateTask env' w token id body))
              = taskState (snd (updateTask env w token id body)))
    /\ (forall id,
           fst (deleteTask env' w token id) = fst (deleteTask env w token id)
           /\ taskState (snd (deleteTask env' w token id))
              = taskState (snd (deleteTask env w token id)))
    /\ (forall body,
           fst (batchUpdate env' w token body) = fst (batchUpdate env w token body)
           /\ taskState (snd (batchUpdate env' w token body))
              = taskState (snd (batchUpdate env w token body))).
Proof.
  intros env saves w token env'. repeat split.
  - unfold createTask.
    destruct (requireSignIn w token); [|reflexivity].
    destruct (negb (validateCreate body)); [reflexivity|].
    cbn [env' withNotificationStore env_newId].
    destruct (d_invalid _ || negb _); reflexivity.
  - unfold createTask.
    destruct (requireSignIn w token) as [user|]; [|reflexivity].
    destruct (negb (validateCreate body)); [reflexivity|].
    cbn [env' withNotificationStore env_newId].
    destruct (d_invalid _ || negb _); [reflexivity|].
    cbn [snd].
    destruct (assignedTo _) as [a|]; [|reflexivity].
    destruct (negb (a =? u_id user)); [|reflexivity].
    now rewrite !createNotification_taskState.
  - unfold updateTask.
    destruct (requireSignIn w token) as [user|]; [|reflexivity].
    destruct (isTaskCreatorOrAdmin w user id) as [found|]; [|reflexivity].
    destruct (negb (validateUpdate body)); [reflexivity|].
    destruct (d_invalid _ || negb _); reflexivity.
  - unfold updateTask.
    destruct (requireSignIn w token) as [user|]; [|reflexivity].
    destruct (isTaskCreatorOrAdmin w user id) as [found|]; [|reflexivity].
    destruct (negb (validateUpdate body)); [reflexivity|].
    destruct (d_invalid _ || negb _); [reflexivity|].
    rewrite wasCompleted_false. cbn [andb snd].
    now rewrite !notifyUpdated_taskState, !notifyAssigned_taskState.
  - unfold deleteTask.
    destruct (requireSignIn w token) as [user|]; [|reflexivity].
    destruct (isTaskCreatorOrAdmin w user id); reflexivity.
  - unfold deleteTask.
    destruct (requireSignIn w token) as [user|]; [|reflexivity].
    destruct (isTaskCreatorOrAdmin w user id) as [task|]; [|reflexivity].
    cbn [snd]. apply deleteTaskById_taskState.
    destruct (assignedTo task) as [a|]; [|reflexivity].
    destruct (negb (a =? u_id user)); [|reflexivity].
    now rewrite !createNotification_taskState.
  - unfold batchUpdate.
    destruct (requireSignIn w token) as [user|]; [|reflexivity].
    destruct (hasRole _ user) as [[]|]; [|reflexivity].
    destruct (taskIds body) as [[|i ids]|]; try reflexivity.
    destruct (updates body) as [[|kv set]|]; try reflexivity.
    destruct (negb _); [reflexivity|].
    destruct (castUpdates _); reflexivity.
  - unfold batchUpdate.
    destruct (requireSignIn w token) as [user|]; [|reflexivity].
    destruct (hasRole _ user) as [[]|]; [|reflexivity].
    destruct (taskIds body) as [[|i ids]|]; try reflexivity.
    destruct (updates body) as [[|kv set]|]; try reflexivity.
    destruct (negb _); [reflexivity|].
    destruct (castUpdates _) as [cast|]; [|reflexivity]. cbn [snd].
    destruct (get (kv :: set) "assignedTo") as [[a|]|]; try reflexivity.
    destruct (negb (a =? "")); [|reflexivity].
    destruct (objectId a); [|reflexivity].
    now rewrite !notifyEach_taskState.
Qed.

(** With a store that refuses every notification Ada creates a task for Bob,
    completes her report and deletes it, and Mia updates a batch: the four
    requests succeed, the tasks are written, and no notification is kept. *)
Example mutations_succeed_without_notifications :
  let created := createTask Sample.envDown Sample.world (Session (u_id Sample.ada))
                   [("title", VStr "Plan"); ("assignedTo", VStr (u_id Sample.bob))] in
  let updated := updateTask Sample.envDown Sample.world (Session (u_id Sample.ada))
                   (t_id Sample.report) [("status", VStr "completed")] in
  let deleted := deleteTask Sample.envDown Sample.world (Session (u_id Sample.ada))
                   (t_id Sample.report) in
  let batched := batchUpdate Sample.envDown Sample.world (Session (u_id Sample.mia))
                   {| taskIds := Some [t_id Sample.errand];
                      updates := Some [("assignedTo", Some (u_id Sample.bob))] |} in
  (code (fst created) = 201 /\ List.length (tasks (snd created)) = 4%nat
   /\ notifications (snd created) = [])
  /\ (code (fst updated) = 200
      /\ findTaskById (snd updated) (t_id Sample.report)
         = Some (setStatus Sample.report (Some "completed"))
      /\ notifications (snd updated) = [])
  /\ (code (fst deleted) = 200
      /\ findTaskById (snd deleted) (t_id Sample.report) = None
      /\ notifications (snd deleted) = [])
  /\ (code (fst batched) = 200
      /\ findTaskById (snd batched) (t_id Sample.errand)
         = Some (setAssignedTo Sample.errand (Some (u_id Sample.bob)))
      /\ notifications (snd batched) = []).
Proof. vm_compute. repeat split. Qed.

(** ** The notification of a deletion *)

Lemma added_none (w w' : World) :
  notifications w' = notifications w -> added w w' = [].
Proof. intros H. apply added_app. now rewrite H, app_nil_r. Qed.

(** The notification that the delete route sends. *)
Definition deletionNotification (user : User) (task : Task) (a : ObjectId)
  : Notification :=
  {| n_type := "task-deleted"; sender := u_id user; recipient := a;
     message :=
       u_name user ++ " deleted a task that was assigned to you: " ++ title task;
     relatedTask := None; isRead := false |}.

(** C10. Every notification of a deletion names no task. The delete route
    issues nothing when it refuses the request; otherwise it issues the
    removal of the task, preceded, when the task is assigned to somebody
    else than the principal, by the insertion of one notification of type
    [task-deleted] whose related task is absent, which the store takes or
    refuses. The routes that create and update a task and the batch route
    add no notification of a deletion. *)
Theorem deletion_notification_names_no_task :
  forall (env : Env) (w : World) (token : Token),
    (forall id,
        let w' := snd (deleteTask env w token id) in
        (oplog w' = oplog w /\ notifications w' = notifications w)
        \/ (oplog w' = (oplog w ++ [OpTaskDelete id])%list
            /\ notifications w' = notifications w)
        \/ exists n,
             n_type n = "task-deleted" /\ relatedTask n = None
             /\ ((oplog w' = (oplog w ++ [OpNotificationInsert n; OpTaskDelete id])%list
                  /\ notifications w' = (notifications w ++ [n])%list)
                 \/ (oplog w' = (oplog w ++ [OpNotificationRejected n; OpTaskDelete id])%list
                     /\ notifications w' = notifications w)))
    /\ (forall body n,
           In n (added w (snd (createTask env w token body))) ->
           n_type n <> "task-deleted")
    /\ (forall id body n,
           In n (added w (snd (updateTask env w token id body))) ->
           n_type n <> "task-deleted")
    /\ (forall body n,
           In n (added w (snd (batchUpdate env w token body))) ->
           n_type n <> "task-deleted").
Proof.
  intros env w token. split; [|split; [|split]].
  - intros id w'. subst w'. unfold deleteTask.
    destruct (requireSignIn w token) as [user|]; [|left; split; reflexivity].
    destruct (isTaskCreatorOrAdmin w user id) as [task|];
      [|left; split; reflexivity].
    cbn [snd]. right.
    destruct (assignedTo task) as [a|]; [|left; split; reflexivity].
    destruct (negb (a =? u_id user)); [|left; split; reflexivity].
    right. exists (deletionNotification user task a).
    split; [reflexivity|]. split; [reflexivity|].
    unfold createNotification, deletionNotification.
    destruct (env_notificationSaves env w _); [left | right];
      unfold deleteTaskById, logged; simpl;
      rewrite <- ?app_assoc; split; reflexivity.
  - intros body n Hin.
    destruct (requireSignIn w token) as [user|r] eqn:Hu.
    + pose proof (grownBy_added _ _ _ (createTask_grownBy env w token body user Hu))
        as HQ.
      rewrite Forall_forall in HQ. destruct (HQ n Hin) as [_ ->]. discriminate.
    + revert Hin. unfold createTask. rewrite Hu.
      rewrite added_none by reflexivity. contradiction.
  - intros id body n Hin.
    destruct (updateTask_run env w token id body)
      as [[H _]|[user [found [_ [_ [_ H]]]]]]; rewrite H in Hin.
    + rewrite added_none in Hin by reflexivity. contradiction.
    + cbn [snd] in Hin.
      set (task := d_task (assignAll _ body)) in Hin.
      destruct (notifyAssigned_grownBy env (saveTask w task) user body
                  (assignedTo found) task) as [lA [HA QA]].
      pose proof (notifyUpdated_notifications env
                    (notifyAssigned env (saveTask w task) user body
                       (assignedTo found) task)
                    user body (assignedTo found) task) as HU.
      rewrite HA in HU. cbn [saveTask notifications] in HU.
      rewrite <- app_assoc in HU. rewrite (added_app w _ _ HU) in Hin.
      apply in_app_or in Hin. destruct Hin as [Hin|Hin].
      * rewrite Forall_forall in QA. destruct (QA n Hin) as [-> _]. discriminate.
      * destruct (get body "status") as [v|]; [|contradiction].
        destruct (assignedTo found) as [a|]; [|contradiction].
        destruct (_ && _); [|contradiction].
        destruct Hin as [<-|[]]. discriminate.
  - intros body n Hin.
    assert (G : grownBy (fun n => n_type n = "task-assigned") w
                  (snd (batchUpdate env w token body))).
    { apply batchUpdate_grownBy. reflexivity. }
    apply grownBy_added in G. rewrite Forall_forall in G.
    rewrite (G n Hin). discriminate.
Qed.

(** * Further properties of the routes *)

(** ** Requests without a session *)

(** The token is missing or refused, or names a user that the store does not
    hold. *)
Definition unauthenticated (w : World) (token : Token) : Prop :=
  match token with
  | NoToken | BadToken => True
  | Session id => findUserById w id = None
  end.

Lemma requireSignIn_refused (w : World) (token : Token) :
  unauthenticated w token ->
  exists r, requireSignIn w token = Reply r /\ code r = 401.
Proof.
  unfold unauthenticated, requireSignIn.
  destruct token as [| |id]; intros H; try (eexists; split; reflexivity).
  rewrite H. eexists; split; reflexivity.
Qed.

(** X1. A request without a valid session is answered 401 by every route of
    the tasks, and the routes that write leave the store as it is. *)
Theorem unauthenticated_requests_change_nothing :
  forall (env : Env) (w : World) (token : Token),
    unauthenticated w token ->
    (forall body,
        code (fst (createTask env w token body)) = 401
        /\ snd (createTask env w token body) = w)
    /\ (forall id body,
           code (fst (updateTask env w token id body)) = 401
           /\ snd (updateTask env w token id body) = w)
    /\ (forall id,
           code (fst (deleteTask env w token id)) = 401
           /\ snd (deleteTask env w token id) = w)
    /\ (forall body,
           code (fst (batchUpdate env w token body)) = 401
           /\ snd (batchUpdate env w token body) = w)
    /\ (forall f, code (listTasks env w token f) = 401)
    /\ (forall id, code (getTask w token id) = 401).
Proof.
  intros env w token H.
  destruct (requireSignIn_refused w token H) as [r [Hr Hc]].
  unfold createTask, updateTask, deleteTask, batchUpdate, listTasks, getTask.
  rewrite Hr. simpl. repeat split; auto.
Qed.

(** A forged token and the session of a user who is not in the store. *)
Lemma unauthenticated_requests_change_nothing_witness :
  (code (fst (deleteTask Sample.env Sample.world BadToken (t_id Sample.report))) = 401
   /\ snd (deleteTask Sample.env Sample.world BadToken (t_id Sample.report))
      = Sample.world)
  /\ code (getTask Sample.world (Session "64b7f0a1c2d3e4f5a6b7c8ff")
             (t_id Sample.report)) = 401.
Proof.
  split.
  - apply (unauthenticated_requests_change_nothing Sample.env Sample.world
             BadToken I).
  - apply (unauthenticated_requests_change_nothing Sample.env Sample.world
             (Session "64b7f0a1c2d3e4f5a6b7c8ff") eq_refl).
Defined.

(** ** Creation of a task *)

Lemma get_without (o : Obj) (k key : string) :
  key <> k -> get (without k o) key = get o key.
Proof.
  intros Hne. induction o as [|[k0 v] o IH]; [reflexivity|].
  cbn [without filter fst get].
  destruct (String.eqb_spec k0 k) as [->|Hk]; cbn [negb].
  - fold (without k o). rewrite IH.
    destruct (get o key); [reflexivity|].
    destruct (String.eqb_spec k key); [congruence | reflexivity].
  - fold (without k o). cbn [get]. now rewrite IH.
Qed.

Lemma assign_priority_other (d : Doc) (key : string) (v : Value) :
  key <> "priority" -> priority (d_task (assign d key v)) = priority (d_task d).
Proof. intros H. assign_cases. Qed.

Lemma assign_priority (d : Doc) (v : Value) :
  priority (d_task (assign d "priority" v)) = statusSet v (priority (d_task d)).
Proof. unfold assign, statusSet. simpl. now destruct (castString v). Qed.

Lemma assignAll_priority (data : Obj) (d : Doc) :
  priority (d_task (assignAll d data)) =
    match get data "priority" with
    | Some v => statusSet v (priority (d_task d))
    | None => priority (d_task d)
    end.
Proof.
  apply assignAll_path.
  - apply assign_priority_other.
  - apply assign_priority.
  - intros v x. unfold statusSet. now destruct (castString v).
Qed.

(** The document that the create route builds for a principal and a body. *)
Definition draft (env : Env) (w : World) (P : User) (body : Obj) : Task :=
  d_task
    (withCreator
       (assignAll {| d_task := blank (env_newId env (nextId w));
                     d_invalid := false |}
          (without "createdBy" body))
       (u_id P)).

(** The create route answers 400, 500, or 201 with the draft that it then
    holds in the store. *)
Lemma createTask_run env w P body :
  findUserById w (u_id P) = Some P ->
  code (fst (createTask env w (Session (u_id P)) body)) = 201 ->
  validateCreate body = true
  /\ fst (createTask env w (Session (u_id P)) body)
     = respond 201 (PTaskMessage "Task created successfully" (draft env w P body))
  /\ taskState (snd (createTask env w (Session (u_id P)) body))
     = (users w, (tasks w ++ [draft env w P body])%list, S (nextId w))
  /\ notifications (snd (createTask env w (Session (u_id P)) body))
     = (notifications w ++
        match assignedTo (draft env w P body) with
        | Some a =>
            let n := {| n_type := "task-assigned"; sender := u_id P;
                        recipient := a;
                        message := u_name P ++ " assigned you a new task: "
                                   ++ title (draft env w P body);
                        relatedTask := Some (t_id (draft env w P body));
                        isRead := false |} in
            if negb (a =? u_id P)
               && env_notificationSaves env
                    (insertTask (takeId w) (draft env w P body)) n
            then [n] else []
        | None => []
        end)%list.
Proof.
  intros HP. unfold createTask, draft. rewrite (requireSignIn_session w P HP).
  destruct (validateCreate body); cbn [negb]; [|discriminate].
  destruct (d_invalid _ || negb _); cbn [fst snd]; [discriminate|].
  intros _. split; [reflexivity|]. split; [reflexivity|].
  set (task := d_task (withCreator _ _)).
  destruct (assignedTo task) as [a|];
    [|split; [reflexivity | simpl; now rewrite app_nil_r]].
  destruct (negb (a =? u_id P)); cbn [andb];
    [|split; [reflexivity | simpl; now rewrite app_nil_r]].
  split.
  - now rewrite createNotification_taskState.
  - rewrite createNotification_notifications. reflexivity.
Qed.

(** X2. The task that the create route stores belongs to the principal, also
    when the body names another creator: for a body whose keys are paths of
    the schema, the answer 201 carries a task whose creator is the principal
    and whose id is the next object id, and this task is added at the end of
    the collection, which is otherwise as it was. *)
Theorem created_task_belongs_to_the_principal :
  forall (env : Env) (w : World) (P : User) (body : Obj),
    findUserById w (u_id P) = Some P ->
    plain body ->
    code (fst (createTask env w (Session (u_id P)) body)) = 201 ->
    exists task,
      fst (createTask env w (Session (u_id P)) body)
        = respond 201 (PTaskMessage "Task created successfully" task)
      /\ createdBy task = u_id P
      /\ t_id task = env_newId env (nextId w)
      /\ tasks (snd (createTask env w (Session (u_id P)) body))
         = (tasks w ++ [task])%list
      /\ users (snd (createTask env w (Session (u_id P)) body)) = users w.
Proof.
  intros env w P body HP _ Hc.
  destruct (createTask_run env w P body HP Hc) as [_ [Hr [Hs _]]].
  exists (draft env w P body). split; [exact Hr|].
  unfold taskState in Hs. injection Hs as Hu Ht _.
  repeat split; try assumption.
  unfold draft, withCreator. cbn [d_task setCreatedBy t_id].
  rewrite assignAll_t_id. reflexivity.
Qed.

(** Ada creates a task and names Bob as its creator: she is the creator. *)
Lemma created_task_belongs_to_the_principal_witness :
  exists task,
    fst (createTask Sample.env Sample.world (Session (u_id Sample.ada))
           [("title", VStr "Plan"); ("createdBy", VStr (u_id Sample.bob))])
      = respond 201 (PTaskMessage "Task created successfully" task)
    /\ createdBy task = u_id Sample.ada
    /\ t_id task = env_newId Sample.env (nextId Sample.world)
    /\ tasks (snd (createTask Sample.env Sample.world (Session (u_id Sample.ada))
                     [("title", VStr "Plan"); ("createdBy", VStr (u_id Sample.bob))]))
       = (tasks Sample.world ++ [task])%list
    /\ users (snd (createTask Sample.env Sample.world (Session (u_id Sample.ada))
                     [("title", VStr "Plan"); ("createdBy", VStr (u_id Sample.bob))]))
       = users Sample.world.
Proof.
  apply created_task_belongs_to_the_principal.
  - reflexivity.
  - intros key [<-|[<-|[]]]; unfold paths; simpl; tauto.
  - reflexivity.
Defined.

Lemma assignAll_absent {A : Type} (proj : Task -> A) (field : string)
    (data : Obj) (d : Doc) :
  (forall d key v, key <> field -> proj (d_task (assign d key v)) = proj (d_task d)) ->
  get data field = None ->
  proj (d_task (assignAll d data)) = proj (d_task d).
Proof.
  intros Hother Hget. apply get_keys in Hget. unfold assignAll.
  revert d Hget. generalize (keys data) as ks.
  induction ks as [|k ks IH]; intros d Hex; simpl in *; [reflexivity|].
  apply orb_false_iff in Hex. destruct Hex as [Hk Hex].
  rewrite (IH _ Hex).
  destruct (get data k) as [v|]; [|reflexivity].
  apply Hother. intros ->. rewrite String.eqb_refl in Hk. discriminate.
Qed.

Lemma assign_isRecurring_other (d : Doc) (key : string) (v : Value) :
  key <> "isRecurring" ->
  isRecurring (d_task (assign d key v)) = isRecurring (d_task d).
Proof. intros H. assign_cases. Qed.

Lemma assign_recurringType_other (d : Doc) (key : string) (v : Value) :
  key <> "recurringType" ->
  recurringType (d_task (assign d key v)) = recurringType (d_task d).
Proof. intros H. assign_cases. Qed.



Lemma assign_dueDate_other (d : Doc) (key : string) (v : Value) :
  key <> "dueDate" -> dueDate (d_task (assign d key v)) = dueDate (d_task d).
Proof. intros H. assign_cases. Qed.



(** X3. A task is created with the defaults of the schema for the paths
    that the body leaves out: status [todo], priority [medium], no assignee,
    not recurring, recurrence [none]; a status or a priority that the body
    gives is the one of the task. *)
Theorem created_task_defaults :
  forall (env : Env) (w : World) (P : User) (body : Obj) (task : Task),
    findUserById w (u_id P) = Some P ->
    fst (createTask env w (Session (u_id P)) body)
      = respond 201 (PTaskMessage "Task created successfully" task) ->
    (get body "status" = None -> status task = Some "todo")
    /\ (forall s, get body "status" = Some (VStr s) -> status task = Some s)
    /\ (get body "priority" = None -> priority task = Some "medium")
    /\ (forall s, get body "priority" = Some (VStr s) -> priority task = Some s)
    /\ (get body "assignedTo" = None -> assignedTo task = None)
    /\ (get body "isRecurring" = None -> isRecurring task = false)
    /\ (get body "recurringType" = None -> recurringType task = "none")
    /\ (get body "dueDate" = None -> dueDate task = None).
Proof.
  intros env w P body task HP Hr.
  assert (Hc : code (fst (createTask env w (Session (u_id P)) body)) = 201)
    by (rewrite Hr; reflexivity).
  destruct (createTask_run env w P body HP Hc) as [_ [Hr' _]].
  rewrite Hr' in Hr. injection Hr as <-. unfold draft, withCreator.
  cbn [d_task setCreatedBy status priority assignedTo isRecurring
       recurringType dueDate].
  repeat split.
  - intros H. rewrite assignAll_status, get_without, H by discriminate.
    reflexivity.
  - intros s H. rewrite assignAll_status, get_without, H by discriminate.
    reflexivity.
  - intros H. rewrite assignAll_priority, get_without, H by discriminate.
    reflexivity.
  - intros s H. rewrite assignAll_priority, get_without, H by discriminate.
    reflexivity.
  - intros H. rewrite assignAll_assignedTo, get_without, H by discriminate.
    reflexivity.
  - intros H. rewrite (assignAll_absent isRecurring "isRecurring");
      [reflexivity | apply assign_isRecurring_other |].
    now rewrite get_without by discriminate.
  - intros H. rewrite (assignAll_absent recurringType "recurringType");
      [reflexivity | apply assign_recurringType_other |].
    now rewrite get_without by discriminate.
  - intros H. rewrite (assignAll_absent dueDate "dueDate");
      [reflexivity | apply assign_dueDate_other |].
    now rewrite get_without by discriminate.
Qed.

(** Ada creates an urgent task with a title and a priority only. *)
Lemma created_task_defaults_witness :
  exists task,
    status task = Some "todo" /\ priority task = Some "urgent"
    /\ assignedTo task = None /\ recurringType task = "none"
    /\ fst (createTask Sample.env Sample.world (Session (u_id Sample.ada))
              [("title", VStr "Plan"); ("priority", VStr "urgent")])
       = respond 201 (PTaskMessage "Task created successfully" task).
Proof.
  eexists.
  assert (H : fst (createTask Sample.env Sample.world (Session (u_id Sample.ada))
                     [("title", VStr "Plan"); ("priority", VStr "urgent")])
              = respond 201 (PTaskMessage "Task created successfully"
                  (draft Sample.env Sample.world Sample.ada
                     [("title", VStr "Plan"); ("priority", VStr "urgent")])))
    by reflexivity.
  destruct (created_task_defaults Sample.env Sample.world Sample.ada
              [("title", VStr "Plan"); ("priority", VStr "urgent")] _
              eq_refl H)
    as [Hs [_ [_ [Hp [Ha [_ [Ht _]]]]]]].
  split; [apply Hs; reflexivity|].
  split; [apply Hp; reflexivity|].
  split; [apply Ha; reflexivity|].
  split; [apply Ht; reflexivity|].
  exact H.
Defined.

(** X4. The create route refuses, with the answer 400 and without writing, a
    body that has no title or whose title is blank once trimmed; the update
    route refuses in the same way, for a principal who may modify the task, a
    blank title or a status that is not one of the four of the schema. *)
Theorem invalid_bodies_are_rejected :
  forall (env : Env) (w : World) (P : User),
    findUserById w (u_id P) = Some P ->
    (forall body,
        (get body "title" = None
         \/ exists s, get body "title" = Some (VStr s) /\ trim s = "") ->
        createTask env w (Session (u_id P)) body = (respond 400 PErrors, w))
    /\ (forall id T body,
           isTaskCreatorOrAdmin w P id = Next T ->
           ((exists s, get body "title" = Some (VStr s) /\ trim s = "")
            \/ (exists s, get body "status" = Some (VStr s) /\ ~ In s statuses)) ->
           updateTask env w (Session (u_id P)) id body = (respond 400 PErrors, w)).
Proof.
  intros env w P HP. split.
  - intros body H. unfold createTask. rewrite (requireSignIn_session w P HP).
    replace (validateCreate body) with false; [reflexivity|].
    unfold validateCreate.
    destruct H as [->|[s [-> Hs]]]; [reflexivity|].
    unfold notEmptyTrimmed. simpl. rewrite Hs. reflexivity.
  - intros id T body Hg H. unfold updateTask.
    rewrite (requireSignIn_session w P HP), Hg.
    replace (validateUpdate body) with false; [reflexivity|].
    unfold validateUpdate, validateCommon.
    destruct H as [[s [Ht Hs]]|[s [Ht Hs]]].
    + unfold optional at 1. rewrite Ht. unfold notEmptyTrimmed. simpl.
      rewrite Hs. reflexivity.
    + destruct (optional notEmptyTrimmed body "title"); [|reflexivity].
      unfold optional at 1. rewrite Ht. unfold isIn, each. cbn [asText].
      destruct (includes statuses s) eqn:E; [|reflexivity].
      apply includes_In in E. contradiction.
Qed.

(** Ada sends a title of spaces, then a status that does not exist. *)
Lemma invalid_bodies_are_rejected_witness :
  createTask Sample.env Sample.world (Session (u_id Sample.ada))
    [("title", VStr "   ")] = (respond 400 PErrors, Sample.world)
  /\ updateTask Sample.env Sample.world (Session (u_id Sample.ada))
       (t_id Sample.report) [("status", VStr "done")]
     = (respond 400 PErrors, Sample.world).
Proof.
  destruct (invalid_bodies_are_rejected Sample.env Sample.world Sample.ada eq_refl)
    as [Hc Hu].
  split.
  - apply Hc. right. exists "   ". split; reflexivity.
  - apply (Hu (t_id Sample.report) Sample.report); [reflexivity|].
    right. exists "done". split; [reflexivity|].
    intros [H|[H|[H|[H|[]]]]]; discriminate.
Defined.

(** X5. When a task is created and the store takes the notifications, the
    assignee that the body names, which is the id that the store reads in
    the value of [assignedTo], is sent one notification of type
    [task-assigned] that relates to the new task, unless this id is the one
    of the principal; a task created without an assignee notifies nobody. *)
Theorem creation_notifies_the_assignee :
  forall (env : Env) (w : World) (P : User) (body : Obj) (task : Task),
    findUserById w (u_id P) = Some P ->
    (forall w0 n, env_notificationSaves env w0 n = true) ->
    fst (createTask env w (Session (u_id P)) body)
      = respond 201 (PTaskMessage "Task created successfully" task) ->
    added w (snd (createTask env w (Session (u_id P)) body)) =
      match get body "assignedTo" with
      | Some v =>
          match castObjectId v with
          | Some (Some a) =>
              if a =? u_id P then []
              else [ {| n_type := "task-assigned"; sender := u_id P;
                        recipient := a;
                        message := u_name P ++ " assigned you a new task: "
                                   ++ title task;
                        relatedTask := Some (t_id task); isRead := false |} ]
          | _ => []
          end
      | None => []
      end.
Proof.
  intros env w P body task HP Hsaves Hr.
  assert (Hc : code (fst (createTask env w (Session (u_id P)) body)) = 201)
    by (rewrite Hr; reflexivity).
  destruct (createTask_run env w P body HP Hc) as [_ [Hr' [_ Hn]]].
  rewrite Hr' in Hr. injection Hr as <-.
  apply added_app. rewrite Hn. f_equal.
  assert (Ha : assignedTo (draft env w P body) =
               match get body "assignedTo" with
               | Some v => match castObjectId v with Some o => o | None => None end
               | None => None
               end).
  { unfold draft, withCreator. cbn [d_task setCreatedBy assignedTo].
    rewrite assignAll_assignedTo, get_without by discriminate.
    destruct (get body "assignedTo") as [v|]; reflexivity. }
  rewrite Ha.
  destruct (get body "assignedTo") as [v|]; try reflexivity.
  destruct (castObjectId v) as [[a|]|]; try reflexivity.
  cbn zeta. rewrite Hsaves, andb_true_r.
  now destruct (a =? u_id P).
Qed.

(** Ada creates a task for Bob, who is notified. *)
Lemma creation_notifies_the_assignee_witness :
  added Sample.world
    (snd (createTask Sample.env Sample.world (Session (u_id Sample.ada))
            [("title", VStr "Plan"); ("assignedTo", VStr (u_id Sample.bob))]))
  = [ {| n_type := "task-assigned"; sender := u_id Sample.ada;
         recipient := u_id Sample.bob;
         message := "Ada assigned you a new task: Plan";
         relatedTask := Some "64b7f0a1c2d3e4f5a6b7e001"; isRead := false |} ].
Proof.
  apply (creation_notifies_the_assignee Sample.env Sample.world Sample.ada
           [("title", VStr "Plan"); ("assignedTo", VStr (u_id Sample.bob))]
           (draft Sample.env Sample.world Sample.ada
              [("title", VStr "Plan"); ("assignedTo", VStr (u_id Sample.bob))])).
  - reflexivity.
  - intros w0 n. reflexivity.
  - reflexivity.
Defined.

(** ** Update of a task *)

(** The notification of an assignment that the update route sends. *)
Definition assignmentNotification (user : User) (a : ObjectId) (task : Task)
  : Notification :=
  {| n_type := "task-assigned"; sender := u_id user; recipient := a;
     message := u_name user ++ " assigned you a task: " ++ title task;
     relatedTask := Some (t_id task); isRead := false |}.

(** A value that is cast to an id is not a falsy value. *)
Lemma castObjectId_truthy (v : Value) (a : ObjectId) :
  castObjectId v = Some (Some a) -> truthy v = true.
Proof.
  destruct v as [s|[|]|ms|items|]; try discriminate; try reflexivity.
  cbn [castObjectId toString asText truthy].
  destruct (objectId s) as [id|] eqn:E; [|discriminate].
  intros _. destruct (String.eqb_spec s "") as [->|]; [discriminate | reflexivity].
Qed.

Lemma notifyAssigned_notifications env w user body old task :
  notifications (notifyAssigned env w user body old task) =
    (notifications w ++
     match get body "assignedTo" with
     | Some v =>
         match castObjectId v with
         | Some (Some a) =>
             if negb match old with Some o => spells v o | None => false end
                && negb (spells v (u_id user))
                && env_notificationSaves env w (assignmentNotification user a task)
             then [assignmentNotification user a task] else []
         | _ => []
         end
     | None => []
     end)%list.
Proof.
  unfold notifyAssigned, assignmentNotification.
  destruct (get body "assignedTo") as [v|]; [|now rewrite app_nil_r].
  destruct (castObjectId v) as [[a|]|] eqn:Ea.
  - rewrite (castObjectId_truthy v a Ea). cbn [andb].
    destruct (negb _ && negb (spells v (u_id user))); cbn [andb];
      [|now rewrite app_nil_r].
    rewrite createNotification_notifications. reflexivity.
  - destruct (_ && _); now rewrite app_nil_r.
  - destruct (_ && _); now rewrite app_nil_r.
Qed.

(** X6. The notifications of an accepted update, when the store takes them.
    First one of type [task-assigned], if the body gives for [assignedTo] a
    value whose text differs from the text of the id of the previous
    assignee and from the text of the id of the principal: its recipient is
    the id that the store reads in this value, which is the new assignee of
    the task. Then one of type [task-updated] to the previous assignee, if
    the body has a status and this assignee is not the principal. Nothing
    else is added. *)
Theorem update_notifications :
  forall (env : Env) (w : World) (P : User) (id : ObjectId) (body : Obj)
         (T T' : Task),
    findUserById w (u_id P) = Some P ->
    findTaskById w id = Some T ->
    (forall w0 n, env_notificationSaves env w0 n = true) ->
    fst (updateTask env w (Session (u_id P)) id body)
      = respond 200 (PTaskMessage "Task updated successfully" T') ->
    added w (snd (updateTask env w (Session (u_id P)) id body)) =
      (match get body "assignedTo" with
       | Some v =>
           match castObjectId v with
           | Some (Some a) =>
               if negb match assignedTo T with
                       | Some o => spells v o
                       | None => false
                       end
                  && negb (spells v (u_id P))
               then [assignmentNotification P a T'] else []
           | _ => []
           end
       | None => []
       end
       ++
       match get body "status", assignedTo T with
       | Some _, Some old =>
           if negb (old =? u_id P) then [statusNotification P body old T'] else []
       | _, _ => []
       end)%list
    /\ (forall v a,
           get body "assignedTo" = Some v ->
           castObjectId v = Some (Some a) ->
           assignedTo T' = Some a).
Proof.
  intros env w P id body T T' HP HT Hsaves Hr.
  destruct (updateTask_run env w (Session (u_id P)) id body)
    as [[_ H]|[user [found [Hu [Hg [Hv H]]]]]].
  - exfalso. apply H. rewrite Hr. reflexivity.
  - rewrite (requireSignIn_session w P HP) in Hu. injection Hu as <-.
    destruct (guard_found w P id found Hg) as [Hf _].
    rewrite Hf in HT. injection HT as <-.
    rewrite H in Hr |- *. cbn zeta in Hr. cbn [fst] in Hr.
    injection Hr as <-. cbn [snd].
    set (task := d_task (assignAll _ body)).
    split.
    + apply added_app.
      rewrite notifyUpdated_notifications, notifyAssigned_notifications.
      cbn [saveTask notifications]. rewrite <- app_assoc. f_equal. f_equal.
      * destruct (get body "assignedTo") as [v|]; try reflexivity.
        destruct (castObjectId v) as [[a|]|]; try reflexivity.
        now rewrite Hsaves, andb_true_r.
      * destruct (get body "status") as [v|] eqn:Ev; [|reflexivity].
        destruct (assignedTo found) as [old|]; [|reflexivity].
        rewrite Hsaves, andb_true_r.
        now rewrite (isIn_statuses_truthy v (validateUpdate_status body v Hv Ev)).
    + intros v a Hb Ha. unfold task.
      rewrite assignAll_assignedTo, Hb. unfold assignedToSet. now rewrite Ha.
Qed.

(** Ada hands her report over to Mia and moves it to review: Mia is told of
    the assignment, and Bob, who had the report, of the status. *)
Lemma update_notifications_witness :
  let body := [("assignedTo", VStr (u_id Sample.mia)); ("status", VStr "review")] in
  let after :=
    setStatus (setAssignedTo Sample.report (Some (u_id Sample.mia))) (Some "review") in
  added Sample.world
    (snd (updateTask Sample.env Sample.world (Session (u_id Sample.ada))
            (t_id Sample.report) body))
  = [assignmentNotification Sample.ada (u_id Sample.mia) after;
     statusNotification Sample.ada body (u_id Sample.bob) after]
  /\ assignedTo after = Some (u_id Sample.mia).
Proof.
  intros body after.
  destruct (update_notifications Sample.env Sample.world Sample.ada
              (t_id Sample.report) body Sample.report after)
    as [Hadded Hassignee].
  - reflexivity.
  - reflexivity.
  - intros w0 n. reflexivity.
  - reflexivity.
  - split; [exact Hadded|].
    apply (Hassignee (VStr (u_id Sample.mia)) (u_id Sample.mia)); reflexivity.
Defined.




(** ** Deletion of a task *)

Lemma find_removeById_other (l : list Task) (id id' : ObjectId) :
  id' <> id ->
  find (fun x => t_id x =? id') (removeById l id) = find (fun x => t_id x =? id') l.
Proof.
  intros Hne. induction l as [|x l IH]; simpl; [reflexivity|].
  destruct (String.eqb_spec (t_id x) id) as [E|E]; simpl.
  - destruct (String.eqb_spec (t_id x) id'); [congruence | reflexivity].
  - now rewrite IH.
Qed.

Lemma find_absent (l : list Task) (id : ObjectId) :
  ~ In id (map t_id l) -> find (fun x => t_id x =? id) l = None.
Proof.
  induction l as [|x l IH]; simpl; [reflexivity|].
  intros H. destruct (String.eqb_spec (t_id x) id); [tauto|].
  apply IH. tauto.
Qed.

Lemma find_removeById_same (l : list Task) (id : ObjectId) :
  NoDup (map t_id l) -> find (fun x => t_id x =? id) (removeById l id) = None.
Proof.
  induction l as [|x l IH]; simpl; [reflexivity|].
  intros Hnd. inversion Hnd as [|? ? Hx Hl]; subst.
  destruct (String.eqb_spec (t_id x) id) as [E|E]; simpl.
  - subst. now apply find_absent.
  - destruct (String.eqb_spec (t_id x) id); [contradiction|]. now apply IH.
Qed.

Lemma length_removeById (l : list Task) (id : ObjectId) (t : Task) :
  find (fun x => t_id x =? id) l = Some t ->
  S (List.length (removeById l id)) = List.length l.
Proof.
  induction l as [|x l IH]; simpl; [discriminate|].
  destruct (t_id x =? id); simpl; [reflexivity|].
  intros H. now rewrite IH.
Qed.

(** X8. After a deletion that was accepted the collection holds one task
    fewer, the tasks of the other ids are found as they were, and, the ids of
    the collection being distinct, no task is found under the deleted id. *)
Theorem deleted_task_is_gone :
  forall (env : Env) (w : World) (P : User) (id : ObjectId),
    findUserById w (u_id P) = Some P ->
    NoDup (map t_id (tasks w)) ->
    code (fst (deleteTask env w (Session (u_id P)) id)) = 200 ->
    let w' := snd (deleteTask env w (Session (u_id P)) id) in
    findTaskById w' id = None
    /\ (forall id', id' <> id -> findTaskById w' id' = findTaskById w id')
    /\ S (List.length (tasks w')) = List.length (tasks w)
    /\ users w' = users w.
Proof.
  intros env w P id HP Hnd Hc w'. subst w'. revert Hc. unfold deleteTask.
  rewrite (requireSignIn_session w P HP).
  destruct (isTaskCreatorOrAdmin w P id) as [task|r] eqn:Hg.
  2:{ unfold isTaskCreatorOrAdmin in Hg.
      destruct (findTaskById w id); [destruct (_ || _)|];
        inversion Hg; subst; discriminate. }
  intros _. cbn [snd].
  destruct (guard_found w P id task Hg) as [Hf _].
  match goal with
  | |- context [deleteTaskById ?w0 id] => set (w1 := w0)
  end.
  assert (Hs : taskState w1 = taskState w).
  { unfold w1. destruct (assignedTo task) as [a|]; [|reflexivity].
    destruct (negb (a =? u_id P)); [|reflexivity].
    apply createNotification_taskState. }
  clearbody w1. unfold taskState in Hs. injection Hs as Hu Ht _.
  unfold findTaskById. cbn [deleteTaskById tasks users]. rewrite Ht, Hu.
  repeat split.
  - now apply find_removeById_same.
  - intros id' Hne. now apply find_removeById_other.
  - apply (length_removeById _ _ task). exact Hf.
Qed.

(** Ada deletes her report. *)
Lemma deleted_task_is_gone_witness :
  let w' := snd (deleteTask Sample.env Sample.world (Session (u_id Sample.ada))
                   (t_id Sample.report)) in
  findTaskById w' (t_id Sample.report) = None
  /\ findTaskById w' (t_id Sample.audit) = Some Sample.audit
  /\ List.length (tasks w') = 2%nat.
Proof.
  intros w'.
  assert (Hnd : NoDup (map t_id (tasks Sample.world))).
  { repeat constructor; simpl; intuition discriminate. }
  destruct (deleted_task_is_gone Sample.env Sample.world Sample.ada
              (t_id Sample.report) eq_refl Hnd eq_refl)
    as [Hgone [Hother [Hlen _]]].
  split; [exact Hgone|]. split.
  - rewrite Hother; [reflexivity | discriminate].
  - apply eq_add_S. exact Hlen.
Defined.

(** ** Batch update *)

Lemma hasRole_denied (roles : list string) (P : User) :
  ~ In (u_role P) roles ->
  exists r, hasRole roles P = Reply r /\ code r = 403.
Proof.
  intros H. unfold hasRole.
  destruct (includes roles (u_role P)) eqn:E.
  - apply includes_In in E. contradiction.
  - eexists. split; reflexivity.
Qed.

(** X9. The batch route is closed to the principals who are neither admin
    nor manager, whom it answers 403, and it answers 400 to an admin or a
    manager whose request names no id or no update; in both cases the store
    is left as it is. *)
Theorem batch_update_refusals :
  forall (env : Env) (w : World) (P : User) (body : BatchBody),
    findUserById w (u_id P) = Some P ->
    (u_role P <> "admin" /\ u_role P <> "manager" ->
     code (fst (batchUpdate env w (Session (u_id P)) body)) = 403
     /\ snd (batchUpdate env w (Session (u_id P)) body) = w)
    /\ (u_role P = "admin" \/ u_role P = "manager" ->
        batchIds body = [] \/ batchSet body = [] ->
        code (fst (batchUpdate env w (Session (u_id P)) body)) = 400
        /\ snd (batchUpdate env w (Session (u_id P)) body) = w).
Proof.
  intros env w P [ids set] HP. unfold batchUpdate, batchIds, batchSet.
  rewrite (requireSignIn_session w P HP). cbn [taskIds updates]. split.
  - intros [Ha Hm].
    destruct (hasRole_denied ["admin"; "manager"] P) as [r [Hr Hc]].
    { simpl. intuition congruence. }
    rewrite Hr. split; [exact Hc | reflexivity].
  - intros Hrole Hempty. rewrite hasRole_allowed.
    2:{ simpl. destruct Hrole as [->| ->]; auto. }
    destruct ids as [[|i ids]|]; try (split; reflexivity).
    destruct set as [[|kv set]|]; try (split; reflexivity).
    destruct Hempty; discriminate.
Qed.

(** Bob, a plain user, and Mia, with a list of ids that is empty. *)
Lemma batch_update_refusals_witness :
  (code (fst (batchUpdate Sample.env Sample.world (Session (u_id Sample.bob))
                {| taskIds := Some [t_id Sample.errand];
                   updates := Some [("status", Some "completed")] |})) = 403)
  /\ (code (fst (batchUpdate Sample.env Sample.world (Session (u_id Sample.mia))
                   {| taskIds := Some [];
                      updates := Some [("status", Some "completed")] |})) = 400).
Proof.
  split.
  - apply (batch_update_refusals Sample.env Sample.world Sample.bob
             {| taskIds := Some [t_id Sample.errand];
                updates := Some [("status", Some "completed")] |} eq_refl).
    split; discriminate.
  - apply (batch_update_refusals Sample.env Sample.world Sample.mia
             {| taskIds := Some [];
                updates := Some [("status", Some "completed")] |} eq_refl).
    + right. reflexivity.
    + left. reflexivity.
Defined.

Lemma find_map_same_id (f : Task -> Task) (l : list Task) (id : ObjectId) :
  (forall t, t_id (f t) = t_id t) ->
  find (fun x => t_id x =? id) (map f l)
    = option_map f (find (fun x => t_id x =? id) l).
Proof.
  intros Hf. induction l as [|x l IH]; simpl; [reflexivity|].
  rewrite Hf. destruct (t_id x =? id); [reflexivity | exact IH].
Qed.

Lemma filter_idIn_map (f : Task -> Task) (ids : list ObjectId) (l : list Task) :
  (forall t, t_id (f t) = t_id t) ->
  filter (idIn ids) (map f l) = map f (filter (idIn ids) l).
Proof.
  intros Hf. induction l as [|x l IH]; simpl; [reflexivity|].
  assert (E : idIn ids (f x) = idIn ids x) by (unfold idIn; now rewrite Hf).
  rewrite E. destruct (idIn ids x); simpl; now rewrite IH.
Qed.

(** X10. The batch route asks for a role and for nothing else: a manager who
    is neither the creator nor the assignee of a task is refused by the
    update and the delete routes, and changes this task through the batch
    route. *)
Theorem batch_update_skips_the_task_guard :
  forall (env : Env) (w : World) (P : User) (T : Task) (s : string),
    findUserById w (u_id P) = Some P ->
    u_role P = "manager" ->
    findTaskById w (t_id T) = Some T ->
    createdBy T <> u_id P ->
    assignedTo T <> Some (u_id P) ->
    (forall body,
        code (fst (updateTask env w (Session (u_id P)) (t_id T) body)) = 403)
    /\ code (fst (deleteTask env w (Session (u_id P)) (t_id T))) = 403
    /\ code (fst (batchUpdate env w (Session (u_id P))
                    {| taskIds := Some [t_id T];
                       updates := Some [("status", Some s)] |})) = 200
    /\ findTaskById
         (snd (batchUpdate env w (Session (u_id P))
                 {| taskIds := Some [t_id T];
                    updates := Some [("status", Some s)] |}))
         (t_id T)
       = Some (setStatus T (Some s)).
Proof.
  intros env w P T s HP Hrole HT Hc Ha.
  assert (Hg : isTaskCreatorOrAdmin w P (t_id T) =
               Reply (respond 403 (PError
                 "Access denied. You are not authorized to modify this task."))).
  { rewrite (guard_existing w P T HT), Hrole. simpl.
    destruct (String.eqb_spec (createdBy T) (u_id P)); [contradiction|]. simpl.
    destruct (assignedTo T) as [a|]; [|reflexivity].
    destruct (String.eqb_spec a (u_id P)); [subst; congruence | reflexivity]. }
  split; [|split].
  - intros body. unfold updateTask.
    now rewrite (requireSignIn_session w P HP), Hg.
  - unfold deleteTask. now rewrite (requireSignIn_session w P HP), Hg.
  - rewrite (batchUpdate_run env w P [t_id T] [("status", Some s)] HP);
      [|now right|discriminate|discriminate|].
    2:{ intros key [<-|[]]. simpl. auto. }
    change (castUpdates [("status", Some s)]) with (Some [("status", Some s)]).
    split; [reflexivity|]. cbn [snd].
    change (get [("status", Some s)] "assignedTo") with (@None (option string)).
    cbv iota. unfold findTaskById, updateMany. cbn [tasks].
    rewrite find_map_same_id.
    + fold (findTaskById w (t_id T)). rewrite HT. simpl.
      unfold idIn, includes. simpl. rewrite String.eqb_refl. reflexivity.
    + intros t. destruct (idIn [t_id T] t); [apply applySet_t_id | reflexivity].
Qed.

(** Mia has no part in the errand of Bob: she cannot update it, and closes it
    in a batch. *)
Lemma batch_update_skips_the_task_guard_witness :
  code (fst (updateTask Sample.env Sample.world (Session (u_id Sample.mia))
               (t_id Sample.errand) [("status", VStr "completed")])) = 403
  /\ findTaskById
       (snd (batchUpdate Sample.env Sample.world (Session (u_id Sample.mia))
               {| taskIds := Some [t_id Sample.errand];
                  updates := Some [("status", Some "completed")] |}))
       (t_id Sample.errand)
     = Some (setStatus Sample.errand (Some "completed")).
Proof.
  destruct (batch_update_skips_the_task_guard Sample.env Sample.world Sample.mia
              Sample.errand "completed" eq_refl eq_refl eq_refl)
    as [Hu [_ [_ Hb]]]; try discriminate.
  split; [apply Hu | exact Hb].
Defined.

(** X11. A batch update of allowed keys whose values the store can cast is
    answered 200 with the number of tasks of the store whose id is in the
    request; when the updates name an assignee and the store takes the
    notifications, this assignee is sent one notification for each of these
    tasks and nothing else is added, and when they name none, no
    notification is added. When a value cannot be cast, as an assignee whose
    text spells no id, the answer is 500 and the store is left as it is. *)
Theorem batch_update_count :
  forall (env : Env) (w : World) (P : User) (ids : list ObjectId)
         (set : list (string * option string)),
    findUserById w (u_id P) = Some P ->
    u_role P = "admin" \/ u_role P = "manager" ->
    ids <> [] -> set <> [] ->
    (forall key, In key (keys set) -> In key allowedUpdates) ->
    (forall w0 n, env_notificationSaves env w0 n = true) ->
    let r := batchUpdate env w (Session (u_id P))
               {| taskIds := Some ids; updates := Some set |} in
    let matched := filter (idIn ids) (tasks w) in
    (forall cast,
        castUpdates set = Some cast ->
        fst r = respond 200
                  (PBatch "Tasks updated successfully" (List.length matched))
        /\ added w (snd r) =
             match get cast "assignedTo" with
             | Some (Some a) =>
                 map (fun t => batchNotification P a (updated cast t)) matched
             | _ => []
             end)
    /\ (castUpdates set = None -> r = (internalError, w)).
Proof.
  intros env w P ids set HP Hrole Hids Hset Hall Hsaves r matched.
  subst r matched.
  rewrite (batchUpdate_run env w P ids set HP Hrole Hids Hset Hall).
  split; [|now intros ->].
  intros cast Hcast. rewrite Hcast. split; [reflexivity|]. cbn [snd].
  rewrite (castUpdates_get _ _ "assignedTo" Hcast).
  pose proof (fun v => castUpdates_defined _ _ "assignedTo" v Hcast) as Hdef.
  destruct (get set "assignedTo") as [[text|]|];
    try (apply added_none; reflexivity).
  specialize (Hdef (Some text) eq_refl).
  unfold castValue, castUpdate in *. cbn [String.eqb Ascii.eqb Bool.eqb] in *.
  destruct (objectId text) as [a|] eqn:Eo; [|contradiction].
  cbn [option_map snd].
  destruct (String.eqb_spec text "") as [E|_];
    [exfalso; exact (objectId_not_empty text a Eo E)|]. cbn [negb].
  apply added_app.
  rewrite (notifyEach_notifications env P a _ Hsaves).
  cbn [updateMany notifications tasks]. f_equal.
  rewrite filter_idIn_map.
  - rewrite map_map. apply map_ext_in. intros t Hin.
    apply filter_In in Hin. destruct Hin as [_ Hin]. rewrite Hin.
    now rewrite applySet_updated.
  - intros t. destruct (idIn ids t); [apply applySet_t_id | reflexivity].
Qed.

(** Mia gives the errand and the audit to Bob: two tasks, two notifications;
    with the empty text for an assignee she is answered 500. *)
Lemma batch_update_count_witness :
  (let r := batchUpdate Sample.env Sample.world (Session (u_id Sample.mia))
              {| taskIds := Some [t_id Sample.errand; t_id Sample.audit;
                                  "64b7f0a1c2d3e4f5a6b7d9ff"];
                 updates := Some [("assignedTo", Some (u_id Sample.bob))] |} in
   fst r = respond 200 (PBatch "Tasks updated successfully" 2)
   /\ List.length (added Sample.world (snd r)) = 2%nat)
  /\ batchUpdate Sample.env Sample.world (Session (u_id Sample.mia))
       {| taskIds := Some [t_id Sample.errand];
          updates := Some [("assignedTo", Some "")] |}
     = (internalError, Sample.world).
Proof.
  split.
  - intros r.
    destruct (batch_update_count Sample.env Sample.world Sample.mia
                [t_id Sample.errand; t_id Sample.audit; "64b7f0a1c2d3e4f5a6b7d9ff"]
                [("assignedTo", Some (u_id Sample.bob))] eq_refl
                (or_intror eq_refl)) as [H _].
    + discriminate.
    + discriminate.
    + intros key [<-|[]]. simpl. auto.
    + intros w0 n. reflexivity.
    + destruct (H [("assignedTo", Some (u_id Sample.bob))] eq_refl) as [Hr Ha].
      split; [exact Hr | exact (f_equal (@List.length Notification) Ha)].
  - destruct (batch_update_count Sample.env Sample.world Sample.mia
                [t_id Sample.errand] [("assignedTo", Some "")] eq_refl
                (or_intror eq_refl)) as [_ H].
    + discriminate.
    + discriminate.
    + intros key [<-|[]]. simpl. auto.
    + intros w0 n. reflexivity.
    + apply H. reflexivity.
Defined.

(** ** Pages and filters of the list query *)

(** The page and the limit that a request asks for. *)
Definition pageOf (f : Filters) : Z :=
  match f_page f with Some p => p | None => 1%Z end.

Definition limitOf (f : Filters) : Z :=
  match f_limit f with Some l => l | None => 10%Z end.

(** The documents of the store that match the query of a request. *)
Definition matching (env : Env) (w : World) (P : User) (f : Filters) : list Task :=
  filter (matches env (buildQuery env P f)) (tasks w).

Lemma length_insertSorted (leq : Task -> Task -> bool) (t : Task) (l : list Task) :
  List.length (insertSorted leq t l) = S (List.length l).
Proof.
  induction l as [|x l IH]; simpl; [reflexivity|].
  destruct (leq t x); simpl; [reflexivity | now rewrite IH].
Qed.

Lemma length_sortTasks (env : Env) (sortBy : string) (asc : bool) (l : list Task) :
  List.length (sortTasks env sortBy asc l) = List.length l.
Proof.
  unfold sortTasks. induction l as [|x l IH]; simpl; [reflexivity|].
  now rewrite length_insertSorted, IH.
Qed.

Lemma pageCount_bounds (total limit : Z) :
  (0 < limit)%Z ->
  exists pages,
    pageCount total limit = Some pages
    /\ ((pages - 1) * limit < total)%Z /\ (total <= pages * limit)%Z.
Proof.
  intros Hl. unfold pageCount.
  destruct (Z.eqb_spec limit 0); [lia|].
  eexists. split; [reflexivity|].
  pose proof (Z.div_mod (- total) limit n) as Hd.
  pose proof (Z.mod_pos_bound (- total) limit Hl) as Hm.
  nia.
Qed.

(** The answer 200 of the list route. *)
Lemma listTasks_run env w P f :
  findUserById w (u_id P) = Some P ->
  code (listTasks env w (Session (u_id P)) f) = 200 ->
  listTasks env w (Session (u_id P)) f =
    let found := matching env w P f in
    let sortBy := match f_sortBy f with Some s => s | None => "createdAt" end in
    let ascending :=
      match f_sortOrder f with Some s => s =? "asc" | None => false end in
    respond 200
      (PTasks
         (map (populate w)
            (limitTo (limitOf f)
               (skipn (Z.to_nat ((pageOf f - 1) * limitOf f))
                  (sortTasks env sortBy ascending found))))
         (Z.of_nat (List.length found)) (pageOf f)
         (pageCount (Z.of_nat (List.length found)) (limitOf f))).
Proof.
  intros HP. unfold listTasks, matching, pageOf, limitOf.
  rewrite (requireSignIn_session w P HP).
  destruct (negb (castable (buildQuery env P f)) || _); [discriminate|].
  reflexivity.
Qed.

(** X12. Paging of the list query. For a page from 1 on and a limit above 0,
    an answer 200 carries the page that was asked, the number of all the
    tasks that match as its total, the least number of pages of that limit
    that hold this total, and as many tasks as the limit allows of those
    that are left after the pages before. *)
Theorem list_pagination :
  forall (env : Env) (w : World) (P : User) (f : Filters),
    findUserById w (u_id P) = Some P ->
    (1 <= pageOf f)%Z ->
    (0 < limitOf f)%Z ->
    code (listTasks env w (Session (u_id P)) f) = 200 ->
    exists ts pages,
      payload (listTasks env w (Session (u_id P)) f)
        = PTasks ts (Z.of_nat (List.length (matching env w P f))) (pageOf f)
            (Some pages)
      /\ List.length ts
         = Nat.min (Z.to_nat (limitOf f))
             (List.length (matching env w P f)
              - Z.to_nat ((pageOf f - 1) * limitOf f))
      /\ ((pages - 1) * limitOf f < Z.of_nat (List.length (matching env w P f)))%Z
      /\ (Z.of_nat (List.length (matching env w P f)) <= pages * limitOf f)%Z.
Proof.
  intros env w P f HP Hpage Hlimit Hc.
  rewrite (listTasks_run env w P f HP Hc). cbn zeta. cbn [payload respond].
  destruct (pageCount_bounds (Z.of_nat (List.length (matching env w P f)))
              (limitOf f) Hlimit) as [pages [Hp [Hlo Hhi]]].
  rewrite Hp. eexists. exists pages. split; [reflexivity|].
  split; [|split; assumption].
  rewrite length_map. unfold limitTo.
  destruct (Z.eqb_spec (limitOf f) 0); [lia|].
  rewrite length_firstn, length_skipn, length_sortTasks.
  rewrite Z.abs_eq by lia. reflexivity.
Qed.

(** Rex, an admin, asks for the second page of two tasks: the store has
    three tasks, so the page has one task and is the last of two. *)
Lemma list_pagination_witness :
  exists ts,
    payload (listTasks Sample.env Sample.world (Session (u_id Sample.rex))
               (mkFilters None None None None None None None
                  (Some 2%Z) (Some 2%Z) None None))
      = PTasks ts 3 2 (Some 2%Z)
    /\ List.length ts = 1%nat.
Proof.
  destruct (list_pagination Sample.env Sample.world Sample.rex
              (mkFilters None None None None None None None
                 (Some 2%Z) (Some 2%Z) None None) eq_refl)
    as [ts [pages [Hp [Hlen [Hlo Hhi]]]]].
  - discriminate.
  - reflexivity.
  - reflexivity.
  - exists ts. split; [|exact Hlen].
    rewrite Hp.
    change (Z.of_nat (List.length (matching Sample.env Sample.world Sample.rex
              (mkFilters None None None None None None None
                 (Some 2%Z) (Some 2%Z) None None)))) with 3%Z in *.
    change (limitOf (mkFilters None None None None None None None
                       (Some 2%Z) (Some 2%Z) None None)) with 2%Z in *.
    assert (E : pages = 2%Z) by lia.
    rewrite E. reflexivity.
Defined.

(** The filters without the status and without the due date. *)
Definition withoutStatusAndDueDate (f : Filters) : Filters :=
  {| f_status := None; f_priority := f_priority f;
     f_dueDate := None; f_search := f_search f;
     f_assignedTo := f_assignedTo f; f_createdBy := f_createdBy f;
     f_overdue := f_overdue f; f_page := f_page f; f_limit := f_limit f;
     f_sortBy := f_sortBy f; f_sortOrder := f_sortOrder f |}.

(** The conditions of a query hold one by one on a document that matches. *)
Lemma matches_parts (env : Env) (q : Query) (t : Task) :
  matches env q t = true ->
  match q_status q with
  | Some (StatusIs s) => status t = Some s
  | Some (StatusNe s) => status t <> Some s
  | None => True
  end
  /\ match q_priority q with Some p => priority t = Some p | None => True end
  /\ match q_assignedTo q with Some a => assignedTo t = Some a | None => True end
  /\ match q_createdBy q with Some c => createdBy t = c | None => True end
  /\ match q_dueDate q with
     | Some (DueLt x) => exists d, dueDate t = Some d /\ (d < x)%Z
     | Some (DueBetween (Some lo) (Some hi)) =>
         exists d, dueDate t = Some d /\ (lo <= d <= hi)%Z
     | Some (DueBetween _ _) => False
     | None => True
     end.
Proof.
  unfold matches. intros H.
  repeat (apply andb_true_iff in H; destruct H as [H ?]).
  repeat match goal with
         | H : _ && _ = true |- _ => apply andb_true_iff in H; destruct H
         end.
  repeat split.
  - destruct (q_status q) as [[s|s]|]; [| |exact I];
      destruct (status t) as [s'|]; try discriminate.
    + f_equal. now apply String.eqb_eq.
    + intros E. injection E as ->. rewrite String.eqb_refl in *. discriminate.
  - destruct (q_priority q) as [p|]; [|exact I].
    destruct (priority t) as [p'|]; [|discriminate].
    f_equal. now apply String.eqb_eq.
  - destruct (q_assignedTo q) as [a|]; [|exact I].
    destruct (assignedTo t) as [a'|]; [|discriminate].
    f_equal. now apply String.eqb_eq.
  - destruct (q_createdBy q) as [c|]; [|exact I]. now apply String.eqb_eq.
  - destruct (q_dueDate q) as [[[lo|] [hi|]|x]|]; try discriminate; try exact I;
      destruct (dueDate t) as [d|]; try discriminate; exists d;
      (split; [reflexivity | lia]).
Qed.

(** X13. With [overdue=true] the list query looks for the tasks that are due
    before now and are not completed, and for nothing else about the status
    and the due date: a status filter and a due date filter of the same
    request have no effect on the answer. *)
Theorem overdue_replaces_status_and_due_date :
  forall (env : Env) (w : World) (P : User) (f : Filters),
    findUserById w (u_id P) = Some P ->
    f_overdue f = Some "true" ->
    listTasks env w (Session (u_id P)) f
      = listTasks env w (Session (u_id P)) (withoutStatusAndDueDate f)
    /\ forall p,
         In p (listed (listTasks env w (Session (u_id P)) f)) ->
         (exists d, dueDate (p_task p) = Some d /\ (d < env_now env)%Z)
         /\ status (p_task p) <> Some "completed".
Proof.
  intros env w P f HP Ho.
  assert (Hq : buildQuery env P f = buildQuery env P (withoutStatusAndDueDate f)).
  { unfold buildQuery. simpl. rewrite Ho. reflexivity. }
  split.
  - unfold listTasks. rewrite (requireSignIn_session w P HP), Hq. reflexivity.
  - intros p Hin.
    destruct (listed_matches env w P f p HP Hin) as [_ [_ Hm]].
    apply matches_parts in Hm. destruct Hm as [Hs [_ [_ [_ Hd]]]].
    unfold buildQuery in Hs, Hd. simpl in Hs, Hd. rewrite Ho in Hs, Hd.
    simpl in Hs, Hd. split; assumption.
Qed.

(** Rex asks for the overdue tasks that are completed and due on a day that
    no parser reads: the status and the day are not looked at, and the answer
    is the report, the one task that is overdue and not completed. *)
Lemma overdue_replaces_status_and_due_date_witness :
  let f := mkFilters (Some "completed") None (Some "someday") None None None
             (Some "true") None None None None in
  listTasks Sample.env Sample.world (Session (u_id Sample.rex)) f
    = listTasks Sample.env Sample.world (Session (u_id Sample.rex))
        (withoutStatusAndDueDate f)
  /\ listed (listTasks Sample.env Sample.world (Session (u_id Sample.rex)) f)
     = [populate Sample.world Sample.report].
Proof.
  intros f. split; [|reflexivity].
  apply (overdue_replaces_status_and_due_date Sample.env Sample.world Sample.rex f);
    reflexivity.
Defined.

(** X14. The filters of the list query are conditions on every task of the
    answer: a status (when the request is not for the overdue tasks), a
    priority, an assignee and a creator that the request gives are those of
    each task listed, [me] standing for the principal. *)
Theorem list_filters_hold :
  forall (env : Env) (w : World) (P : User) (f : Filters) (p : Populated),
    findUserById w (u_id P) = Some P ->
    In p (listed (listTasks env w (Session (u_id P)) f)) ->
    (forall s, f_status f = Some s -> s <> "" -> f_overdue f <> Some "true" ->
               status (p_task p) = Some s)
    /\ (forall s, f_priority f = Some s -> s <> "" -> priority (p_task p) = Some s)
    /\ (f_assignedTo f = Some "me" -> assignedTo (p_task p) = Some (u_id P))
    /\ (forall a, f_assignedTo f = Some a -> a <> "" -> a <> "me" ->
                  assignedTo (p_task p) = Some a)
    /\ (f_createdBy f = Some "me" -> createdBy (p_task p) = u_id P)
    /\ (forall c, f_createdBy f = Some c -> c <> "" -> c <> "me" ->
                  createdBy (p_task p) = c).
Proof.
  intros env w P f p HP Hin.
  destruct (listed_matches env w P f p HP Hin) as [_ [_ Hm]].
  apply matches_parts in Hm. destruct Hm as [Hs [Hp [Ha [Hc _]]]].
  unfold buildQuery in Hs, Hp, Ha, Hc. simpl in Hs, Hp, Ha, Hc.
  repeat split.
  - intros s E Hne Hov. rewrite E in Hs. simpl in Hs.
    destruct (String.eqb_spec s ""); [contradiction|]. simpl in Hs.
    destruct (f_overdue f) as [o|]; [|exact Hs].
    destruct (String.eqb_spec o "true"); [subst; congruence | exact Hs].
  - intros s E Hne. rewrite E in Hp. simpl in Hp.
    destruct (String.eqb_spec s ""); [contradiction | exact Hp].
  - intros E. rewrite E in Ha. exact Ha.
  - intros a E Hne Hme. rewrite E in Ha. unfold userFilter in Ha.
    destruct (String.eqb_spec a "me"); [contradiction|]. simpl in Ha.
    destruct (String.eqb_spec a ""); [contradiction | exact Ha].
  - intros E. rewrite E in Hc. exact Hc.
  - intros c E Hne Hme. rewrite E in Hc. unfold userFilter in Hc.
    destruct (String.eqb_spec c "me"); [contradiction|]. simpl in Hc.
    destruct (String.eqb_spec c ""); [contradiction | exact Hc].
Qed.

(** Ada asks for the tasks in review that she created. *)
Lemma list_filters_hold_witness :
  let f := mkFilters (Some "review") None None None None (Some "me") None
             None None None None in
  listed (listTasks Sample.env Sample.world (Session (u_id Sample.ada)) f)
    = [populate Sample.world Sample.audit]
  /\ status Sample.audit = Some "review"
  /\ createdBy Sample.audit = u_id Sample.ada.
Proof.
  intros f.
  assert (Hl : listed (listTasks Sample.env Sample.world
                         (Session (u_id Sample.ada)) f)
               = [populate Sample.world Sample.audit]) by reflexivity.
  destruct (list_filters_hold Sample.env Sample.world Sample.ada f
              (populate Sample.world Sample.audit) eq_refl)
    as [Hs [_ [_ [_ [Hc _]]]]].
  - rewrite Hl. left. reflexivity.
  - split; [exact Hl|]. split.
    + apply Hs; [reflexivity | discriminate | discriminate].
    + apply Hc. reflexivity.
Defined.

(** A request that only pages and sorts. *)
Definition unfiltered (f : Filters) : Prop :=
  f_status f = None /\ f_priority f = None /\ f_dueDate f = None
  /\ f_search f = None /\ f_assignedTo f = None /\ f_createdBy f = None
  /\ f_overdue f = None.

(** The principal is the creator or the assignee of the task. *)
Definition involves (P : User) (t : Task) : bool :=
  (createdBy t =? u_id P)
  || match assignedTo t with Some a => a =? u_id P | None => false end.

(** X15. Without filters the total of the list query is the number of tasks
    of the store for an admin, and for any other principal the number of
    tasks that this principal created or is assigned. *)
Theorem list_total_without_filters :
  forall (env : Env) (w : World) (P : User) (f : Filters),
    findUserById w (u_id P) = Some P ->
    unfiltered f ->
    code (listTasks env w (Session (u_id P)) f) = 200 ->
    exists ts pages,
      payload (listTasks env w (Session (u_id P)) f)
        = PTasks ts
            (Z.of_nat (if u_role P =? "admin"
                       then List.length (tasks w)
                       else List.length (filter (involves P) (tasks w))))
            (pageOf f) pages.
Proof.
  intros env w P f HP [H1 [H2 [H3 [H4 [H5 [H6 H7]]]]]] Hc.
  rewrite (listTasks_run env w P f HP Hc). cbn zeta. cbn [payload respond].
  do 2 eexists.
  assert (E : List.length (matching env w P f) =
              if u_role P =? "admin" then List.length (tasks w)
              else List.length (filter (involves P) (tasks w))).
  { unfold matching.
    assert (Hq : forall t, matches env (buildQuery env P f) t =
                           if u_role P =? "admin" then true else involves P t).
    { intros t. unfold matches, buildQuery.
      rewrite H1, H2, H3, H4, H5, H6, H7. simpl.
      destruct (u_role P =? "admin"); simpl; [reflexivity|].
      unfold involves. now rewrite orb_false_r, !andb_true_r. }
    rewrite (filter_ext _ _ Hq).
    destruct (u_role P =? "admin"); [|reflexivity].
    f_equal. clear. induction (tasks w) as [|x l IH]; simpl; congruence. }
  rewrite <- E. reflexivity.
Qed.

(** Rex counts the three tasks of the store, Bob the two that involve him. *)
Lemma list_total_without_filters_witness :
  (exists ts pages,
      payload (listTasks Sample.env Sample.world (Session (u_id Sample.rex))
                 (mkFilters None None None None None None None None None None None))
        = PTasks ts 3 1 pages)
  /\ (exists ts pages,
         payload (listTasks Sample.env Sample.world (Session (u_id Sample.bob))
                    (mkFilters None None None None None None None None None None None))
           = PTasks ts 2 1 pages).
Proof.
  split.
  - apply (list_total_without_filters Sample.env Sample.world Sample.rex
             (mkFilters None None None None None None None None None None None)
             eq_refl); [repeat split | reflexivity].
  - apply (list_total_without_filters Sample.env Sample.world Sample.bob
             (mkFilters None None None None None None None None None None None)
             eq_refl); [repeat split | reflexivity].
Defined.

(** ** The calendar of the recurrence *)

Module Calendar.

Import Dates.
Local Open Scope Z_scope.

(** The year of the era and the month from March that [civil] computes for a
    day of the era of 400 years, within their ranges. *)
Definition inRange (doe : Z) : bool :=
  let yoe := (doe - doe / 1460 + doe / 36524 - doe / 146096) / 365 in
  let doy := doe - (365 * yoe + yoe / 4 - yoe / 100) in
  let mp := (5 * doy + 2) / 153 in
  (0 <=? yoe) && (yoe <? 400) && (0 <=? mp) && (mp <=? 11).

(** [inRange] on the [n] days from [z]. *)
Fixpoint inRangeFrom (n : nat) (z : Z) : bool :=
  match n with
  | O => true
  | S n' => inRange z && inRangeFrom n' (z + 1)
  end.

Lemma inRangeFrom_all (n : nat) :
  forall z i, inRangeFrom n z = true -> z <= i < z + Z.of_nat n -> inRange i = true.
Proof.
  induction n as [|n IH]; intros z i H Hi; [lia|].
  cbn [inRangeFrom] in H. apply andb_true_iff in H. destruct H as [Hz Hrest].
  destruct (Z.eq_dec i z) as [->|Hne]; [exact Hz|].
  apply (IH (z + 1)); [exact Hrest | lia].
Qed.

Lemma era_in_range : inRangeFrom (Z.to_nat 146097) 0 = true.
Proof. vm_compute. reflexivity. Qed.

Lemma inRange_all (doe : Z) : 0 <= doe < 146097 -> inRange doe = true.
Proof.
  intros H. apply (inRangeFrom_all (Z.to_nat 146097) 0 doe era_in_range).
  rewrite Z2Nat.id; lia.
Qed.

(** [civil] answers a month from 0 to 11, and the day of this month of this
    year is the day that was given. *)
Lemma civil_inverse (z : Z) :
  let '(y, m, d) := civil z in
  0 <= m <= 11 /\ firstOfMonth y m + d - 1 = z.
Proof.
  unfold civil.
  set (z' := z + 719468).
  set (era := z' / 146097).
  set (doe := z' - era * 146097).
  assert (Hdoe : 0 <= doe < 146097).
  { unfold doe, era.
    pose proof (Z.div_mod z' 146097 ltac:(lia)).
    pose proof (Z.mod_pos_bound z' 146097 ltac:(lia)). lia. }
  pose proof (inRange_all doe Hdoe) as Hr. unfold inRange in Hr.
  set (yoe := (doe - doe / 1460 + doe / 36524 - doe / 146096) / 365) in *.
  set (doy := doe - (365 * yoe + yoe / 4 - yoe / 100)) in *.
  set (mp := (5 * doy + 2) / 153) in *.
  repeat (apply andb_true_iff in Hr; destruct Hr as [Hr ?]).
  apply Z.leb_le in Hr.
  repeat match goal with
         | H : (_ <=? _) = true |- _ => apply Z.leb_le in H
         | H : (_ <? _) = true |- _ => apply Z.ltb_lt in H
         end.
  assert (Hera : forall c, (yoe + era * 400 + c - c) / 400 = era).
  { intros c. replace (yoe + era * 400 + c - c) with (yoe + era * 400) by lia.
    rewrite Z.div_add by lia. rewrite Z.div_small by lia. lia. }
  unfold firstOfMonth.
  destruct (Z.ltb_spec mp 10) as [Hmp|Hmp].
  - destruct (Z.leb_spec (mp + 2) 1); [lia|].
    split; [lia|].
    replace (yoe + era * 400 + 0) with (yoe + era * 400 + 0 - 0) by lia.
    rewrite (Hera 0).
    replace (mp + 2 - 2) with mp by lia.
    replace (yoe + era * 400 + 0 - 0 - era * 400) with yoe by lia.
    unfold doy, doe, z'. lia.
  - destruct (Z.leb_spec (mp - 10) 1); [|lia].
    split; [lia|].
    rewrite (Hera 1).
    replace (mp - 10 + 10) with mp by lia.
    replace (yoe + era * 400 + 1 - 1 - era * 400) with yoe by lia.
    unfold doy, doe, z'. lia.
Qed.

(** Moving the day of the month by [n] moves the date by [n] days. *)
Lemma setDate_getDate (t n : Z) :
  setDate t (getDate t + n) = t + n * msPerDay.
Proof.
  unfold setDate, getDate.
  pose proof (civil_inverse (dayOf t)) as H.
  destruct (civil (dayOf t)) as [[y m] d]. destruct H as [Hm Hd].
  unfold makeDay. rewrite Z.div_small, Z.mod_small by lia.
  replace (y + 0) with y by lia.
  replace (firstOfMonth y m + (d + n) - 1) with (dayOf t + n) by lia.
  unfold dayOf, timeWithinDay, msPerDay.
  pose proof (Z.div_mod t 86400000 ltac:(lia)). lia.
Qed.

(** A month has 28 to 31 days. *)
Lemma month_length (y m : Z) :
  0 <= m <= 11 ->
  28 <= firstOfMonth (y + (m + 1) / 12) ((m + 1) mod 12) - firstOfMonth y m <= 31.
Proof.
  intros Hm.
  assert (Hc : m = 0 \/ m = 1 \/ m = 2 \/ m = 3 \/ m = 4 \/ m = 5 \/ m = 6
               \/ m = 7 \/ m = 8 \/ m = 9 \/ m = 10 \/ m = 11) by lia.
  unfold firstOfMonth.
  repeat (destruct Hc as [->|Hc]); try subst m;
    match goal with
    | |- context [(?a + 1) / 12] =>
        change ((a + 1) / 12) with 0 || change ((a + 1) / 12) with 1
    end;
    match goal with
    | |- context [(?a + 1) mod 12] =>
        let v := eval vm_compute in ((a + 1) mod 12) in
        change ((a + 1) mod 12) with v
    end;
    cbv beta iota zeta delta [Z.leb Z.compare Pos.compare Pos.compare_cont];
    Z.div_mod_to_equations; lia.
Qed.

(** Moving to the next month moves the date by 28 to 31 days. *)
Lemma setMonth_getMonth (t : Z) :
  exists k, 28 <= k <= 31 /\ setMonth t (getMonth t + 1) = t + k * msPerDay.
Proof.
  unfold setMonth, getMonth.
  pose proof (civil_inverse (dayOf t)) as H.
  destruct (civil (dayOf t)) as [[y m] d]. destruct H as [Hm Hd].
  unfold makeDay.
  exists (firstOfMonth (y + (m + 1) / 12) ((m + 1) mod 12) - firstOfMonth y m).
  split; [apply month_length; exact Hm|].
  unfold dayOf, timeWithinDay, msPerDay in *.
  pose proof (Z.div_mod t 86400000 ltac:(lia)). lia.
Qed.

End Calendar.

(** ** The next occurrence of a recurring task *)

(** The copy of a task that is due on [due], under the id [id]. *)
Definition occurrence (id : ObjectId) (task : Task) (due : Z) : Task :=
  {| t_id := id;
     title := title task;
     description := description task;
     status := Some "todo";
     priority := priority task;
     dueDate := Some due;
     createdBy := createdBy task;
     assignedTo := assignedTo task;
     tags := tags task;
     isRecurring := isRecurring task;
     recurringType := recurringType task;
     recurringEndDate := recurringEndDate task |}.

Lemma occurrence_validates (id : ObjectId) (task : Task) (due : Z) :
  validates task = true ->
  validatesEnums task = true ->
  validates (occurrence id task due) && validatesEnums (occurrence id task due)
    = true.
Proof.
  unfold validates, validatesEnums, occurrence. simpl. intros Hv He.
  rewrite Hv. simpl.
  apply andb_true_iff in He. destruct He as [He Hr].
  apply andb_true_iff in He. destruct He as [_ Hp].
  now rewrite Hp, Hr.
Qed.

(** What [createRecurringTask] answers once the next due date is known. *)
Lemma createRecurringTask_due env w task recurrence (d due : Z) :
  dueDate task = Some d ->
  nextDueDate (Some d) recurrence = Some (Some due) ->
  validates task = true ->
  validatesEnums task = true ->
  createRecurringTask env w task recurrence =
    if match recurringEndDate task with
       | Some e => (e <? due)%Z
       | None => false
       end
    then (None, w)
    else (Some (occurrence (env_newId env (nextId w)) task due),
          insertTask (takeId w) (occurrence (env_newId env (nextId w)) task due)).
Proof.
  intros Hd Hn Hv He. unfold createRecurringTask. rewrite Hd, Hn.
  unfold isAfter.
  destruct (match recurringEndDate task with
            | Some e => (e <? due)%Z
            | None => false
            end); [reflexivity|].
  fold (occurrence (env_newId env (nextId w)) task due).
  now rewrite occurrence_validates.
Qed.

(** X16. Called on a valid task that has a due date, [createRecurringTask]
    stores, for the daily recurrence, a copy that is due exactly one day
    later, and for the weekly recurrence seven days later, provided this day
    is not after the end of the recurrence: the copy has a new id, the status
    [todo] and the other paths of the task, and it is added at the end of the
    collection, the task itself staying as it is. *)
Theorem next_occurrence_by_days :
  forall (env : Env) (w : World) (task : Task) (recurrence : string) (d k : Z),
    (recurrence = "daily" /\ k = 1%Z) \/ (recurrence = "weekly" /\ k = 7%Z) ->
    dueDate task = Some d ->
    validates task = true ->
    validatesEnums task = true ->
    (forall e, recurringEndDate task = Some e ->
               (d + k * Dates.msPerDay <= e)%Z) ->
    let next := occurrence (env_newId env (nextId w)) task
                  (d + k * Dates.msPerDay) in
    fst (createRecurringTask env w task recurrence) = Some next
    /\ tasks (snd (createRecurringTask env w task recurrence))
       = (tasks w ++ [next])%list
    /\ nextId (snd (createRecurringTask env w task recurrence)) = S (nextId w).
Proof.
  intros env w task recurrence d k Hk Hd Hv He Hend next. subst next.
  assert (Hn : nextDueDate (Some d) recurrence
               = Some (Some (d + k * Dates.msPerDay)%Z)).
  { unfold nextDueDate.
    destruct Hk as [[-> ->]|[-> ->]]; simpl; now rewrite Calendar.setDate_getDate. }
  rewrite (createRecurringTask_due env w task recurrence d _ Hd Hn Hv He).
  destruct (recurringEndDate task) as [e|] eqn:Ee.
  - specialize (Hend e eq_refl).
    destruct (Z.ltb_spec e (d + k * Dates.msPerDay)); [lia|].
    repeat split.
  - repeat split.
Qed.

(** The daily report that is due on the 10th of January 2024 recurs on the
    11th. *)
Lemma next_occurrence_by_days_witness :
  fst (createRecurringTask Sample.env Sample.world Sample.report "daily")
    = Some (occurrence "64b7f0a1c2d3e4f5a6b7e001" Sample.report
              (Dates.utc 2024 1 11)).
Proof.
  apply (next_occurrence_by_days Sample.env Sample.world Sample.report "daily"
           (Dates.utc 2024 1 10) 1).
  - left. split; reflexivity.
  - reflexivity.
  - reflexivity.
  - reflexivity.
  - intros e H. discriminate H.
Defined.

(** X17. For the monthly recurrence the copy of a valid task that has a due
    date is due 28 to 31 days after the task, at the same time of the day:
    it is stored, as for the other recurrences, when this day is not after
    the end of the recurrence, and when it is after this end nothing is
    stored. *)
Theorem next_occurrence_by_month :
  forall (env : Env) (w : World) (task : Task) (d : Z),
    dueDate task = Some d ->
    validates task = true ->
    validatesEnums task = true ->
    exists k,
      (28 <= k <= 31)%Z
      /\ let due := (d + k * Dates.msPerDay)%Z in
         let next := occurrence (env_newId env (nextId w)) task due in
         ((forall e, recurringEndDate task = Some e -> (due <= e)%Z) ->
          fst (createRecurringTask env w task "monthly") = Some next
          /\ tasks (snd (createRecurringTask env w task "monthly"))
             = (tasks w ++ [next])%list
          /\ nextId (snd (createRecurringTask env w task "monthly"))
             = S (nextId w))
         /\ (forall e,
                recurringEndDate task = Some e -> (e < due)%Z ->
                createRecurringTask env w task "monthly" = (None, w)).
Proof.
  intros env w task d Hd Hv He.
  destruct (Calendar.setMonth_getMonth d) as [k [Hk Hs]].
  exists k. split; [exact Hk|].
  assert (Hn : nextDueDate (Some d) "monthly"
               = Some (Some (d + k * Dates.msPerDay)%Z)).
  { unfold nextDueDate. simpl. now rewrite Hs. }
  cbn zeta.
  rewrite (createRecurringTask_due env w task "monthly" d _ Hd Hn Hv He).
  split.
  - intros Hend. destruct (recurringEndDate task) as [e|].
    + specialize (Hend e eq_refl).
      destruct (Z.ltb_spec e (d + k * Dates.msPerDay)); [lia|].
      repeat split.
    + repeat split.
  - intros e -> Hlt.
    destruct (Z.ltb_spec e (d + k * Dates.msPerDay)); [reflexivity | lia].
Qed.

(** The audit that is due on the 1st of February 2024, a leap year, and that
    recurs until the 15th of March, recurs 29 days later, on the 1st of
    March. *)
Lemma next_occurrence_by_month_witness :
  let audit := setRecurringEndDate Sample.audit (Some (Dates.utc 2024 3 15)) in
  exists k,
    (28 <= k <= 31)%Z
    /\ fst (createRecurringTask Sample.env Sample.world audit "monthly")
       = Some (occurrence "64b7f0a1c2d3e4f5a6b7e001" audit
                 (Dates.utc 2024 2 1 + k * Dates.msPerDay))
    /\ (Dates.utc 2024 2 1 + 29 * Dates.msPerDay = Dates.utc 2024 3 1)%Z.
Proof.
  intros audit.
  destruct (next_occurrence_by_month Sample.env Sample.world audit
              (Dates.utc 2024 2 1) eq_refl eq_refl eq_refl)
    as [k [Hk [Hstored _]]].
  exists k. split; [exact Hk|]. split; [|reflexivity].
  apply Hstored. intros e [= <-].
  change (Dates.utc 2024 2 1) with 1706745600000%Z.
  change (Dates.utc 2024 3 15) with 1710460800000%Z.
  unfold Dates.msPerDay. lia.
Defined.

(** X18. The end of a recurrence. [createRecurringTask] answers nothing and
    stores no task when the recurrence is none of daily, weekly and monthly.
    Called on a task that has a due date, whenever it answers a task this
    task is new in the collection, has the status [todo], is due later than
    the task that it copies, and is not due after the end of the recurrence;
    and once the due date of a task has reached the end of its recurrence it
    answers nothing and leaves the store as it is. *)
Theorem recurrence_ends :
  forall (env : Env) (w : World) (task : Task) (recurrence : string),
    (recurrence <> "daily" -> recurrence <> "weekly" -> recurrence <> "monthly" ->
     createRecurringTask env w task recurrence = (None, w))
    /\ (forall d next,
           dueDate task = Some d ->
           fst (createRecurringTask env w task recurrence) = Some next ->
           tasks (snd (createRecurringTask env w task recurrence))
             = (tasks w ++ [next])%list
           /\ status next = Some "todo"
           /\ exists d',
                dueDate next = Some d' /\ (d < d')%Z
                /\ forall e, recurringEndDate task = Some e -> (d' <= e)%Z)
    /\ (forall d e,
           dueDate task = Some d ->
           recurringEndDate task = Some e ->
           (e <= d)%Z ->
           createRecurringTask env w task recurrence = (None, w)).
Proof.
  intros env w task recurrence.
  assert (Hlater : forall d due,
             nextDueDate (Some d) recurrence = Some (Some due) -> (d < due)%Z).
  { unfold nextDueDate. intros d due.
    destruct (recurrence =? "daily").
    - simpl. rewrite Calendar.setDate_getDate. unfold Dates.msPerDay.
      intros E. injection E as <-. lia.
    - destruct (recurrence =? "weekly").
      + simpl. rewrite Calendar.setDate_getDate. unfold Dates.msPerDay.
        intros E. injection E as <-. lia.
      + destruct (recurrence =? "monthly"); [|discriminate].
        simpl. destruct (Calendar.setMonth_getMonth d) as [k [Hk ->]].
        unfold Dates.msPerDay. intros E. injection E as <-. lia. }
  assert (Hdate : forall d, nextDueDate (Some d) recurrence <> Some None).
  { intros d. unfold nextDueDate.
    destruct (recurrence =? "daily"); [discriminate|].
    destruct (recurrence =? "weekly"); [discriminate|].
    destruct (recurrence =? "monthly"); discriminate. }
  split; [|split].
  - intros H1 H2 H3. unfold createRecurringTask, nextDueDate.
    destruct (String.eqb_spec recurrence "daily"); [contradiction|].
    destruct (String.eqb_spec recurrence "weekly"); [contradiction|].
    destruct (String.eqb_spec recurrence "monthly"); [contradiction|].
    reflexivity.
  - intros d next Hd. unfold createRecurringTask. rewrite Hd.
    specialize (Hlater d). specialize (Hdate d).
    destruct (nextDueDate (Some d) recurrence) as [[due|]|];
      [|contradiction|discriminate].
    specialize (Hlater due eq_refl).
    destruct (match recurringEndDate task with
              | Some e => isAfter (Some due) e
              | None => false
              end) eqn:Eend; [discriminate|].
    destruct (validates _ && validatesEnums _); [|discriminate].
    cbn [fst snd]. intros E. injection E as <-.
    split; [reflexivity|]. split; [reflexivity|].
    exists due. repeat split; try assumption.
    intros e He. rewrite He in Eend. unfold isAfter in Eend.
    destruct (Z.ltb_spec e due); [discriminate | assumption].
  - intros d e Hd He Hle. unfold createRecurringTask. rewrite Hd, He.
    specialize (Hlater d). specialize (Hdate d).
    destruct (nextDueDate (Some d) recurrence) as [[due|]|];
      [|contradiction|reflexivity].
    specialize (Hlater due eq_refl). unfold isAfter.
    destruct (Z.ltb_spec e due); [reflexivity | lia].
Qed.

(** A recurrence that the route does not know; and the daily report, were it
    to recur until the 10th of January, on which it is due, has no next
    occurrence. *)
Lemma recurrence_ends_witness :
  createRecurringTask Sample.env Sample.world Sample.report "yearly"
    = (None, Sample.world)
  /\ createRecurringTask Sample.env Sample.world
       (setRecurringEndDate Sample.report (Some (Dates.utc 2024 1 10))) "daily"
     = (None, Sample.world).
Proof.
  destruct (recurrence_ends Sample.env Sample.world Sample.report "yearly")
    as [H _].
  destruct (recurrence_ends Sample.env Sample.world
              (setRecurringEndDate Sample.report (Some (Dates.utc 2024 1 10)))
              "daily")
    as [_ [_ H']].
  split.
  - apply H; discriminate.
  - apply (H' (Dates.utc 2024 1 10) (Dates.utc 2024 1 10));
      [reflexivity | reflexivity | apply Z.le_refl].
Defined.

(** * Properties of the routes of the notifications *)

(** The notifications that a response lists. *)
Definition shownIn (r : Inbox.NResponse) : list Inbox.Shown :=
  match Inbox.n_payload r with
  | Inbox.NList items _ _ _ _ => items
  | _ => []
  end.

(** The number of notifications of a user that are not read. *)
Definition unread (c : list Inbox.Stored) (P : User) : nat :=
  List.length (filter (Inbox.unreadOf P) c).

Lemma In_insertNewest (s x : Inbox.Stored) (l : list Inbox.Stored) :
  In x (Inbox.insertNewest s l) <-> x = s \/ In x l.
Proof.
  induction l as [|y l IH]; simpl.
  - intuition congruence.
  - destruct (Inbox.s_createdAt y <=? Inbox.s_createdAt s)%Z; simpl;
      [intuition congruence|].
    rewrite IH. intuition congruence.
Qed.

Lemma In_newestFirst (x : Inbox.Stored) (l : list Inbox.Stored) :
  In x (Inbox.newestFirst l) <-> In x l.
Proof.
  unfold Inbox.newestFirst. induction l as [|y l IH]; simpl; [tauto|].
  rewrite In_insertNewest, IH. intuition congruence.
Qed.

(** X19. The listing of the notifications is private: every notification
    that it shows is a document of the collection whose recipient is the
    principal, read when the request asks for the read ones and unread when
    it asks for the unread ones. *)
Theorem inbox_is_private :
  forall (w : World) (c : list Inbox.Stored) (P : User) (p : Inbox.Params)
         (s : Inbox.Shown),
    findUserById w (u_id P) = Some P ->
    In s (shownIn (Inbox.listNotifications w c (Session (u_id P)) p)) ->
    In (Inbox.sh_stored s) c
    /\ recipient (Inbox.s_doc (Inbox.sh_stored s)) = u_id P
    /\ (Inbox.p_read p = Some "true" ->
        isRead (Inbox.s_doc (Inbox.sh_stored s)) = true)
    /\ (Inbox.p_read p = Some "false" ->
        isRead (Inbox.s_doc (Inbox.sh_stored s)) = false).
Proof.
  intros w c P p s HP. unfold Inbox.listNotifications.
  rewrite (requireSignIn_session w P HP).
  destruct (_ <? 0)%Z; unfold shownIn; simpl; [tauto|].
  rewrite in_map_iff. intros [x [<- Hx]]. simpl.
  assert (Hin : In x (filter (Inbox.selects P (Inbox.p_read p)) c)).
  { apply In_newestFirst. eapply In_skipn_In.
    unfold Inbox.atMost in Hx.
    destruct (_ =? 0)%Z; [exact Hx | eapply In_firstn_In; exact Hx]. }
  apply filter_In in Hin. destruct Hin as [Hc Hsel].
  unfold Inbox.selects in Hsel. apply andb_true_iff in Hsel.
  destruct Hsel as [Hr Hread]. apply String.eqb_eq in Hr.
  repeat split; try assumption.
  - intros E. rewrite E in Hread. exact Hread.
  - intros E. rewrite E in Hread. simpl in Hread.
    now destruct (isRead (Inbox.s_doc x)).
Qed.

(** Bob asks for his unread notifications: the one to Mia is not shown. *)
Lemma inbox_is_private_witness :
  shownIn (Inbox.listNotifications Sample.world SampleInbox.inbox
             (Session (u_id Sample.bob)) (Inbox.mkParams (Some "false") None None))
    = [Inbox.show Sample.world SampleInbox.toBob2]
  /\ recipient (Inbox.s_doc SampleInbox.toBob2) = u_id Sample.bob.
Proof.
  split; [reflexivity|].
  apply (inbox_is_private Sample.world SampleInbox.inbox Sample.bob
           (Inbox.mkParams (Some "false") None None)
           (Inbox.show Sample.world SampleInbox.toBob2) eq_refl).
  left. reflexivity.
Defined.

(** X20. The count of the unread notifications that a listing carries does
    not depend on the filter nor on the page of the listing: it is the count
    that the route of the unread count answers, the number of notifications
    of the principal that are not read. *)
Theorem unread_count_is_consistent :
  forall (w : World) (c : list Inbox.Stored) (P : User) (p : Inbox.Params),
    findUserById w (u_id P) = Some P ->
    Inbox.n_code (Inbox.listNotifications w c (Session (u_id P)) p) = 200 ->
    Inbox.unreadCount w c (Session (u_id P))
      = Inbox.answer 200 (Inbox.NCount (unread c P))
    /\ exists items total page pages,
         Inbox.n_payload (Inbox.listNotifications w c (Session (u_id P)) p)
           = Inbox.NList items (unread c P) total page pages.
Proof.
  intros w c P p HP. unfold Inbox.listNotifications, Inbox.unreadCount.
  rewrite (requireSignIn_session w P HP).
  destruct (_ <? 0)%Z; [discriminate|].
  intros _. split; [reflexivity|]. simpl. repeat eexists.
Qed.

(** Bob has one unread notification, on every page of every listing. *)
Lemma unread_count_is_consistent_witness :
  Inbox.unreadCount Sample.world SampleInbox.inbox (Session (u_id Sample.bob))
    = Inbox.answer 200 (Inbox.NCount 1)
  /\ exists items total page pages,
       Inbox.n_payload
         (Inbox.listNotifications Sample.world SampleInbox.inbox
            (Session (u_id Sample.bob)) (Inbox.mkParams (Some "true") (Some 3%Z) None))
         = Inbox.NList items 1 total page pages.
Proof.
  apply (unread_count_is_consistent Sample.world SampleInbox.inbox Sample.bob
           (Inbox.mkParams (Some "true") (Some 3%Z) None)); reflexivity.
Defined.

Lemma findOwn_some c P id s :
  Inbox.findOwn c P id = Some s ->
  In s c /\ Inbox.s_id s = id /\ recipient (Inbox.s_doc s) = u_id P.
Proof.
  unfold Inbox.findOwn. intros H. apply find_some in H.
  destruct H as [Hin H]. apply andb_true_iff in H.
  destruct H as [H1 H2]. apply String.eqb_eq in H1, H2. auto.
Qed.

Lemma map_no_id (f : Inbox.Stored -> Inbox.Stored) (id : ObjectId)
    (c : list Inbox.Stored) :
  ~ In id (map Inbox.s_id c) ->
  map (fun x => if Inbox.s_id x =? id then f x else x) c = c.
Proof.
  induction c as [|x c IH]; simpl; [reflexivity|].
  intros H. destruct (String.eqb_spec (Inbox.s_id x) id); [tauto|].
  rewrite IH; tauto.
Qed.

Lemma save_markedRead c P id s :
  NoDup (map Inbox.s_id c) ->
  Inbox.findOwn c P id = Some s ->
  Inbox.save c (Inbox.markedRead s)
    = map (fun x => if Inbox.s_id x =? id then Inbox.markedRead x else x) c.
Proof.
  intros Hnd Hf. destruct (findOwn_some c P id s Hf) as [_ [Hid _]].
  revert Hnd Hf. unfold Inbox.findOwn.
  induction c as [|x c IH]; simpl; [discriminate|].
  intros Hnd Hf. inversion Hnd as [|? ? Hx Hc]; subst.
  destruct (String.eqb_spec (Inbox.s_id x) (Inbox.s_id s)) as [E|E]; simpl in *.
  - rewrite map_no_id by (rewrite <- E; exact Hx).
    destruct (recipient (Inbox.s_doc x) =? u_id P).
    + injection Hf as <-. reflexivity.
    + exfalso. apply find_some in Hf. destruct Hf as [Hin _].
      apply Hx. rewrite E. now apply in_map.
  - f_equal. now apply IH.
Qed.

(** X21. Marking a notification as read. On a collection of distinct ids,
    the principal who is the recipient of the notification of the id is
    answered 200, and this notification is then read while every other
    document is as it was; for an id that is not the one of a notification
    of the principal, another user's notification included, the answer is
    404 and the collection is as it was. *)
Theorem mark_read_touches_one_own_notification :
  forall (w : World) (c : list Inbox.Stored) (P : User) (id : ObjectId),
    findUserById w (u_id P) = Some P ->
    NoDup (map Inbox.s_id c) ->
    (forall s,
        In s c -> Inbox.s_id s = id -> recipient (Inbox.s_doc s) = u_id P ->
        Inbox.markRead w c (Session (u_id P)) id
          = (Inbox.answer 200
               (Inbox.NMarked "Notification marked as read" (Inbox.markedRead s)),
             map (fun x => if Inbox.s_id x =? id then Inbox.markedRead x else x) c))
    /\ ((forall s, In s c -> Inbox.s_id s = id ->
                   recipient (Inbox.s_doc s) <> u_id P) ->
        Inbox.markRead w c (Session (u_id P)) id
          = (Inbox.answer 404 (Inbox.NError "Notification not found"), c)).
Proof.
  intros w c P id HP Hnd. unfold Inbox.markRead.
  rewrite (requireSignIn_session w P HP). split.
  - intros s Hin Hid Hr.
    destruct (Inbox.findOwn c P id) as [s'|] eqn:Ef.
    + rewrite (save_markedRead c P id s' Hnd Ef).
      destruct (findOwn_some c P id s' Ef) as [Hin' [Hid' _]].
      assert (s' = s).
      { clear - Hnd Hin Hin' Hid Hid'. subst id.
        induction c as [|x c IH]; [contradiction|].
        inversion Hnd as [|? ? Hx Hc]; subst.
        destruct Hin as [->|Hin]; destruct Hin' as [->|Hin']; auto.
        - exfalso. apply Hx. rewrite <- Hid'. now apply in_map.
        - exfalso. apply Hx. rewrite Hid'. now apply in_map. }
      subst. reflexivity.
    + exfalso. unfold Inbox.findOwn in Ef.
      apply (find_none _ _ Ef) in Hin.
      rewrite Hid, Hr, !String.eqb_refl in Hin. discriminate.
  - intros Hforeign.
    destruct (Inbox.findOwn c P id) as [s'|] eqn:Ef; [|reflexivity].
    destruct (findOwn_some c P id s' Ef) as [Hin [Hid Hr]].
    exfalso. exact (Hforeign s' Hin Hid Hr).
Qed.

(** Bob reads his second notification, and cannot read the one of Mia. *)
Lemma mark_read_touches_one_own_notification_witness :
  snd (Inbox.markRead Sample.world SampleInbox.inbox (Session (u_id Sample.bob))
         (Inbox.s_id SampleInbox.toBob2))
    = [SampleInbox.toBob1; SampleInbox.toMia; Inbox.markedRead SampleInbox.toBob2]
  /\ Inbox.markRead Sample.world SampleInbox.inbox (Session (u_id Sample.bob))
       (Inbox.s_id SampleInbox.toMia)
     = (Inbox.answer 404 (Inbox.NError "Notification not found"),
        SampleInbox.inbox).
Proof.
  assert (Hnd : NoDup (map Inbox.s_id SampleInbox.inbox)).
  { repeat constructor; simpl; intuition discriminate. }
  split.
  - destruct (mark_read_touches_one_own_notification Sample.world
                SampleInbox.inbox Sample.bob (Inbox.s_id SampleInbox.toBob2)
                eq_refl Hnd) as [H _].
    rewrite (H SampleInbox.toBob2); [reflexivity| |reflexivity|reflexivity].
    right. right. left. reflexivity.
  - destruct (mark_read_touches_one_own_notification Sample.world
                SampleInbox.inbox Sample.bob (Inbox.s_id SampleInbox.toMia)
                eq_refl Hnd) as [_ H].
    apply H. intros s [<-|[<-|[<-|[]]]]; simpl; intros; discriminate.
Defined.

Lemma unreadOf_markedRead (Q : User) (s : Inbox.Stored) :
  Inbox.unreadOf Q (Inbox.markedRead s) = false.
Proof. unfold Inbox.unreadOf. simpl. apply andb_false_r. Qed.

(** X22. Marking all as read leaves no unread notification to the principal
    and changes nothing for the others: the collection keeps its length and
    its ids, and the unread notifications of every other user are the same
    documents as before. *)
Theorem mark_all_read_is_private :
  forall (w : World) (c : list Inbox.Stored) (P : User),
    findUserById w (u_id P) = Some P ->
    let c' := snd (Inbox.markAllRead w c (Session (u_id P))) in
    unread c' P = 0%nat
    /\ map Inbox.s_id c' = map Inbox.s_id c
    /\ (forall s, In s c -> recipient (Inbox.s_doc s) <> u_id P -> In s c')
    /\ (forall Q, u_id Q <> u_id P ->
                  filter (Inbox.unreadOf Q) c' = filter (Inbox.unreadOf Q) c).
Proof.
  intros w c P HP c'. subst c'. unfold Inbox.markAllRead.
  rewrite (requireSignIn_session w P HP). cbn [snd].
  repeat split.
  - unfold unread. induction c as [|x c IH]; simpl; [reflexivity|].
    destruct (Inbox.unreadOf P x) eqn:E.
    + now rewrite unreadOf_markedRead.
    + now rewrite E.
  - rewrite map_map. apply map_ext. intros x.
    now destruct (Inbox.unreadOf P x).
  - intros s Hin Hr. apply in_map_iff. exists s. split; [|exact Hin].
    unfold Inbox.unreadOf.
    destruct (String.eqb_spec (recipient (Inbox.s_doc s)) (u_id P));
      [contradiction | reflexivity].
  - intros Q HQ. induction c as [|x c IH]; simpl; [reflexivity|].
    destruct (Inbox.unreadOf P x) eqn:E.
    + rewrite unreadOf_markedRead.
      assert (EQ : Inbox.unreadOf Q x = false).
      { unfold Inbox.unreadOf in *. apply andb_true_iff in E.
        destruct E as [E _]. apply String.eqb_eq in E. rewrite E.
        destruct (String.eqb_spec (u_id P) (u_id Q)); [congruence | reflexivity]. }
      now rewrite EQ.
    + destruct (Inbox.unreadOf Q x); now rewrite IH.
Qed.

Lemma filter_no_id (id : ObjectId) (c : list Inbox.Stored) :
  ~ In id (map Inbox.s_id c) ->
  filter (fun x => negb (Inbox.s_id x =? id)) c = c.
Proof.
  induction c as [|x c IH]; simpl; [reflexivity|].
  intros H. destruct (String.eqb_spec (Inbox.s_id x) id); [tauto|].
  simpl. rewrite IH; tauto.
Qed.

Lemma deleteOne_filter c id :
  NoDup (map Inbox.s_id c) ->
  Inbox.deleteOne c id = filter (fun x => negb (Inbox.s_id x =? id)) c.
Proof.
  induction c as [|x c IH]; simpl; [reflexivity|].
  intros Hnd. inversion Hnd as [|? ? Hx Hc]; subst.
  destruct (String.eqb_spec (Inbox.s_id x) id) as [E|E]; simpl.
  - subst. now rewrite filter_no_id.
  - f_equal. now apply IH.
Qed.

(** X23. Deleting a notification. On a collection of distinct ids, the
    recipient of the notification of the id is answered 200 and the
    collection then holds the other documents, as they were and in their
    order; for an id that is not the one of a notification of the principal
    the answer is 404 and nothing is deleted. *)
Theorem delete_removes_one_own_notification :
  forall (w : World) (c : list Inbox.Stored) (P : User) (id : ObjectId),
    findUserById w (u_id P) = Some P ->
    NoDup (map Inbox.s_id c) ->
    (forall s,
        In s c -> Inbox.s_id s = id -> recipient (Inbox.s_doc s) = u_id P ->
        Inbox.deleteNotification w c (Session (u_id P)) id
          = (Inbox.answer 200 (Inbox.NMessage "Notification deleted"),
             filter (fun x => negb (Inbox.s_id x =? id)) c))
    /\ ((forall s, In s c -> Inbox.s_id s = id ->
                   recipient (Inbox.s_doc s) <> u_id P) ->
        Inbox.deleteNotification w c (Session (u_id P)) id
          = (Inbox.answer 404 (Inbox.NError "Notification not found"), c)).
Proof.
  intros w c P id HP Hnd. unfold Inbox.deleteNotification.
  rewrite (requireSignIn_session w P HP). split.
  - intros s Hin Hid Hr.
    destruct (Inbox.findOwn c P id) as [s'|] eqn:Ef.
    + now rewrite deleteOne_filter.
    + exfalso. unfold Inbox.findOwn in Ef.
      apply (find_none _ _ Ef) in Hin.
      rewrite Hid, Hr, !String.eqb_refl in Hin. discriminate.
  - intros Hforeign.
    destruct (Inbox.findOwn c P id) as [s'|] eqn:Ef; [|reflexivity].
    destruct (findOwn_some c P id s' Ef) as [Hin [Hid Hr]].
    exfalso. exact (Hforeign s' Hin Hid Hr).
Qed.

(** Bob deletes his first notification, and cannot delete the one of Mia. *)
Lemma delete_removes_one_own_notification_witness :
  snd (Inbox.deleteNotification Sample.world SampleInbox.inbox
         (Session (u_id Sample.bob)) (Inbox.s_id SampleInbox.toBob1))
    = [SampleInbox.toMia; SampleInbox.toBob2]
  /\ Inbox.deleteNotification Sample.world SampleInbox.inbox
       (Session (u_id Sample.bob)) (Inbox.s_id SampleInbox.toMia)
     = (Inbox.answer 404 (Inbox.NError "Notification not found"),
        SampleInbox.inbox).
Proof.
  assert (Hnd : NoDup (map Inbox.s_id SampleInbox.inbox)).
  { repeat constructor; simpl; intuition discriminate. }
  split.
  - destruct (delete_removes_one_own_notification Sample.world
                SampleInbox.inbox Sample.bob (Inbox.s_id SampleInbox.toBob1)
                eq_refl Hnd) as [H _].
    rewrite (H SampleInbox.toBob1); [reflexivity| |reflexivity|reflexivity].
    left. reflexivity.
  - destruct (delete_removes_one_own_notification Sample.world
                SampleInbox.inbox Sample.bob (Inbox.s_id SampleInbox.toMia)
                eq_refl Hnd) as [_ H].
    apply H. intros s [<-|[<-|[<-|[]]]]; simpl; intros; discriminate.
Defined.

(** Bob marks all as read: his two notifications are read, the unread one of
    Mia is as it was. *)
Lemma mark_all_read_is_private_witness :
  let c' := snd (Inbox.markAllRead Sample.world SampleInbox.inbox
                   (Session (u_id Sample.bob))) in
  unread c' Sample.bob = 0%nat
  /\ filter (Inbox.unreadOf Sample.mia) c' = [SampleInbox.toMia].
Proof.
  intros c'.
  destruct (mark_all_read_is_private Sample.world SampleInbox.inbox Sample.bob
              eq_refl) as [H0 [_ [_ HQ]]].
  split; [exact H0|].
  fold c' in HQ. rewrite (HQ Sample.mia); [reflexivity | discriminate].
Defined.

(** * Properties of the routes of the users *)

(** The users that a response lists. *)
Definition usersIn (r : Accounts.UResponse) : list User :=
  match Accounts.u_payload r with
  | Accounts.UUsers l _ _ _ => l
  | _ => []
  end.

Lemma In_insertBy (leq : User -> User -> bool) (u x : User) (l : list User) :
  In x (Accounts.insertBy leq u l) <-> x = u \/ In x l.
Proof.
  induction l as [|y l IH]; simpl.
  - intuition congruence.
  - destruct (leq u y); simpl; [intuition congruence|].
    rewrite IH. intuition congruence.
Qed.

Lemma In_sorted_users (leq : User -> User -> bool) (x : User) (l : list User) :
  In x (fold_right (Accounts.insertBy leq) [] l) <-> In x l.
Proof.
  induction l as [|y l IH]; simpl; [tauto|].
  rewrite In_insertBy, IH. intuition congruence.
Qed.

(** X24. Every user that the listing of the users shows is a user of the
    store; to a manager it shows users of the role [user] only, whatever
    role the request asks for, and to any other principal users of the role
    that the request asks for; with a search, the name or the email of each
    user shown matches the pattern. *)
Theorem user_listing_filters :
  forall (env : Env) (newer : User -> User -> bool) (w : World) (P : User)
         (p : Accounts.Params) (u : User),
    findUserById w (u_id P) = Some P ->
    In u (usersIn (Accounts.listUsers env newer w (Session (u_id P)) p)) ->
    In u (users w)
    /\ (u_role P = "manager" -> u_role u = "user")
    /\ (forall role, u_role P <> "manager" -> Accounts.p_role p = Some role ->
                     role <> "" -> u_role u = role)
    /\ (forall search, Accounts.p_search p = Some search -> search <> "" ->
                       env_regex_i env search (u_name u) = true
                       \/ env_regex_i env search (u_email u) = true).
Proof.
  intros env newer w P p u HP. unfold Accounts.listUsers.
  rewrite (requireSignIn_session w P HP).
  destruct (_ <? 0)%Z; unfold usersIn; simpl; [tauto|].
  intros Hin.
  assert (Hf : In u (filter (Accounts.selects env P p) (users w))).
  { apply (In_sorted_users newer). eapply In_skipn_In.
    unfold Accounts.atMost in Hin.
    destruct (_ =? 0)%Z; [exact Hin | eapply In_firstn_In; exact Hin]. }
  apply filter_In in Hf. destruct Hf as [Hu Hsel].
  unfold Accounts.selects in Hsel. apply andb_true_iff in Hsel.
  destruct Hsel as [Hs Hr].
  unfold Accounts.roleOf in Hr. unfold Accounts.searchOf in Hs.
  repeat split; try assumption.
  - intros E. rewrite E in Hr. simpl in Hr. now apply String.eqb_eq.
  - intros role Hne E Hrole.
    destruct (String.eqb_spec (u_role P) "manager"); [contradiction|].
    rewrite E in Hr. simpl in Hr.
    destruct (String.eqb_spec role ""); [contradiction|]. simpl in Hr.
    now apply String.eqb_eq.
  - intros search E Hne. rewrite E in Hs. simpl in Hs.
    destruct (String.eqb_spec search ""); [contradiction|]. simpl in Hs.
    now apply orb_true_iff.
Qed.

(** Mia, a manager, asks for the admins and is shown the plain users. *)
Lemma user_listing_filters_witness :
  usersIn (Accounts.listUsers Sample.env (fun a b => String.leb (u_name a) (u_name b))
             Sample.world (Session (u_id Sample.mia))
             (Accounts.mkParams None (Some "admin") None None))
    = [Sample.ada; Sample.bob]
  /\ u_role Sample.ada = "user".
Proof.
  split; [reflexivity|].
  destruct (user_listing_filters Sample.env
              (fun a b => String.leb (u_name a) (u_name b)) Sample.world Sample.mia
              (Accounts.mkParams None (Some "admin") None None) Sample.ada eq_refl)
    as [_ [H _]].
  - left. reflexivity.
  - apply H. reflexivity.
Defined.

(** X25. Reading one user. A principal who is neither admin nor manager is
    answered 403; an admin is answered the user of the id, and 404 when the
    store has none; a manager is answered the user only when this user has
    the role [user], and 403 for a manager or an admin. *)
Theorem user_reading_rules :
  forall (w : World) (P : User) (id : ObjectId),
    findUserById w (u_id P) = Some P ->
    (u_role P <> "admin" -> u_role P <> "manager" ->
     Accounts.u_code (Accounts.getUser w (Session (u_id P)) id) = 403)
    /\ (u_role P = "admin" \/ u_role P = "manager" ->
        findUserById w id = None ->
        Accounts.u_code (Accounts.getUser w (Session (u_id P)) id) = 404)
    /\ (forall u,
           findUserById w id = Some u ->
           (u_role P = "admin" ->
            Accounts.getUser w (Session (u_id P)) id
              = Accounts.answer 200 (Accounts.UUser u))
           /\ (u_role P = "manager" ->
               (u_role u = "user" ->
                Accounts.getUser w (Session (u_id P)) id
                  = Accounts.answer 200 (Accounts.UUser u))
               /\ (u_role u <> "user" ->
                   Accounts.getUser w (Session (u_id P)) id
                     = Accounts.answer 403 (Accounts.UError "Access denied")))).
Proof.
  intros w P id HP. unfold Accounts.getUser.
  rewrite (requireSignIn_session w P HP). split; [|split].
  - intros Ha Hm.
    destruct (hasRole_denied ["admin"; "manager"] P) as [r [Hr Hc]].
    { simpl. intuition congruence. }
    rewrite Hr. exact Hc.
  - intros Hrole Hn. rewrite hasRole_allowed.
    2:{ simpl. destruct Hrole as [->| ->]; auto. }
    now rewrite Hn.
  - intros u Hu. split.
    + intros Ha. rewrite hasRole_allowed by (rewrite Ha; simpl; auto).
      rewrite Hu, Ha. reflexivity.
    + intros Hm. rewrite hasRole_allowed by (rewrite Hm; simpl; auto).
      rewrite Hu, Hm. simpl. split.
      * intros ->. reflexivity.
      * intros Hne. destruct (String.eqb_spec (u_role u) "user");
          [contradiction | reflexivity].
Qed.

(** Mia may read Bob, not Rex; Bob may read nobody. *)
Lemma user_reading_rules_witness :
  Accounts.getUser Sample.world (Session (u_id Sample.mia)) (u_id Sample.bob)
    = Accounts.answer 200 (Accounts.UUser Sample.bob)
  /\ Accounts.getUser Sample.world (Session (u_id Sample.mia)) (u_id Sample.rex)
     = Accounts.answer 403 (Accounts.UError "Access denied")
  /\ Accounts.u_code
       (Accounts.getUser Sample.world (Session (u_id Sample.bob)) (u_id Sample.ada))
     = 403.
Proof.
  split; [|split].
  - destruct (user_reading_rules Sample.world Sample.mia (u_id Sample.bob) eq_refl)
      as [_ [_ H]].
    destruct (H Sample.bob eq_refl) as [_ Hm].
    apply (Hm eq_refl). reflexivity.
  - destruct (user_reading_rules Sample.world Sample.mia (u_id Sample.rex) eq_refl)
      as [_ [_ H]].
    destruct (H Sample.rex eq_refl) as [_ Hm].
    apply (Hm eq_refl). discriminate.
  - apply (user_reading_rules Sample.world Sample.bob (u_id Sample.ada) eq_refl);
      discriminate.
Defined.

Lemma find_saveUser (l : list User) (u found : User) :
  find (fun x => u_id x =? u_id u) l = Some found ->
  find (fun x => u_id x =? u_id u) (Accounts.saveUser l u) = Some u.
Proof.
  induction l as [|x l IH]; simpl; [discriminate|].
  destruct (u_id x =? u_id u) eqn:E; simpl.
  - now rewrite String.eqb_refl.
  - rewrite E. exact IH.
Qed.

Lemma find_saveUser_other (l : list User) (u : User) (id : ObjectId) :
  id <> u_id u ->
  find (fun x => u_id x =? id) (Accounts.saveUser l u)
    = find (fun x => u_id x =? id) l.
Proof.
  intros Hne. induction l as [|x l IH]; simpl; [reflexivity|].
  destruct (String.eqb_spec (u_id x) (u_id u)) as [E|E]; simpl.
  - destruct (String.eqb_spec (u_id u) id); [congruence|].
    destruct (String.eqb_spec (u_id x) id); [congruence | reflexivity].
  - now rewrite IH.
Qed.

(** X26. Changing a role. The route is closed to the principals who are not
    admin (403) and never changes the role of the principal (400 on the
    principal's own id); in both cases, and for a role that is not one of
    the three (400), the store is as it was. When it answers 200 the user
    of the id has the role that was asked, every other user is found as
    before, the principal included, who is therefore still an admin, and
    the tasks are untouched. *)
Theorem role_change_rules :
  forall (w : World) (P : User) (id : ObjectId) (body : Obj),
    findUserById w (u_id P) = Some P ->
    let r := Accounts.setRole w (Session (u_id P)) id body in
    (u_role P <> "admin" -> Accounts.u_code (fst r) = 403 /\ snd r = w)
    /\ (u_role P = "admin" -> id = u_id P ->
        Accounts.u_code (fst r) = 400 /\ snd r = w)
    /\ (forall role, get body "role" = Some (VStr role) ->
                     ~ In role Accounts.roles -> u_role P = "admin" ->
                     Accounts.u_code (fst r) = 400 /\ snd r = w)
    /\ (Accounts.u_code (fst r) = 200 ->
        exists role target,
          get body "role" = Some (VStr role)
          /\ In role Accounts.roles
          /\ findUserById w id = Some target
          /\ findUserById (snd r) id = Some (Accounts.withRole target role)
          /\ (forall id', id' <> id ->
                          findUserById (snd r) id' = findUserById w id')
          /\ findUserById (snd r) (u_id P) = Some P
          /\ u_role P = "admin"
          /\ tasks (snd r) = tasks w).
Proof.
  intros w P id body HP r. subst r. unfold Accounts.setRole.
  rewrite (requireSignIn_session w P HP). split; [|split; [|split]].
  - intros Hna.
    destruct (hasRole_denied ["admin"] P) as [r [Hr Hc]].
    { simpl. intuition congruence. }
    rewrite Hr. split; [exact Hc | reflexivity].
  - intros Ha ->. rewrite hasRole_allowed by (rewrite Ha; simpl; auto).
    destruct (get body "role") as [[role| | | |]|]; try (split; reflexivity).
    destruct (negb (includes Accounts.roles role)); [split; reflexivity|].
    rewrite HP, String.eqb_refl. split; reflexivity.
  - intros role Hb Hout Ha.
    rewrite hasRole_allowed by (rewrite Ha; simpl; auto).
    rewrite Hb. destruct (includes Accounts.roles role) eqn:E.
    + apply includes_In in E. contradiction.
    + split; reflexivity.
  - destruct (hasRole ["admin"] P) as [[]|r] eqn:Hr.
    2:{ unfold hasRole in Hr. destruct (negb _); inversion Hr. discriminate. }
    assert (Ha : u_role P = "admin").
    { unfold hasRole in Hr.
      destruct (includes ["admin"] (u_role P)) eqn:E; [|discriminate].
      apply includes_In in E. destruct E as [E|[]]. now symmetry. }
    destruct (get body "role") as [[role| | | |]|]; try discriminate.
    destruct (includes Accounts.roles role) eqn:E; [|discriminate].
    cbn [negb].
    destruct (findUserById w id) as [target|] eqn:Ht; [|discriminate].
    pose proof (findUserById_id w id target Ht) as Hid.
    destruct (String.eqb_spec (u_id target) (u_id P)) as [Hself|Hne];
      [discriminate|].
    intros _. exists role, target.
    split; [reflexivity|]. split; [now apply includes_In|].
    split; [reflexivity|].
    assert (Hother : forall id', id' <> id ->
              findUserById
                (Accounts.withUsers w
                   (Accounts.saveUser (users w) (Accounts.withRole target role)))
                id' = findUserById w id').
    { intros id' Hd. unfold findUserById. cbn [Accounts.withUsers users].
      apply find_saveUser_other. simpl. congruence. }
    cbn [snd]. repeat split; try assumption.
    + unfold findUserById in *. cbn [Accounts.withUsers users].
      rewrite <- Hid.
      change (u_id target) with (u_id (Accounts.withRole target role)) at 1.
      apply (find_saveUser _ _ target). simpl. rewrite Hid. exact Ht.
    + rewrite Hother; [exact HP | congruence].
Qed.

(** Rex, an admin, makes Bob a manager, and cannot change his own role. *)
Lemma role_change_rules_witness :
  findUserById
    (snd (Accounts.setRole Sample.world (Session (u_id Sample.rex))
            (u_id Sample.bob) [("role", VStr "manager")]))
    (u_id Sample.bob)
    = Some (Accounts.withRole Sample.bob "manager")
  /\ Accounts.u_code
       (fst (Accounts.setRole Sample.world (Session (u_id Sample.rex))
               (u_id Sample.rex) [("role", VStr "user")])) = 400.
Proof.
  split.
  - destruct (role_change_rules Sample.world Sample.rex (u_id Sample.bob)
                [("role", VStr "manager")] eq_refl) as [_ [_ [_ H]]].
    destruct (H eq_refl) as [role [target [Hb [_ [Ht [Hf _]]]]]].
    injection Hb as <-. injection Ht as <-. exact Hf.
  - destruct (role_change_rules Sample.world Sample.rex (u_id Sample.rex)
                [("role", VStr "user")] eq_refl) as [_ [H _]].
    apply H; reflexivity.
Defined.

(** * Other properties of the routes of the tasks *)

(** A notification that the user sends and that is not read yet. *)
Definition sentBy (user : User) (n : Notification) : Prop :=
  sender n = u_id user /\ isRead n = false.

Lemma notifyAssigned_sentBy env w user body old task :
  grownBy (sentBy user) w (notifyAssigned env w user body old task).
Proof.
  destruct (notifyAssigned_cases env w user body old task) as [->|[a ->]].
  - apply grownBy_refl; reflexivity.
  - apply createNotification_grownBy. split; reflexivity.
Qed.

Lemma notifyUpdated_sentBy env w user body old task :
  grownBy (sentBy user) w (notifyUpdated env w user body old task).
Proof.
  unfold notifyUpdated.
  destruct (get body "status") as [v|]; destruct old as [a|];
    try (apply grownBy_refl; reflexivity).
  destruct (_ && _); [|apply grownBy_refl; reflexivity].
  apply createNotification_grownBy. split; reflexivity.
Qed.

(** X27. Every notification that the routes of the tasks add is unread and
    has the principal as its sender: this holds of the routes that create,
    update and delete a task and of the batch route. *)
Theorem notifications_are_sent_unread_by_the_principal :
  forall (env : Env) (w : World) (P : User),
    findUserById w (u_id P) = Some P ->
    (forall body,
        Forall (sentBy P) (added w (snd (createTask env w (Session (u_id P)) body))))
    /\ (forall id body,
           Forall (sentBy P)
             (added w (snd (updateTask env w (Session (u_id P)) id body))))
    /\ (forall id,
           Forall (sentBy P) (added w (snd (deleteTask env w (Session (u_id P)) id))))
    /\ (forall body,
           Forall (sentBy P)
             (added w (snd (batchUpdate env w (Session (u_id P)) body)))).
Proof.
  intros env w P HP. repeat split; intros; apply grownBy_added.
  - unfold createTask. rewrite (requireSignIn_session w P HP).
    destruct (negb (validateCreate body)); [apply grownBy_refl; reflexivity|].
    destruct (d_invalid _ || negb _); [apply grownBy_refl; reflexivity|].
    cbn [snd]. set (task := d_task (withCreator _ _)).
    destruct (assignedTo task) as [a|]; [|apply grownBy_refl; reflexivity].
    destruct (negb (a =? u_id P)); [|apply grownBy_refl; reflexivity].
    apply (grownBy_same _ w (insertTask (takeId w) task)); [reflexivity|].
    apply createNotification_grownBy. split; reflexivity.
  - destruct (updateTask_run env w (Session (u_id P)) id body)
      as [[H _]|[user [found [Hu [_ [_ H]]]]]]; rewrite H.
    + apply grownBy_refl; reflexivity.
    + rewrite (requireSignIn_session w P HP) in Hu. injection Hu as <-.
      cbn zeta. cbn [snd]. set (task := d_task (assignAll _ body)).
      apply (grownBy_same _ w (saveTask w task)); [reflexivity|].
      eapply grownBy_trans;
        [apply notifyAssigned_sentBy | apply notifyUpdated_sentBy].
  - unfold deleteTask. rewrite (requireSignIn_session w P HP).
    destruct (isTaskCreatorOrAdmin w P id) as [task|r];
      [|apply grownBy_refl; reflexivity].
    cbn [snd].
    match goal with
    | |- grownBy _ _ (deleteTaskById ?w1 _) =>
        apply (grownBy_trans _ w w1); [|apply grownBy_refl; reflexivity]
    end.
    destruct (assignedTo task) as [a|]; [|apply grownBy_refl; reflexivity].
    destruct (negb (a =? u_id P)); [|apply grownBy_refl; reflexivity].
    apply createNotification_grownBy. split; reflexivity.
  - apply batchUpdate_grownBy. intros user a task Hu.
    rewrite (requireSignIn_session w P HP) in Hu. injection Hu as <-.
    split; reflexivity.
Qed.

(** Ada deletes her report: the notification to Bob is hers and unread. *)
Lemma notifications_are_sent_unread_by_the_principal_witness :
  Forall (sentBy Sample.ada)
    (added Sample.world
       (snd (deleteTask Sample.env Sample.world (Session (u_id Sample.ada))
               (t_id Sample.report))))
  /\ List.length
       (added Sample.world
          (snd (deleteTask Sample.env Sample.world (Session (u_id Sample.ada))
                  (t_id Sample.report)))) = 1%nat.
Proof.
  split; [|reflexivity].
  apply (notifications_are_sent_unread_by_the_principal Sample.env Sample.world
           Sample.ada eq_refl).
Defined.

Lemma same_day (t d : Z) :
  (Dates.setHours t 0 0 0 0 <= d)%Z ->
  (d <= Dates.setHours (Dates.setHours t 0 0 0 0) 23 59 59 999)%Z ->
  Dates.dayOf d = Dates.dayOf t.
Proof.
  unfold Dates.setHours, Dates.dayOf, Dates.msPerDay. intros Hlo Hhi.
  replace ((t / 86400000 * 86400000 + ((0 * 60 + 0) * 60 + 0) * 1000 + 0)
           / 86400000)%Z with (t / 86400000)%Z in Hhi.
  2:{ replace (t / 86400000 * 86400000 + ((0 * 60 + 0) * 60 + 0) * 1000 + 0)%Z
        with (0 + t / 86400000 * 86400000)%Z by lia.
      rewrite Z.div_add by lia. reflexivity. }
  symmetry. apply (Z.div_unique d 86400000 (t / 86400000)
                     (d - 86400000 * (t / 86400000))); lia.
Qed.

(** X28. The due date filter of the list query is a filter on the day: when
    the request is not for the overdue tasks and its due date is read as a
    date, every task listed is due on the day of this date, between its
    first and its last millisecond. *)
Theorem due_date_filter_is_a_day :
  forall (env : Env) (w : World) (P : User) (f : Filters) (s : string) (t : Z)
         (p : Populated),
    findUserById w (u_id P) = Some P ->
    f_dueDate f = Some s ->
    s <> "" ->
    env_parseDate env s = Some t ->
    f_overdue f <> Some "true" ->
    In p (listed (listTasks env w (Session (u_id P)) f)) ->
    exists d,
      dueDate (p_task p) = Some d
      /\ Dates.dayOf d = Dates.dayOf t
      /\ (Dates.dayOf t * Dates.msPerDay <= d
          < (Dates.dayOf t + 1) * Dates.msPerDay)%Z.
Proof.
  intros env w P f s t p HP Hf Hne Ht Ho Hin.
  destruct (listed_matches env w P f p HP Hin) as [_ [_ Hm]].
  apply matches_parts in Hm. destruct Hm as [_ [_ [_ [_ Hd]]]].
  unfold buildQuery in Hd. cbn [q_dueDate] in Hd.
  rewrite Hf in Hd. simpl in Hd.
  destruct (String.eqb_spec s ""); [contradiction|]. simpl in Hd.
  rewrite Ht in Hd. simpl in Hd.
  assert (Hov : match f_overdue f with Some o => o =? "true" | None => false end
                = false).
  { destruct (f_overdue f) as [o|]; [|reflexivity].
    destruct (String.eqb_spec o "true"); [subst; congruence | reflexivity]. }
  rewrite Hov in Hd. destruct Hd as [d [Hdue [Hlo Hhi]]].
  exists d. split; [exact Hdue|].
  split; [now apply (same_day t d)|].
  unfold Dates.setHours, Dates.dayOf, Dates.msPerDay in *.
  replace ((t / 86400000 * 86400000 + ((0 * 60 + 0) * 60 + 0) * 1000 + 0)
           / 86400000)%Z with (t / 86400000)%Z in Hhi.
  2:{ replace (t / 86400000 * 86400000 + ((0 * 60 + 0) * 60 + 0) * 1000 + 0)%Z
        with (0 + t / 86400000 * 86400000)%Z by lia.
      rewrite Z.div_add by lia. reflexivity. }
  lia.
Qed.

(** Rex asks for the tasks that are due on the 10th of January 2024. *)
Lemma due_date_filter_is_a_day_witness :
  listed (listTasks Sample.env Sample.world (Session (u_id Sample.rex))
            (mkFilters None None (Some "2024-01-10") None None None None
               None None None None))
    = [populate Sample.world Sample.report]
  /\ exists d,
       dueDate Sample.report = Some d
       /\ Dates.dayOf d = Dates.dayOf (Dates.utc 2024 1 10)
       /\ (Dates.dayOf (Dates.utc 2024 1 10) * Dates.msPerDay <= d
           < (Dates.dayOf (Dates.utc 2024 1 10) + 1) * Dates.msPerDay)%Z.
Proof.
  split; [reflexivity|].
  apply (due_date_filter_is_a_day Sample.env Sample.world Sample.rex
           (mkFilters None None (Some "2024-01-10") None None None None
              None None None None)
           "2024-01-10" (Dates.utc 2024 1 10)
           (populate Sample.world Sample.report)).
  - reflexivity.
  - reflexivity.
  - discriminate.
  - reflexivity.
  - discriminate.
  - left. reflexivity.
Defined.
